(** * collection_prep: the migration passes of [update.py]

    A shallow embedding of the functions of [update.py] that edit the
    documentation-bearing assignments of a module file, and the properties
    of these passes.

    Conventions of the model.
    - Python [str] is [string]; the text functions below follow the Python
      ones on ASCII text (case mapping touches [A-Z]/[a-z] only).
    - An [ast] node reference is the position of the statement in
      [ast_file.body]; a pass that assigns to [bodypart[0].value] rewrites
      that position of the body, so every reference to the node sees it.
    - [ruamel.yaml] is not part of the repository: the loader and the dumper
      are parameters of the passes that use them; the loaded document is an
      ordered mapping / sequence / scalar tree.
    - A Python exception is a [Raise] result. *)

From Stdlib Require Import Ascii String List Bool Arith Lia ZArith Sorted.
From stdpp Require Import base list strings.
Import ListNotations.
Local Open Scope string_scope.
Local Open Scope list_scope.

(** ** Python text primitives *)

Module Py.

Definition code (c : ascii) : nat := nat_of_ascii c.

Definition is_upper (c : ascii) : bool :=
  Nat.leb 65 (code c) && Nat.leb (code c) 90.
Definition is_lower (c : ascii) : bool :=
  Nat.leb 97 (code c) && Nat.leb (code c) 122.

Definition lower_char (c : ascii) : ascii :=
  if is_upper c then ascii_of_nat (code c + 32) else c.
Definition upper_char (c : ascii) : ascii :=
  if is_lower c then ascii_of_nat (code c - 32) else c.

(** [str.lower()] and [str.upper()]. *)
Fixpoint lower (s : string) : string :=
  match s with
  | EmptyString => EmptyString
  | String c s' => String (lower_char c) (lower s')
  end.

Fixpoint upper (s : string) : string :=
  match s with
  | EmptyString => EmptyString
  | String c s' => String (upper_char c) (upper s')
  end.

(** [s.startswith(p)]. *)
Fixpoint startswith (p s : string) : bool :=
  match p, s with
  | EmptyString, _ => true
  | String a p', String b s' => if Ascii.eqb a b then startswith p' s' else false
  | String _ _, EmptyString => false
  end.

(** [sub in s]. *)
Fixpoint contains (sub s : string) : bool :=
  startswith sub s ||
  match s with
  | EmptyString => false
  | String _ s' => contains sub s'
  end.

(** [s[-1]], an [IndexError] ([None]) on the empty string. *)
Fixpoint last_char (s : string) : option ascii :=
  match s with
  | EmptyString => None
  | String c EmptyString => Some c
  | String _ s' => last_char s'
  end.

(** [chars = list(s); chars[-1] = f(chars[-1]); "".join(chars)]. *)
Fixpoint map_last (f : ascii -> ascii) (s : string) : string :=
  match s with
  | EmptyString => EmptyString
  | String c EmptyString => String (f c) EmptyString
  | String c s' => String c (map_last f s')
  end.

(** [s.split(sep)] for a one-character separator: never empty. *)
Fixpoint split_aux (sep : ascii) (cur : string) (s : string) : list string :=
  match s with
  | EmptyString => [String.rev cur]
  | String c s' =>
      if Ascii.eqb c sep then String.rev cur :: split_aux sep EmptyString s'
      else split_aux sep (String c cur) s'
  end.

Definition split (sep : ascii) (s : string) : list string :=
  split_aux sep EmptyString s.

(** The ASCII line boundaries of [str.splitlines]: LF, CR, VT, FF, FS, GS,
    RS; CR LF counts once. *)
Definition is_linebreak (c : ascii) : bool :=
  let n := code c in
  Nat.eqb n 10 || Nat.eqb n 13 || Nat.eqb n 11 || Nat.eqb n 12 ||
  Nat.eqb n 28 || Nat.eqb n 29 || Nat.eqb n 30.

Definition is_cr (c : ascii) : bool := Nat.eqb (code c) 13.
Definition is_lf (c : ascii) : bool := Nat.eqb (code c) 10.

(** [after_cr] is set right after a CR closed a line: a LF met in that
    state belongs to the same boundary. [cur] is the current line,
    reversed. *)
Fixpoint splitlines_aux (after_cr : bool) (cur : string) (s : string)
  : list string :=
  match s with
  | EmptyString =>
      match cur with
      | EmptyString => []
      | _ => [String.rev cur]
      end
  | String c s' =>
      if after_cr && is_lf c then splitlines_aux false EmptyString s'
      else if is_linebreak c
           then String.rev cur :: splitlines_aux (is_cr c) EmptyString s'
           else splitlines_aux false (String c cur) s'
  end.

Definition splitlines (s : string) : list string :=
  splitlines_aux false EmptyString s.

(** [sep.join(l)]. *)
Fixpoint join (sep : string) (l : list string) : string :=
  match l with
  | [] => EmptyString
  | [x] => x
  | x :: l' => x ++ sep ++ join sep l'
  end.

(** [s.replace(old, new)]. With [old] empty Python puts [new] around
    every character. Otherwise the occurrences are taken left to right
    without overlap: [skip] counts the characters of a match still to be
    dropped. *)
Fixpoint replace_empty (new s : string) : string :=
  new ++ match s with
         | EmptyString => EmptyString
         | String c s' => String c (replace_empty new s')
         end.

Fixpoint replace_aux (old new : string) (skip : nat) (s : string) : string :=
  match s with
  | EmptyString => EmptyString
  | String c s' =>
      match skip with
      | S k => replace_aux old new k s'
      | O =>
          if startswith old s
          then new ++ replace_aux old new (String.length old - 1) s'
          else String c (replace_aux old new 0 s')
      end
  end.

Definition replace (old new s : string) : string :=
  match old with
  | EmptyString => replace_empty new s
  | _ => replace_aux old new 0 s
  end.

(** The ASCII characters matched by [\s] in a [str] pattern. *)
Definition is_space (c : ascii) : bool :=
  let n := code c in
  Nat.eqb n 32 || (Nat.leb 9 n && Nat.leb n 13) ||
  (Nat.leb 28 n && Nat.leb n 31).

End Py.

(** ** Exceptions and results *)

Inductive exn : Type :=
| AttributeError
| IndexError
| KeyError
| TypeError
| YAMLError.

Inductive result (A : Type) : Type :=
| Ok (a : A)
| Raise (e : exn).
Arguments Ok {A} a.
Arguments Raise {A} e.

Definition bind {A B} (r : result A) (f : A -> result B) : result B :=
  match r with
  | Ok a => f a
  | Raise e => Raise e
  end.

Notation "'let*' x := r 'in' k" := (bind r (fun x => k))
  (at level 10, x name, r at level 100, k at level 200).

(** [l[i]] of a Python list. *)
Definition getitem {A} (l : list A) (i : nat) : result A :=
  match l !! i with
  | Some a => Ok a
  | None => Raise IndexError
  end.

Definition is_ok {A} (r : result A) : bool :=
  match r with
  | Ok _ => true
  | Raise _ => false
  end.

(** ** The syntax tree, as far as the passes look at it *)

(** The value of an [ast.Constant]. *)
Inductive constant : Type :=
| CStr (s : string)
| CInt (z : Z)
| CNone.

#[warnings="-register-all"]
Inductive expr : Type :=
| Name (id : string)
| Constant (value : constant)
| Dict (keys values : list expr)
| Tuple (elts : list expr)
| Attribute (value : expr) (attr : string)
| Subscript (value slice : expr).

(** A statement of [ast_file.body] is seen through two attributes only:
    [targets] ([ast.Assign] and [ast.Delete] have it) and [value]
    ([ast.Assign], [ast.Expr], ... have it; any node receives it when
    [update_metdata] assigns to it). *)
Record stmt : Type := Stmt {
  targets : option (list expr);
  value : option expr
}.

Definition Assign (ts : list expr) (v : expr) : stmt := Stmt (Some ts) (Some v).
Definition Delete (ts : list expr) : stmt := Stmt (Some ts) None.
Definition Expr (v : expr) : stmt := Stmt None (Some v).
Definition Pass : stmt := Stmt None None.

(** What an attribute read [e.value] gives. *)
Inductive pyobj : Type :=
| OConst (c : constant)
| ONode (e : expr).

(** [t.id]: only an [ast.Name] has it. *)
Definition expr_id (t : expr) : result string :=
  match t with
  | Name id => Ok id
  | _ => Raise AttributeError
  end.

(** [e.value] of an expression node. *)
Definition expr_value (e : expr) : result pyobj :=
  match e with
  | Constant c => Ok (OConst c)
  | Attribute v _ => Ok (ONode v)
  | Subscript v _ => Ok (ONode v)
  | _ => Raise AttributeError
  end.

(** [b.value] of a statement node. *)
Definition stmt_value (b : stmt) : result expr :=
  match value b with
  | Some e => Ok e
  | None => Raise AttributeError
  end.

(** ** The assignment locator *)

(** [hasattr(b, "targets") and b.targets[0].id == name] *)
Definition is_assignment_of (name : string) (b : stmt) : result bool :=
  match targets b with
  | None => Ok false
  | Some ts =>
      let* t := getitem ts 0 in
      let* id := expr_id t in
      Ok (String.eqb id name)
  end.

(** The comprehension over [ast_file.body]; [i] is the position of the
    head of [l] in the body. The result lists the matching nodes. *)
Fixpoint find_from (i : nat) (name : string) (l : list stmt)
  : result (list nat) :=
  match l with
  | [] => Ok []
  | b :: l' =>
      let* m := is_assignment_of name b in
      let* r := find_from (S i) name l' in
      Ok (if m then i :: r else r)
  end.

Definition find_assigment_in_ast (name : string) (ast_file : list stmt)
  : result (list nat) :=
  find_from 0 name ast_file.

(** ** Documents *)

(** What [ruamel.yaml.load] returns: scalars, [CommentedSeq],
    [CommentedMap] (an ordered dict: the entries in insertion order, the
    keys distinct). *)
#[warnings="-register-all"]
Inductive yaml : Type :=
| YNull
| YBool (b : bool)
| YInt (z : Z)
| YStr (s : string)
| YSeq (items : list yaml)
| YMap (items : list (string * yaml)).

(** Structural equality, used for [a != b] (the values compared by the
    deriver are a [str] against a loaded value, or a value against
    itself). *)
Fixpoint yaml_eqb (a b : yaml) : bool :=
  match a, b with
  | YNull, YNull => true
  | YBool x, YBool y => Bool.eqb x y
  | YInt x, YInt y => Z.eqb x y
  | YStr x, YStr y => String.eqb x y
  | YSeq l, YSeq m =>
      (fix go (l m : list yaml) : bool :=
         match l, m with
         | [], [] => true
         | x :: l', y :: m' => yaml_eqb x y && go l' m'
         | _, _ => false
         end) l m
  | YMap l, YMap m =>
      (fix go (l m : list (string * yaml)) : bool :=
         match l, m with
         | [], [] => true
         | (k, x) :: l', (j, y) :: m' =>
             String.eqb k j && yaml_eqb x y && go l' m'
         | _, _ => false
         end) l m
  | _, _ => false
  end.

(** Ordered-dict operations on the entry list. *)
Module OD.

Definition keys (d : list (string * yaml)) : list string := map fst d.

(** [k in d] *)
Definition mem (k : string) (d : list (string * yaml)) : bool :=
  existsb (String.eqb k) (keys d).

(** [d.get(k)] *)
Fixpoint get (k : string) (d : list (string * yaml)) : option yaml :=
  match d with
  | [] => None
  | (j, v) :: d' => if String.eqb j k then Some v else get k d'
  end.

(** [d[k] = v]: in place when [k] is there, at the end otherwise. *)
Fixpoint setitem (k : string) (v : yaml) (d : list (string * yaml))
  : list (string * yaml) :=
  match d with
  | [] => [(k, v)]
  | (j, w) :: d' =>
      if String.eqb j k then (j, v) :: d' else (j, w) :: setitem k v d'
  end.

(** [d.pop(k, None)] *)
Definition pop (k : string) (d : list (string * yaml))
  : list (string * yaml) :=
  List.filter (fun e => negb (String.eqb (fst e) k)) d.

(** [ordereddict(pairs)]: the pairs are stored one after the other, so
    a repeated key keeps its first position and takes the last value. *)
Definition of_pairs (pairs : list (string * yaml)) : list (string * yaml) :=
  fold_left (fun d e => setitem (fst e) (snd e) d) pairs [].

(** [CommentedMap.insert(pos, key, value)] for a [key] that is not in the
    mapping: the entry goes to position [pos], or to the end when [pos]
    is past it. *)
Definition insert (pos : nat) (k : string) (v : yaml)
    (d : list (string * yaml)) : list (string * yaml) :=
  firstn pos d ++ (k, v) :: skipn pos d.

End OD.

(** ** The file being processed: its tree and the log *)

Inductive level : Type := INFO | WARNING.

Record state : Type := State {
  body : list stmt;
  log : list (level * string)
}.

(** A pass reads and rewrites the tree, logs, and may raise. *)
Definition M (A : Type) : Type := state -> result (A * state).

Definition ret {A} (a : A) : M A := fun st => Ok (a, st).

Definition bindM {A B} (m : M A) (f : A -> M B) : M B := fun st =>
  match m st with
  | Ok (a, st') => f a st'
  | Raise e => Raise e
  end.

Notation "x <- m ;; k" := (bindM m (fun x => k))
  (at level 100, m at next level, right associativity).
Notation "m ;;; k" := (bindM m (fun _ => k))
  (at level 100, right associativity).

Definition lift {A} (r : result A) : M A := fun st =>
  match r with
  | Ok a => Ok (a, st)
  | Raise e => Raise e
  end.

Definition logging (lv : level) (msg : string) : M unit := fun st =>
  Ok (tt, State (body st) (log st ++ [(lv, msg)])).

(** Dereference of a node of the tree. *)
Definition node (i : nat) : M stmt := fun st => lift (getitem (body st) i) st.

Definition set_node (i : nat) (b : stmt) : M unit := fun st =>
  Ok (tt, State (<[i := b]> (body st)) (log st)).

(** [n.value.value] *)
Definition node_value_value (i : nat) : M pyobj :=
  b <- node i ;;
  e <- lift (stmt_value b) ;;
  lift (expr_value e).

(** [n.value = e] *)
Definition set_node_value (i : nat) (e : expr) : M unit :=
  b <- node i ;;
  set_node i (Stmt (targets b) (Some e)).

(** [n.value.value = text]. Every pass reads [n.value.value] as a [str]
    before it writes it, so the node written is an [ast.Constant]; the
    other branch is never taken. *)
Definition set_node_value_value (i : nat) (text : string) : M unit :=
  b <- node i ;;
  e <- lift (stmt_value b) ;;
  match e with
  | Constant _ => set_node i (Stmt (targets b) (Some (Constant (CStr text))))
  | _ => lift (Raise AttributeError)
  end.

(** ** Text of the passes *)

Definition SPECIALS : list (string * string) :=
  [("ospfv2", "OSPFv2"); ("interfaces", "Interfaces"); ("static", "Static")].

Fixpoint specials_get (k : string) (d : list (string * string))
  : option string :=
  match d with
  | [] => None
  | (j, v) :: d' => if String.eqb j k then Some v else specials_get k d'
  end.

Fixpoint skip_spaces (s : string) : string :=
  match s with
  | EmptyString => EmptyString
  | String c s' => if Py.is_space c then skip_spaces s' else s
  end.

Fixpoint strip_prefix (p s : string) : option string :=
  match p, s with
  | EmptyString, _ => Some s
  | String a p', String b s' =>
      if Ascii.eqb a b then strip_prefix p' s' else None
  | String _ _, EmptyString => None
  end.

(** [.*$]: no line feed, except one that ends the text. *)
Fixpoint dot_star_end (s : string) : bool :=
  match s with
  | EmptyString => true
  | String c s' =>
      if Py.is_lf c then
        match s' with
        | EmptyString => true
        | _ => false
        end
      else dot_star_end s'
  end.

(** [re.match(r"^\s+version_added\:\s.*$", l)] *)
Definition version_added_re (l : string) : bool :=
  match l with
  | EmptyString => false
  | String c l' =>
      Py.is_space c &&
      match strip_prefix "version_added:" (skip_spaces l') with
      | Some (String w rest) => Py.is_space w && dot_star_end rest
      | _ => false
      end
  end.

(** The test and the substitution on one line of the dumped examples. *)
Definition fqcn_comment (module_name full_module_name line : string)
  : string :=
  if Py.startswith "#" line
     && Py.contains module_name line
     && negb (String.eqb module_name "")
     && negb (Py.contains full_module_name line)
  then Py.replace module_name full_module_name line
  else line.

(** [CommentedMap([(full, v) if k == module_name else (k, v) ...])] *)
Definition fqcn_pairs (module_name full_module_name : string)
    (items : list (string * yaml)) : list (string * yaml) :=
  map (fun e => if String.eqb (fst e) module_name
                then (full_module_name, snd e) else e) items.

Definition fqcn_task (module_name full_module_name : string) (task : yaml)
  : result yaml :=
  match task with
  | YMap items =>
      Ok (YMap (OD.of_pairs (fqcn_pairs module_name full_module_name items)))
  | _ => Raise AttributeError
  end.

Fixpoint fqcn_tasks (module_name full_module_name : string)
    (tasks : list yaml) : result (list yaml) :=
  match tasks with
  | [] => Ok []
  | task :: tasks' =>
      let* t := fqcn_task module_name full_module_name task in
      let* r := fqcn_tasks module_name full_module_name tasks' in
      Ok (t :: r)
  end.

(** The loop [for idx, task in enumerate(example): example[idx] = ...].
    Iterating a mapping or a string gives strings, which have no
    [items]; a scalar cannot be iterated. *)
Definition fqcn_example (module_name full_module_name : string)
    (example : yaml) : result yaml :=
  match example with
  | YSeq tasks =>
      let* r := fqcn_tasks module_name full_module_name tasks in Ok (YSeq r)
  | YMap [] => Ok example
  | YMap (_ :: _) => Raise AttributeError
  | YStr EmptyString => Ok example
  | YStr (String _ _) => Raise AttributeError
  | _ => Raise TypeError
  end.

(** [list(d.keys())] *)
Definition yaml_keys (d : yaml) : result (list string) :=
  match d with
  | YMap items => Ok (OD.keys items)
  | _ => Raise AttributeError
  end.

(** [d[k]] for a string [k] *)
Definition yaml_getitem (d : yaml) (k : string) : result yaml :=
  match d with
  | YMap items =>
      match OD.get k items with
      | Some v => Ok v
      | None => Raise KeyError
      end
  | _ => Raise TypeError
  end.

(** [bool(v)] *)
Definition truthy (v : yaml) : bool :=
  match v with
  | YNull => false
  | YBool b => b
  | YInt z => negb (Z.eqb z 0)
  | YStr s => negb (String.eqb s "")
  | YSeq l => negb (Nat.eqb (length l) 0)
  | YMap l => negb (Nat.eqb (length l) 0)
  end.

(** *** The short description (lines 184-207 of [update_short_description]) *)

Definition rm_rets : list string := ["after"; "before"; "commands"].

(** [if resource.lower()[-1].endswith("s"): ...] (lines 197-200) *)
Definition lower_trailing_s (resource : string) : result string :=
  match Py.last_char (Py.lower resource) with
  | None => Raise IndexError
  | Some c =>
      if Ascii.eqb c "s"
      then Ok (Py.map_last Py.lower_char resource)
      else Ok resource
  end.

(** The resource string before the trailing-s step (lines 190-196) *)
Definition resource_token (parts : list string) : result string :=
  let* p1 := getitem parts 1 in
  let resource := Py.lower p1 in
  match specials_get resource SPECIALS with
  | Some r => Ok r
  | None => Ok (Py.upper resource)
  end.

(** The description of a resource module (lines 190-203) *)
Definition resource_description (module_name : string) : result string :=
  let parts := Py.split "_" module_name in
  let* resource := resource_token parts in
  let* resource := lower_trailing_s resource in
  let resource :=
    match parts !! 2 with
    | Some p2 =>
        if String.eqb p2 "global" then resource else resource +:+ " " +:+ p2
    | None => resource
    end in
  Ok (resource +:+ " resource module").

(** The deprecation step (lines 205-207): the description and whether it
    was prefixed. [startswith] needs a [str]. *)
Definition deprecated_step (doc_items : list (string * yaml))
    (short_description : yaml) : result (yaml * bool) :=
  if OD.mem "deprecated" doc_items then
    match short_description with
    | YStr s =>
        if Py.startswith "(deprecated)" s
        then Ok (short_description, false)
        else Ok (YStr ("(deprecated) " +:+ s), true)
    | _ => Raise AttributeError
    end
  else Ok (short_description, false).

(** The short description after the resource detection (lines 184-203),
    with the messages logged on the way. *)
Definition detected_description (ret_section doc_section : yaml)
    (module_name : string) : result (yaml * list (level * string)) :=
  let* short_description := yaml_getitem doc_section "short_description" in
  let* ks := yaml_keys ret_section in
  let matched := List.filter (fun x => existsb (String.eqb x) ks) rm_rets in
  if Nat.eqb (length matched) (length rm_rets) then
    let* d := resource_description module_name in
    Ok (YStr d, [(INFO, "Found a resource module")])
  else Ok (short_description, []).

(** The final short description (lines 184-207). The documentation is a
    mapping once its short description was read. *)
Definition short_description_of (ret_section doc_section : yaml)
    (module_name : string) : result (yaml * list (level * string)) :=
  let* r := detected_description ret_section doc_section module_name in
  match doc_section with
  | YMap doc_items =>
      let* p := deprecated_step doc_items (fst r) in
      Ok (fst p,
          if snd p then snd r ++ [(INFO, "Found to be deprecated")]
          else snd r)
  | _ => Raise TypeError
  end.

(** [doc_section["short_description"] = v] *)
Definition yaml_setitem (d : yaml) (k : string) (v : yaml) : result yaml :=
  match d with
  | YMap items => Ok (YMap (OD.setitem k v items))
  | _ => Raise TypeError
  end.

(** ["%s" % v] for the description that is logged: it differs from the
    loaded one, hence is a [str]. *)
Definition fmt_s (v : yaml) : string :=
  match v with
  | YStr s => s
  | _ => ""
  end.

(** ** The passes *)

Section Passes.

(** [ruamel.yaml.load(text, RoundTripLoader)]; [None] is a parse error. *)
Variable yaml_load : string -> option yaml.
(** [ruamel.yaml.dump(document, None, RoundTripDumper)] *)
Variable yaml_dump : yaml -> string.

(** The loader applied to what [n.value.value] gave: it wants text. *)
Definition load (o : pyobj) : result yaml :=
  match o with
  | OConst (CStr text) =>
      match yaml_load text with
      | Some d => Ok d
      | None => Raise YAMLError
      end
  | _ => Raise AttributeError
  end.

Definition load_node (i : nat) : M yaml :=
  o <- node_value_value i ;;
  lift (load o).

Definition locate (name : string) : M (list nat) := fun st =>
  lift (find_assigment_in_ast name (body st)) st.

Fixpoint logging_all (msgs : list (level * string)) : M unit :=
  match msgs with
  | [] => ret tt
  | (lv, msg) :: msgs' => logging lv msg ;;; logging_all msgs'
  end.

Definition retrieve_module_name (bodypart : list nat) : M (option yaml) :=
  if negb (Nat.eqb (length bodypart) 1) then
    logging WARNING "Failed to find DOCUMENTATION assignment" ;;;
    ret None
  else
    b0 <- lift (getitem bodypart 0) ;;
    documentation <- load_node b0 ;;
    name <- lift (yaml_getitem documentation "module") ;;
    ret (Some name).

Definition meta : expr :=
  Dict [Constant (CStr "metadata_version"); Constant (CStr "supported_by")]
       [Constant (CStr "1.1"); Constant (CStr "Ansible")].

Definition update_metdata (bodypart : list nat) : M unit :=
  if negb (Nat.eqb (length bodypart) 1) then
    logging WARNING "Failed to find ANSIBLE_METADATA assignment"
  else
    b0 <- lift (getitem bodypart 0) ;;
    set_node_value b0 meta.

(** The positions of the key ["description"] *)
Fixpoint desc_idx_from (i : nat) (ks : list string) : list nat :=
  match ks with
  | [] => []
  | k :: ks' =>
      if String.eqb k "description" then i :: desc_idx_from (S i) ks'
      else desc_idx_from (S i) ks'
  end.

(** The document edit of [update_documentation] (lines 113-118).
    [pop] and [insert] are methods of the mapping only. *)
Definition documentation_edit (documentation : yaml) : result yaml :=
  match documentation with
  | YMap items =>
      let items := OD.pop "version_added" items in
      let desc_idx := desc_idx_from 0 (OD.keys items) in
      let* i := getitem desc_idx 0 in
      Ok (YMap (OD.insert (i + 1) "version_added" (YStr "1.0.0") items))
  | YSeq _ => Raise TypeError
  | _ => Raise AttributeError
  end.

(** The text edit of [update_documentation] (lines 122-125) *)
Definition drop_version_added (repl : string) : string :=
  let example_lines := Py.splitlines repl in
  let example_lines :=
    List.filter (fun l => negb (version_added_re l)) example_lines in
  Py.join (String (ascii_of_nat 10) "") example_lines.

Definition update_documentation (bodypart : list nat) : M unit :=
  if negb (Nat.eqb (length bodypart) 1) then
    logging WARNING "Failed to find DOCUMENTATION assignment"
  else
    b0 <- lift (getitem bodypart 0) ;;
    documentation <- load_node b0 ;;
    documentation <- lift (documentation_edit documentation) ;;
    let repl := yaml_dump documentation in
    set_node_value_value b0 (drop_version_added repl).

Definition full_name (collection module_name : string) : string :=
  collection +:+ "." +:+ module_name.

(** The text edit of [update_examples] (lines 155-164) *)
Definition fqcn_comments (module_name full_module_name repl : string)
  : string :=
  let example_lines := Py.splitlines repl in
  Py.join (String (ascii_of_nat 10) "")
    (map (fqcn_comment module_name full_module_name) example_lines).

Definition update_examples (bodypart : list nat)
    (module_name collection : string) : M unit :=
  if negb (Nat.eqb (length bodypart) 1) then
    logging WARNING "Failed to find EXAMPLES assignment"
  else
    let full_module_name := full_name collection module_name in
    b0 <- lift (getitem bodypart 0) ;;
    example <- load_node b0 ;;
    example <- lift (fqcn_example module_name full_module_name example) ;;
    let repl := yaml_dump example in
    set_node_value_value b0 (fqcn_comments module_name full_module_name repl).

Definition update_short_description (retrn documentation : list nat)
    (module_name : string) : M unit :=
  if negb (Nat.eqb (length retrn) 1) then
    logging WARNING "Failed to find RETURN assignment"
  else
    r0 <- lift (getitem retrn 0) ;;
    ret_section <- load_node r0 ;;
    if negb (Nat.eqb (length documentation) 1) then
      logging WARNING "Failed to find DOCUMENTATION assignment"
    else
      d0 <- lift (getitem documentation 0) ;;
      doc_section <- load_node d0 ;;
      r <- lift (short_description_of ret_section doc_section module_name) ;;
      logging_all (snd r) ;;;
      let short_description := fst r in
      orig <- lift (yaml_getitem doc_section "short_description") ;;
      if negb (yaml_eqb short_description orig) then
        logging INFO ("Setting short desciption to '"
                      +:+ fmt_s short_description +:+ "'") ;;;
        doc_section <- lift (yaml_setitem doc_section "short_description"
                               short_description) ;;
        let repl := yaml_dump doc_section in
        set_node_value_value d0 repl
      else ret tt.

(** *** One file of [process]: from the loaded tree to the tree written *)

Inductive outcome : Type := Skipped | Written.

(** Lines 283-288 *)
Definition write_out (filename : string) : M outcome :=
  logging INFO ("Wrote " +:+ filename) ;;;
  logging INFO ("Running black against " +:+ filename) ;;;
  ret Written.

(** Lines 275-288 *)
Definition from_examples (collection filename module_name : string)
  : M outcome :=
  bodypart <- locate "EXAMPLES" ;;
  update_examples bodypart module_name collection ;;;
  logging INFO ("Updated examples in " +:+ filename) ;;;
  write_out filename.

(** Lines 266-288 *)
Definition from_short_description (collection filename module_name : string)
  : M outcome :=
  retrn <- locate "RETURN" ;;
  documentation <- locate "DOCUMENTATION" ;;
  update_short_description retrn documentation module_name ;;;
  from_examples collection filename module_name.

(** Lines 258-288 *)
Definition from_documentation (collection filename module_name : string)
  : M outcome :=
  bodypart <- locate "DOCUMENTATION" ;;
  update_documentation bodypart ;;;
  logging INFO ("Updated documentation in " +:+ filename) ;;;
  from_short_description collection filename module_name.

(** Lines 250-288 *)
Definition from_metadata (collection filename module_name : string)
  : M outcome :=
  bodypart <- locate "ANSIBLE_METADATA" ;;
  update_metdata bodypart ;;;
  logging INFO ("Updated metadata in " +:+ filename) ;;;
  from_documentation collection filename module_name.

Definition skip_file (filename : string) : M outcome :=
  logging WARNING ("Skipped " +:+ filename +:+ ": No module name found") ;;;
  ret Skipped.

(** *** A module name that is not a [str]

    [documentation["module"]] may be a number, a boolean, a list or a
    mapping. Such a value goes through the same passes; the operations
    that need a [str] raise when they are reached:
    [module_name.split("_")] ([AttributeError]) in the resource branch of
    the short description, [module_name in line] ([TypeError]) at the
    first line of the dumped examples that starts with [#]. No key of a
    task, a [str], is equal to it, and the fully-qualified name is not
    used. *)

(** Lines 184-203, with the outcome of lines 190-203 as [description]. *)
Definition detected_description_with (description : result string)
    (ret_section doc_section : yaml)
  : result (yaml * list (level * string)) :=
  let* short_description := yaml_getitem doc_section "short_description" in
  let* ks := yaml_keys ret_section in
  let matched := List.filter (fun x => existsb (String.eqb x) ks) rm_rets in
  if Nat.eqb (length matched) (length rm_rets) then
    let* d := description in
    Ok (YStr d, [(INFO, "Found a resource module")])
  else Ok (short_description, []).

Definition short_description_of_with (description : result string)
    (ret_section doc_section : yaml)
  : result (yaml * list (level * string)) :=
  let* r := detected_description_with description ret_section doc_section in
  match doc_section with
  | YMap doc_items =>
      let* p := deprecated_step doc_items (fst r) in
      Ok (fst p,
          if snd p then snd r ++ [(INFO, "Found to be deprecated")]
          else snd r)
  | _ => Raise TypeError
  end.

Definition update_short_description_with (description : result string)
    (retrn documentation : list nat) : M unit :=
  if negb (Nat.eqb (length retrn) 1) then
    logging WARNING "Failed to find RETURN assignment"
  else
    r0 <- lift (getitem retrn 0) ;;
    ret_section <- load_node r0 ;;
    if negb (Nat.eqb (length documentation) 1) then
      logging WARNING "Failed to find DOCUMENTATION assignment"
    else
      d0 <- lift (getitem documentation 0) ;;
      doc_section <- load_node d0 ;;
      r <- lift (short_description_of_with description ret_section
                   doc_section) ;;
      logging_all (snd r) ;;;
      let short_description := fst r in
      orig <- lift (yaml_getitem doc_section "short_description") ;;
      if negb (yaml_eqb short_description orig) then
        logging INFO ("Setting short desciption to '"
                      +:+ fmt_s short_description +:+ "'") ;;;
        doc_section <- lift (yaml_setitem doc_section "short_description"
                               short_description) ;;
        let repl := yaml_dump doc_section in
        set_node_value_value d0 repl
      else ret tt.

(** [update_short_description] for a module name without [split]. *)
Definition update_short_description_obj (retrn documentation : list nat)
  : M unit :=
  update_short_description_with (Raise AttributeError) retrn documentation.

(** [CommentedMap([(k, v) for k, v in task.items()])]: no key is the
    module name. *)
Definition rebuild_task (task : yaml) : result yaml :=
  match task with
  | YMap items => Ok (YMap (OD.of_pairs items))
  | _ => Raise AttributeError
  end.

Fixpoint rebuild_tasks (tasks : list yaml) : result (list yaml) :=
  match tasks with
  | [] => Ok []
  | task :: tasks' =>
      let* t := rebuild_task task in
      let* r := rebuild_tasks tasks' in
      Ok (t :: r)
  end.

Definition rebuild_example (example : yaml) : result yaml :=
  match example with
  | YSeq tasks => let* r := rebuild_tasks tasks in Ok (YSeq r)
  | YMap [] => Ok example
  | YMap (_ :: _) => Raise AttributeError
  | YStr EmptyString => Ok example
  | YStr (String _ _) => Raise AttributeError
  | _ => Raise TypeError
  end.

(** Lines 155-164: the first line that starts with [#] raises. *)
Definition comments_obj (repl : string) : result string :=
  let example_lines := Py.splitlines repl in
  if existsb (Py.startswith "#") example_lines then Raise TypeError
  else Ok (Py.join (String (ascii_of_nat 10) "") example_lines).

(** [update_examples] for a module name that is not a [str]. *)
Definition update_examples_obj (bodypart : list nat) : M unit :=
  if negb (Nat.eqb (length bodypart) 1) then
    logging WARNING "Failed to find EXAMPLES assignment"
  else
    b0 <- lift (getitem bodypart 0) ;;
    example <- load_node b0 ;;
    example <- lift (rebuild_example example) ;;
    let repl := yaml_dump example in
    text <- lift (comments_obj repl) ;;
    set_node_value_value b0 text.

(** Lines 250-288, the two passes that take the module name left open. *)
Definition from_examples_with (examples_pass : list nat -> M unit)
    (filename : string) : M outcome :=
  bodypart <- locate "EXAMPLES" ;;
  examples_pass bodypart ;;;
  logging INFO ("Updated examples in " +:+ filename) ;;;
  write_out filename.

Definition from_short_description_with
    (description_pass : list nat -> list nat -> M unit)
    (examples_pass : list nat -> M unit) (filename : string) : M outcome :=
  retrn <- locate "RETURN" ;;
  documentation <- locate "DOCUMENTATION" ;;
  description_pass retrn documentation ;;;
  from_examples_with examples_pass filename.

Definition from_documentation_with
    (description_pass : list nat -> list nat -> M unit)
    (examples_pass : list nat -> M unit) (filename : string) : M outcome :=
  bodypart <- locate "DOCUMENTATION" ;;
  update_documentation bodypart ;;;
  logging INFO ("Updated documentation in " +:+ filename) ;;;
  from_short_description_with description_pass examples_pass filename.

Definition from_metadata_with
    (description_pass : list nat -> list nat -> M unit)
    (examples_pass : list nat -> M unit) (filename : string) : M outcome :=
  bodypart <- locate "ANSIBLE_METADATA" ;;
  update_metdata bodypart ;;;
  logging INFO ("Updated metadata in " +:+ filename) ;;;
  from_documentation_with description_pass examples_pass filename.

(** Lines 239-288, the state holding [ast_obj] as loaded from
    [filename]. *)
Definition process_file (collection filename : string) : M outcome :=
  logging INFO ("-------------------Processing " +:+ filename) ;;;
  bodypart <- locate "DOCUMENTATION" ;;
  module_name <- retrieve_module_name bodypart ;;
  match module_name with
  | None => skip_file filename
  | Some v =>
      if negb (truthy v) then skip_file filename
      else
        match v with
        | YStr name => from_metadata collection filename name
        | _ =>
            from_metadata_with update_short_description_obj
              update_examples_obj filename
        end
  end.

End Passes.

(** ** Predicates of the statements, and sample files *)

(** The first target of every statement that has targets is a name. *)
Definition plain_target (b : stmt) : bool :=
  match targets b with
  | None => true
  | Some (Name _ :: _) => true
  | Some _ => false
  end.

Definition sample_return : list (string * yaml) :=
  [("before", YMap [("description", YStr "The configuration prior to the module invocation.")]);
   ("after", YMap [("description", YStr "The resulting configuration.")]);
   ("commands", YMap [("description", YStr "The set of commands pushed.")])].

Definition sample_documentation : list (string * yaml) :=
  [("module", YStr "ios_interfaces");
   ("version_added", YStr "2.9");
   ("short_description", YStr "Manages interface attributes");
   ("description", YStr "This module manages the interface attributes.");
   ("options",
    YMap [("config", YMap [("type", YStr "list");
                           ("version_added", YStr "2.9")])])].

Definition sample_deprecated : list (string * yaml) :=
  [("module", YStr "ios_foo");
   ("short_description", YStr "(deprecated)foo");
   ("deprecated", YMap [("why", YStr "Newer module")])].

Definition sample_foo : list (string * yaml) :=
  [("module", YStr "foo");
   ("short_description", YStr "Foo module");
   ("deprecated", YMap [("why", YStr "Newer module")])].


(** The renaming of one key by the examples pass. *)
Definition fqcn_key (module_name full_module_name k : string) : string :=
  if String.eqb k module_name then full_module_name else k.




Definition sample_tasks : list yaml :=
  [YMap [("name", YStr "Merge provided configuration");
         ("ios_interfaces", YMap [("state", YStr "merged")])];
   YMap [("name", YStr "Gather facts");
         ("ios_facts", YMap [("gather_subset", YStr "all")])]].

(** A loader and a dumper given by tables, for runs on sample files. *)
Fixpoint table_load (tbl : list (string * yaml)) (text : string)
  : option yaml :=
  match tbl with
  | [] => None
  | (t, d) :: tbl' => if String.eqb t text then Some d else table_load tbl' text
  end.

Fixpoint table_dump (tbl : list (yaml * string)) (d : yaml) : string :=
  match tbl with
  | [] => EmptyString
  | (e, t) :: tbl' => if yaml_eqb e d then t else table_dump tbl' d
  end.

Definition sample_documentation_text : string :=
"module: ios_interfaces
version_added: '2.9'
short_description: Manages interface attributes
description: This module manages the interface attributes.
options:
  config:
    type: list
    version_added: '2.9'
".

Definition sample_return_text : string :=
"before:
  description: The configuration prior to the module invocation.
after:
  description: The resulting configuration.
commands:
  description: The set of commands pushed.
".

Definition sample_examples_text : string :=
"# Using merged with ios_interfaces
- name: Merge provided configuration
  ios_interfaces:
    state: merged
- name: Gather facts
  ios_facts:
    gather_subset: all
".

(** The documentation after the document edit, and its dump. *)
Definition sample_documentation_edited : list (string * yaml) :=
  [("module", YStr "ios_interfaces");
   ("short_description", YStr "Manages interface attributes");
   ("description", YStr "This module manages the interface attributes.");
   ("version_added", YStr "1.0.0");
   ("options",
    YMap [("config", YMap [("type", YStr "list");
                           ("version_added", YStr "2.9")])])].

Definition sample_documentation_edited_text : string :=
"module: ios_interfaces
short_description: Manages interface attributes
description: This module manages the interface attributes.
version_added: 1.0.0
options:
  config:
    type: list
    version_added: '2.9'
".

(** The documentation as read back from the text that was written. *)
Definition sample_documentation_written : list (string * yaml) :=
  [("module", YStr "ios_interfaces");
   ("short_description", YStr "Manages interface attributes");
   ("description", YStr "This module manages the interface attributes.");
   ("version_added", YStr "1.0.0");
   ("options", YMap [("config", YMap [("type", YStr "list")])])].

Definition sample_documentation_final : list (string * yaml) :=
  [("module", YStr "ios_interfaces");
   ("short_description", YStr "Interfaces resource module");
   ("description", YStr "This module manages the interface attributes.");
   ("version_added", YStr "1.0.0");
   ("options", YMap [("config", YMap [("type", YStr "list")])])].

Definition sample_documentation_final_text : string :=
"module: ios_interfaces
short_description: Interfaces resource module
description: This module manages the interface attributes.
version_added: 1.0.0
options:
  config:
    type: list
".

Definition sample_tasks_qualified : list yaml :=
  [YMap [("name", YStr "Merge provided configuration");
         ("cisco.ios.ios_interfaces", YMap [("state", YStr "merged")])];
   YMap [("name", YStr "Gather facts");
         ("ios_facts", YMap [("gather_subset", YStr "all")])]].

Definition sample_examples_qualified_text : string :=
"# Using merged with ios_interfaces
- name: Merge provided configuration
  cisco.ios.ios_interfaces:
    state: merged
- name: Gather facts
  ios_facts:
    gather_subset: all
".

Definition sample_load : string -> option yaml :=
  table_load
    [(sample_documentation_text, YMap sample_documentation);
     (drop_version_added sample_documentation_edited_text,
      YMap sample_documentation_written);
     (sample_return_text, YMap sample_return);
     (sample_examples_text, YSeq sample_tasks);
     (fqcn_comments "ios_interfaces" "cisco.ios.ios_interfaces"
        sample_examples_qualified_text,
      YSeq sample_tasks_qualified)].

Definition sample_dump : yaml -> string :=
  table_dump
    [(YMap sample_documentation_edited, sample_documentation_edited_text);
     (YMap sample_documentation_final, sample_documentation_final_text);
     (YSeq sample_tasks_qualified, sample_examples_qualified_text)].

Definition sample_body : list stmt :=
  [Expr (Constant (CStr "Module docstring"));
   Assign [Name "ANSIBLE_METADATA"]
     (Dict [Constant (CStr "metadata_version"); Constant (CStr "status");
            Constant (CStr "supported_by")]
           [Constant (CStr "1.1"); Tuple [Constant (CStr "preview")];
            Constant (CStr "network")]);
   Assign [Name "DOCUMENTATION"] (Constant (CStr sample_documentation_text));
   Assign [Name "EXAMPLES"] (Constant (CStr sample_examples_text));
   Assign [Name "RETURN"] (Constant (CStr sample_return_text));
   Pass].

(** The sample file after the documentation pass. *)
Definition sample_body_documented : list stmt :=
  <[2 := Assign [Name "DOCUMENTATION"]
           (Constant (CStr (drop_version_added
                              sample_documentation_edited_text)))]>
    sample_body.

(** The sample file after the short-description pass. *)
Definition sample_body_described : list stmt :=
  <[2 := Assign [Name "DOCUMENTATION"]
           (Constant (CStr sample_documentation_final_text))]>
    sample_body.

(** A file without a DOCUMENTATION assignment. *)
Definition sample_body_undocumented : list stmt :=
  [Assign [Name "ANSIBLE_METADATA"] (Dict [] []);
   Assign [Name "EXAMPLES"] (Constant (CStr sample_examples_text));
   Pass].

(** A file with a DOCUMENTATION assignment only. *)
Definition sample_body_bare : list stmt :=
  [Assign [Name "DOCUMENTATION"] (Constant (CStr sample_documentation_text));
   Pass].


(** ** Predicates of the further properties *)

Definition is_mapping (y : yaml) : bool :=
  match y with
  | YMap _ => true
  | _ => false
  end.

(** The RETURN document shows a resource module. *)
Definition resource_module (ret_items : list (string * yaml)) : bool :=
  OD.mem "after" ret_items && OD.mem "before" ret_items
  && OD.mem "commands" ret_items.

(** From [st] to [st'] the statements keep their targets, and a statement
    is as before unless it is located under one of [names]. *)
Definition only_writes (names : list string) (st st' : state) : Prop :=
  map targets (body st') = map targets (body st) /\
  forall j,
    (forall n r, In n names ->
                 find_assigment_in_ast n (body st) = Ok r -> ~ In j r) ->
    body st' !! j = body st !! j.

(** The passes left open write into the located DOCUMENTATION, resp.
    EXAMPLES, assignment only. *)
Definition writes_documentation (pass : list nat -> list nat -> M unit)
  : Prop :=
  forall retrn documentation st st' u,
    find_assigment_in_ast "DOCUMENTATION" (body st) = Ok documentation ->
    pass retrn documentation st = Ok (u, st') ->
    only_writes ["DOCUMENTATION"] st st'.

Definition writes_examples (pass : list nat -> M unit) : Prop :=
  forall bodypart st st' u,
    find_assigment_in_ast "EXAMPLES" (body st) = Ok bodypart ->
    pass bodypart st = Ok (u, st') ->
    only_writes ["EXAMPLES"] st st'.

(** The sample file as [process] leaves it. *)
Definition sample_state_final : state :=
  Eval vm_compute in
    match process_file sample_load sample_dump "cisco.ios"
            "plugins/modules/ios_interfaces.py" (State sample_body []) with
    | Ok (_, st) => st
    | Raise _ => State [] []
    end.

(** The file without documentation as [process] leaves it. *)
Definition sample_state_skipped : state :=
  Eval vm_compute in
    match process_file sample_load sample_dump "cisco.ios"
            "plugins/modules/ios_interfaces.py"
            (State sample_body_undocumented []) with
    | Ok (_, st) => st
    | Raise _ => State [] []
    end.

(** A documentation whose module name is empty. *)
Definition sample_body_unnamed : list stmt :=
  [Assign [Name "ANSIBLE_METADATA"] (Dict [] []);
   Assign [Name "DOCUMENTATION"] (Constant (CStr "module: ''"));
   Pass].

Definition sample_load_unnamed : string -> option yaml :=
  table_load [("module: ''", YMap [("module", YStr "")])].

(** A documentation without description. *)
Definition sample_body_undescribed : list stmt :=
  [Assign [Name "DOCUMENTATION"] (Constant (CStr "module: foo"));
   Pass].

Definition sample_load_undescribed : string -> option yaml :=
  table_load [("module: foo", YMap [("module", YStr "foo")])].

(** A file whose RETURN block is only a comment, as many modules have
    it: the loader gives null. *)
Definition sample_body_empty_return : list stmt :=
  [Assign [Name "DOCUMENTATION"] (Constant (CStr "short_description: Foo"));
   Assign [Name "RETURN"] (Constant (CStr " # "));
   Pass].

Definition sample_load_empty_return : string -> option yaml :=
  table_load [("short_description: Foo",
               YMap [("short_description", YStr "Foo")]);
              (" # ", YNull)].

(** A module that is neither a resource module nor deprecated. *)
Definition sample_body_ordinary : list stmt :=
  [Assign [Name "DOCUMENTATION"] (Constant (CStr "short_description: Foo"));
   Assign [Name "RETURN"] (Constant (CStr "changed: {}"));
   Pass].

Definition sample_load_ordinary : string -> option yaml :=
  table_load [("short_description: Foo",
               YMap [("short_description", YStr "Foo")]);
              ("changed: {}", YMap [("changed", YMap [])])].

(** A documentation without module. *)
Definition sample_load_unmoduled : string -> option yaml :=
  table_load [("short_description: Foo",
               YMap [("short_description", YStr "Foo")])].

(** ** The batch: [process] over the files of the collection *)

(** [s.endswith(suffix)] *)
Definition endswith (suffix s : string) : bool :=
  Py.startswith (String.rev suffix) (String.rev s).

Definition SUBDIRS : list string := ["modules"; "action"].

(** How a batch stops before its end: an exception of the passes, or of
    [os.listdir], of [load_py_as_ast], of [black]. *)
Inductive halt : Type :=
| Raised (e : exn)
| ListdirFailed
| ParseFailed
| BlackFailed.

(** The files written so far, each with the tree whose source was
    written, and the log. *)
Record batch : Type := Batch {
  written : list (string * list stmt);
  batch_log : list (level * string)
}.

(** A batch that went to its end, or the files written when it stopped.
    The log of a batch that stops is not followed: an exception carries no
    state here. *)
Inductive batch_result : Type :=
| Completed (b : batch)
| Halted (files : list (string * list stmt)) (h : halt).

Definition files_of (r : batch_result) : list (string * list stmt) :=
  match r with
  | Completed b => written b
  | Halted files _ => files
  end.

Section Batch.

Variable yaml_load : string -> option yaml.
Variable yaml_dump : yaml -> string.
(** [os.listdir(dirpath)]; [None] when it raises. *)
Variable listdir : string -> option (list string).
(** [load_py_as_ast(filename)]; [None] when the parser raises. *)
Variable load_py_as_ast : string -> option (list stmt).
(** Whether [black -q filename] returns without error. *)
Variable black : string -> bool.

(** The inner loop of [process] (lines 234-288) over the names listed in
    [dirpath]. An exception leaves the loops: the files that follow are
    not looked at. The file is written before [black] runs. *)
Fixpoint process_files (collection dirpath : string) (names : list string)
    (b : batch) : batch_result :=
  match names with
  | [] => Completed b
  | name :: names' =>
      if endswith ".py" name then
        let filename := dirpath +:+ "/" +:+ name in
        match load_py_as_ast filename with
        | None => Halted (written b) ParseFailed
        | Some ast_obj =>
            match process_file yaml_load yaml_dump collection filename
                    (State ast_obj (batch_log b)) with
            | Raise e => Halted (written b) (Raised e)
            | Ok (Skipped, st) =>
                process_files collection dirpath names'
                  (Batch (written b) (log st))
            | Ok (Written, st) =>
                let b' := Batch (written b ++ [(filename, body st)])
                                (log st) in
                if black filename
                then process_files collection dirpath names' b'
                else Halted (written b') BlackFailed
            end
        end
      else process_files collection dirpath names' b
  end.

(** The outer loop of [process] (lines 230-234). *)
Fixpoint process_subdirs (collection path : string) (subdirs : list string)
    (b : batch) : batch_result :=
  match subdirs with
  | [] => Completed b
  | subdir :: subdirs' =>
      let dirpath := path +:+ collection +:+ "/plugins/" +:+ subdir in
      match listdir dirpath with
      | None => Halted (written b) ListdirFailed
      | Some names =>
          match process_files collection dirpath names b with
          | Completed b' => process_subdirs collection path subdirs' b'
          | Halted files h => Halted files h
          end
      end
  end.

Definition process (collection path : string) : batch_result :=
  process_subdirs collection path SUBDIRS (Batch [] []).

(** [f] with the tree [t] is a Python file of the listing [names] of
    [dirpath]: [t] has the targets of the tree that was parsed and the
    fixed metadata. *)
Definition written_from (dirpath : string) (names : list string)
    (f : string) (t : list stmt) : Prop :=
  exists name ast_obj,
    In name names /\ endswith ".py" name = true /\
    f = dirpath +:+ "/" +:+ name /\
    load_py_as_ast f = Some ast_obj /\
    map targets t = map targets ast_obj /\
    forall i,
      find_assigment_in_ast "ANSIBLE_METADATA" ast_obj = Ok [i] ->
      value <$> t !! i = Some (Some meta).

End Batch.

(** A collection on disk: one module, a package file without
    documentation, a file that is not Python, no action plugin. *)
Definition sample_listdir (dirpath : string) : option (list string) :=
  if String.eqb dirpath "collections/cisco.ios/plugins/modules"
  then Some ["__init__.py"; "README.md"; "ios_interfaces.py"]
  else if String.eqb dirpath "collections/cisco.ios/plugins/action"
       then Some []
       else None.

Definition sample_load_py_as_ast (filename : string) : option (list stmt) :=
  if String.eqb filename
       "collections/cisco.ios/plugins/modules/ios_interfaces.py"
  then Some sample_body
  else if String.eqb filename
            "collections/cisco.ios/plugins/modules/__init__.py"
       then Some []
       else None.

(** The same collection with a module that has a tuple assignment,
    listed before the others. *)
Definition sample_listdir_broken (dirpath : string) : option (list string) :=
  if String.eqb dirpath "collections/cisco.ios/plugins/modules"
  then Some ["__init__.py"; "broken.py"; "ios_interfaces.py"]
  else if String.eqb dirpath "collections/cisco.ios/plugins/action"
       then Some []
       else None.

Definition sample_load_py_as_ast_broken (filename : string)
  : option (list stmt) :=
  if String.eqb filename "collections/cisco.ios/plugins/modules/broken.py"
  then Some [Assign [Tuple [Name "a"; Name "b"]] (Name "c")]
  else sample_load_py_as_ast filename.

(** A text without line boundary. *)
Fixpoint no_linebreak (s : string) : bool :=
  match s with
  | EmptyString => true
  | String c s' => negb (Py.is_linebreak c) && no_linebreak s'
  end.

(** The lines without a last line that is empty. *)
Fixpoint drop_last_empty (l : list string) : list string :=
  match l with
  | [] => []
  | [x] => match x with EmptyString => [] | _ => [x] end
  | x :: l' => x :: drop_last_empty l'
  end.

(** A text of whitespace characters only. *)
Fixpoint all_space (s : string) : bool :=
  match s with
  | EmptyString => true
  | String c s' => Py.is_space c && all_space s'
  end.

(** A line of the pattern of the documentation pass, spelled out: one or
    more whitespace characters, then [version_added:], then a whitespace
    character, then the rest of the line. *)
Definition nested_version_added (l : string) : Prop :=
  exists indent w rest,
    indent <> "" /\ all_space indent = true /\ Py.is_space w = true /\
    l = indent +:+ "version_added:" +:+ String w rest.

(** [kept] is [lines], in the same order, without the lines that are
    [P]. *)
Inductive lines_without (P : string -> Prop)
  : list string -> list string -> Prop :=
| lines_without_nil : lines_without P [] []
| lines_without_drop (l : string) (lines kept : list string) :
    P l -> lines_without P lines kept -> lines_without P (l :: lines) kept
| lines_without_keep (l : string) (lines kept : list string) :
    ~ P l -> lines_without P lines kept ->
    lines_without P (l :: lines) (l :: kept).

(** A module whose documentation gives a number as its name, without
    RETURN block and without comment in its examples. *)
Definition sample_numeric_documentation_text : string :=
"module: 5
description: The fifth module.
".

Definition sample_numeric_documentation : list (string * yaml) :=
  [("module", YInt 5); ("description", YStr "The fifth module.")].

Definition sample_numeric_edited_text : string :=
"module: 5
description: The fifth module.
version_added: 1.0.0
".

Definition sample_numeric_examples_text : string :=
"- name: Run the fifth module
  ping: {}
".

Definition sample_numeric_tasks : list yaml :=
  [YMap [("name", YStr "Run the fifth module"); ("ping", YMap [])]].

Definition sample_load_numeric : string -> option yaml :=
  table_load
    [(sample_numeric_documentation_text, YMap sample_numeric_documentation);
     (sample_numeric_examples_text, YSeq sample_numeric_tasks)].

Definition sample_dump_numeric : yaml -> string :=
  table_dump
    [(YMap (sample_numeric_documentation
            ++ [("version_added", YStr "1.0.0")]),
      sample_numeric_edited_text);
     (YSeq sample_numeric_tasks, sample_numeric_examples_text)].

Definition sample_body_numeric : list stmt :=
  [Assign [Name "ANSIBLE_METADATA"] (Dict [] []);
   Assign [Name "DOCUMENTATION"]
     (Constant (CStr sample_numeric_documentation_text));
   Assign [Name "EXAMPLES"] (Constant (CStr sample_numeric_examples_text));
   Pass].

(** The same module with a comment above its task. *)
Definition sample_numeric_commented_text : string :=
"# Run 5
- name: Commented
  ping: {}
".

Definition sample_numeric_commented_tasks : list yaml :=
  [YMap [("name", YStr "Commented"); ("ping", YMap [])]].

Definition sample_load_numeric_commented : string -> option yaml :=
  table_load
    [(sample_numeric_documentation_text, YMap sample_numeric_documentation);
     (sample_numeric_commented_text, YSeq sample_numeric_commented_tasks)].

Definition sample_dump_numeric_commented : yaml -> string :=
  table_dump
    [(YMap (sample_numeric_documentation
            ++ [("version_added", YStr "1.0.0")]),
      sample_numeric_edited_text);
     (YSeq sample_numeric_commented_tasks, sample_numeric_commented_text)].

Definition sample_body_numeric_commented : list stmt :=
  [Assign [Name "ANSIBLE_METADATA"] (Dict [] []);
   Assign [Name "DOCUMENTATION"]
     (Constant (CStr sample_numeric_documentation_text));
   Assign [Name "EXAMPLES"] (Constant (CStr sample_numeric_commented_text));
   Pass].

(** * Properties *)

(** ** The locator *)

Lemma is_assignment_of_ok (name : string) (b : stmt) :
  is_ok (is_assignment_of name b) = plain_target b.
Proof.
  unfold is_assignment_of, plain_target.
  destruct (targets b) as [[|t ts]|]; simpl; try reflexivity.
  destruct t; reflexivity.
Qed.

Lemma find_from_ok (name : string) (l : list stmt) :
  forall i, is_ok (find_from i name l) = forallb plain_target l.
Proof.
  induction l as [|b l IH]; intros i; simpl; [reflexivity|].
  rewrite <- is_assignment_of_ok with (name := name).
  destruct (is_assignment_of name b) as [m|e]; simpl; [|reflexivity].
  rewrite <- (IH (S i)).
  destruct (find_from (S i) name l); reflexivity.
Qed.

(** The locator only looks at the targets. *)
Lemma find_from_targets (name : string) (l l' : list stmt) :
  map targets l = map targets l' ->
  forall i, find_from i name l = find_from i name l'.
Proof.
  revert l'. induction l as [|b l IH]; intros [|b' l'] H i;
    simpl in H; try discriminate; [reflexivity|].
  injection H as Hb Hl. simpl.
  unfold is_assignment_of. rewrite Hb.
  rewrite (IH l' Hl (S i)). reflexivity.
Qed.

Lemma is_assignment_of_true (name : string) (b : stmt) :
  is_assignment_of name b = Ok true <->
  exists rest, targets b = Some (Name name :: rest).
Proof.
  unfold is_assignment_of. destruct (targets b) as [[|t ts]|]; simpl.
  - split; [discriminate|]. intros [r Hr]. discriminate.
  - destruct t; simpl;
      try (split; [discriminate | intros [r Hr]; discriminate]).
    split.
    + intros H. injection H as H. apply String.eqb_eq in H. subst. eauto.
    + intros [r Hr]. injection Hr as -> _. rewrite String.eqb_refl.
      reflexivity.
  - split; [discriminate|]. intros [r Hr]. discriminate.
Qed.

(** What the locator returns: the positions, in order, of the statements
    whose first target is the name. *)
Lemma find_from_elem (name : string) (l : list stmt) :
  forall i r, find_from i name l = Ok r ->
  forall j, In j r <->
    exists k b rest, j = i + k /\ l !! k = Some b /\
                     targets b = Some (Name name :: rest).
Proof.
  induction l as [|b l IH]; intros i r H j; simpl in H.
  - injection H as <-. split; [intros []|].
    intros (k & b & rest & _ & Hk & _). discriminate.
  - destruct (is_assignment_of name b) as [m|e] eqn:Hm; simpl in H;
      [|discriminate].
    destruct (find_from (S i) name l) as [r'|e] eqn:Hr; simpl in H;
      [|discriminate].
    injection H as <-. specialize (IH (S i) r' Hr j).
    assert (Htail : In j r' <->
              exists k b0 rest, j = i + S k /\ l !! k = Some b0 /\
                                targets b0 = Some (Name name :: rest)).
    { rewrite IH. split; intros (k & b0 & rest & Hj & Hk & Ht);
        exists k, b0, rest; repeat split; auto; lia. }
    destruct m.
    + apply is_assignment_of_true in Hm as [rest0 Hrest0]. simpl.
      rewrite Htail. split.
      * intros [<- | (k & b0 & rest & Hj & Hk & Ht)].
        -- exists 0, b, rest0. repeat split; auto; lia.
        -- exists (S k), b0, rest. repeat split; auto.
      * intros ([|k] & b0 & rest & Hj & Hk & Ht).
        -- left. lia.
        -- right. exists k, b0, rest. repeat split; auto.
    + rewrite Htail. split.
      * intros (k & b0 & rest & Hj & Hk & Ht).
        exists (S k), b0, rest. repeat split; auto.
      * intros ([|k] & b0 & rest & Hj & Hk & Ht).
        -- simpl in Hk. injection Hk as <-.
           assert (is_assignment_of name b = Ok true) as Habs
             by (apply is_assignment_of_true; eauto).
           congruence.
        -- exists k, b0, rest. repeat split; auto.
Qed.

Lemma find_assigment_in_ast_elem (name : string) (ast_file : list stmt)
    (r : list nat) (j : nat) :
  find_assigment_in_ast name ast_file = Ok r ->
  In j r <->
  exists b rest, ast_file !! j = Some b /\
                 targets b = Some (Name name :: rest).
Proof.
  intros H. rewrite (find_from_elem _ _ _ _ H). split.
  - intros (k & b & rest & -> & Hk & Ht). eauto.
  - intros (b & rest & Hk & Ht). exists j, b, rest. auto.
Qed.

(** Whether the locator raises does not depend on the name. *)
Lemma find_assigment_in_ast_ok_any (name name' : string)
    (ast_file : list stmt) (r : list nat) :
  find_assigment_in_ast name ast_file = Ok r ->
  exists r', find_assigment_in_ast name' ast_file = Ok r'.
Proof.
  intros H. unfold find_assigment_in_ast in *.
  pose proof (find_from_ok name ast_file 0) as H1.
  pose proof (find_from_ok name' ast_file 0) as H2.
  rewrite H in H1. simpl in H1. rewrite <- H1 in H2.
  destruct (find_from 0 name' ast_file); [eauto | discriminate].
Qed.

(** Nodes located under different names are different nodes. *)
Lemma find_assigment_in_ast_disjoint (n1 n2 : string)
    (ast_file : list stmt) (r1 r2 : list nat) (j : nat) :
  n1 <> n2 ->
  find_assigment_in_ast n1 ast_file = Ok r1 ->
  find_assigment_in_ast n2 ast_file = Ok r2 ->
  In j r1 -> In j r2 -> False.
Proof.
  intros Hne H1 H2 I1 I2.
  apply (find_assigment_in_ast_elem _ _ _ _ H1) in I1 as (b & rest & Hb & Ht).
  apply (find_assigment_in_ast_elem _ _ _ _ H2) in I2 as (b' & rest' & Hb' & Ht').
  congruence.
Qed.

(** C10. The locator returns a result exactly when every top-level
    statement that has targets has a plain identifier as its first target,
    whatever the searched name: a statement whose first target is a tuple,
    an attribute or a subscript makes it raise instead of being filtered
    out. *)
Theorem find_assigment_in_ast_partial (name : string) (ast_file : list stmt) :
  is_ok (find_assigment_in_ast name ast_file) = forallb plain_target ast_file.
Proof. apply find_from_ok. Qed.

(** [a, b = 1, 2] after the assignments makes every search raise. *)
Example find_raises_on_tuple_target :
  find_assigment_in_ast "DOCUMENTATION"
    (sample_body ++ [Assign [Tuple [Name "a"; Name "b"]]
                       (Tuple [Constant (CInt 1); Constant (CInt 2)])])
  = Raise AttributeError.
Proof. reflexivity. Qed.

(** [module.attr = 1] does too, and a [del] statement is taken for an
    assignment. *)
Example find_raises_on_attribute_target :
  find_assigment_in_ast "RETURN"
    [Assign [Attribute (Name "module") "attr"] (Constant (CInt 1))]
  = Raise AttributeError.
Proof. reflexivity. Qed.

Example find_takes_del :
  find_assigment_in_ast "RETURN"
    [Delete [Name "RETURN"]; Assign [Name "RETURN"] (Constant CNone)]
  = Ok [0; 1].
Proof. reflexivity. Qed.

(** ** Running a pass *)

Lemma getitem_Ok {A} (l : list A) (i : nat) (a : A) :
  l !! i = Some a -> getitem l i = Ok a.
Proof. intros H. unfold getitem. rewrite H. reflexivity. Qed.

Lemma node_run (st : state) (i : nat) (b : stmt) :
  body st !! i = Some b -> node i st = Ok (b, st).
Proof. intros H. unfold node, lift. rewrite (getitem_Ok _ _ _ H). reflexivity. Qed.

Lemma locate_run (name : string) (st : state) (r : list nat) :
  find_assigment_in_ast name (body st) = Ok r -> locate name st = Ok (r, st).
Proof. intros H. unfold locate, lift. rewrite H. reflexivity. Qed.

Lemma set_node_value_run (st : state) (i : nat) (b : stmt) (e : expr) :
  body st !! i = Some b ->
  set_node_value i e st
  = Ok (tt, State (<[i := Stmt (targets b) (Some e)]> (body st)) (log st)).
Proof.
  intros H. unfold set_node_value, bindM. rewrite (node_run _ _ _ H).
  reflexivity.
Qed.

Lemma set_node_value_value_run (st : state) (i : nat) (ts : option (list expr))
    (c : constant) (text : string) :
  body st !! i = Some (Stmt ts (Some (Constant c))) ->
  set_node_value_value i text st
  = Ok (tt, State (<[i := Stmt ts (Some (Constant (CStr text)))]> (body st))
                  (log st)).
Proof.
  intros H. unfold set_node_value_value, bindM. rewrite (node_run _ _ _ H).
  reflexivity.
Qed.

Lemma node_value_value_run (st : state) (i : nat) (ts : option (list expr))
    (c : constant) :
  body st !! i = Some (Stmt ts (Some (Constant c))) ->
  node_value_value i st = Ok (OConst c, st).
Proof.
  intros H. unfold node_value_value, bindM. rewrite (node_run _ _ _ H).
  reflexivity.
Qed.

(** Rewriting the value of a node keeps the targets of every node. *)
Lemma targets_insert_value (l : list stmt) (i : nat) (b : stmt)
    (v : option expr) :
  l !! i = Some b ->
  map targets (<[i := Stmt (targets b) v]> l) = map targets l.
Proof.
  revert i. induction l as [|a l IH]; intros [|i] H; simpl in *;
    try discriminate.
  - injection H as ->. reflexivity.
  - f_equal. apply IH. exact H.
Qed.

Lemma find_insert_value (name : string) (l : list stmt) (i : nat) (b : stmt)
    (v : option expr) :
  l !! i = Some b ->
  find_assigment_in_ast name (<[i := Stmt (targets b) v]> l)
  = find_assigment_in_ast name l.
Proof.
  intros H. apply find_from_targets. apply targets_insert_value. exact H.
Qed.

Lemma find_assigment_in_ast_lookup (name : string) (ast_file : list stmt)
    (r : list nat) (i : nat) :
  find_assigment_in_ast name ast_file = Ok r -> In i r ->
  exists b, ast_file !! i = Some b.
Proof.
  intros H Hi. apply (find_assigment_in_ast_elem _ _ _ _ H) in Hi
    as (b & rest & Hb & _). eauto.
Qed.

(** ** The metadata pass *)

(** C9. Whatever the ANSIBLE_METADATA assignment held, when exactly one
    assignment matches, the pass leaves in it the two-entry mapping
    metadata_version: 1.1, supported_by: Ansible; the other statements and
    the log are as before and the assignment is still the one located. *)
Theorem update_metdata_normalizes (st : state) (i : nat) :
  find_assigment_in_ast "ANSIBLE_METADATA" (body st) = Ok [i] ->
  exists b st',
    body st !! i = Some b /\
    (bodypart <- locate "ANSIBLE_METADATA" ;; update_metdata bodypart) st
      = Ok (tt, st') /\
    body st' = <[i := Stmt (targets b) (Some meta)]> (body st) /\
    value <$> body st' !! i = Some (Some meta) /\
    meta = Dict [Constant (CStr "metadata_version");
                 Constant (CStr "supported_by")]
                [Constant (CStr "1.1"); Constant (CStr "Ansible")] /\
    log st' = log st /\
    find_assigment_in_ast "ANSIBLE_METADATA" (body st') = Ok [i].
Proof.
  intros H.
  destruct (find_assigment_in_ast_lookup _ _ _ i H) as [b Hb]; [now left|].
  exists b, (State (<[i := Stmt (targets b) (Some meta)]> (body st)) (log st)).
  split; [exact Hb|]. split.
  - unfold bindM. rewrite (locate_run _ _ _ H). simpl.
    unfold update_metdata, bindM. simpl.
    rewrite (set_node_value_run _ _ _ _ Hb). reflexivity.
  - simpl. split; [reflexivity|]. split.
    + rewrite list_lookup_insert_eq; [reflexivity|].
      eapply lookup_lt_Some; eauto.
    + split; [reflexivity|]. split; [reflexivity|].
      rewrite (find_insert_value _ _ _ _ _ Hb). exact H.
Qed.

(** ** Text lemmas *)

Lemma last_char_lower (s : string) :
  Py.last_char (Py.lower s) = option_map Py.lower_char (Py.last_char s).
Proof.
  induction s as [|c s IH]; [reflexivity|].
  destruct s as [|c' s']; [reflexivity|].
  change (Py.last_char (Py.lower (String c (String c' s'))))
    with (Py.last_char (Py.lower (String c' s'))).
  rewrite IH. reflexivity.
Qed.

Lemma lower_char_is_s (c : ascii) :
  Ascii.eqb (Py.lower_char c) "s" = Ascii.eqb c "s" || Ascii.eqb c "S".
Proof.
  destruct c as [[] [] [] [] [] [] [] []]; reflexivity.
Qed.

Lemma map_last_ext (f g : ascii -> ascii) (s : string) (c : ascii) :
  Py.last_char s = Some c -> f c = g c -> Py.map_last f s = Py.map_last g s.
Proof.
  induction s as [|a s IH]; [discriminate|].
  destruct s as [|a' s']; intros H Hfg.
  - injection H as ->. simpl. rewrite Hfg. reflexivity.
  - change (Py.map_last f (String a (String a' s')))
      with (String a (Py.map_last f (String a' s'))).
    change (Py.map_last g (String a (String a' s')))
      with (String a (Py.map_last g (String a' s'))).
    f_equal. apply IH; assumption.
Qed.

Lemma map_last_id (s : string) : Py.map_last (fun c => c) s = s.
Proof.
  induction s as [|a s IH]; [reflexivity|].
  destruct s as [|a' s']; [reflexivity|].
  change (Py.map_last (fun c => c) (String a (String a' s')))
    with (String a (Py.map_last (fun c => c) (String a' s'))).
  rewrite IH. reflexivity.
Qed.

Lemma last_char_map_last (f : ascii -> ascii) (s : string) :
  Py.last_char (Py.map_last f s) = option_map f (Py.last_char s).
Proof.
  induction s as [|a s IH]; [reflexivity|].
  destruct s as [|a' s']; [reflexivity|].
  change (Py.map_last f (String a (String a' s')))
    with (String a (Py.map_last f (String a' s'))).
  destruct s' as [|a'' s'']; [reflexivity|].
  exact IH.
Qed.

(** ** The short description *)

(** C2, as the code has it. The test of the trailing-s step is made on
    the lower-cased resource string, so the step applies when the string
    ends in [s] or in [S]; it changes the string exactly when the last
    character is an upper-case [S], which becomes [s]. A string ending in
    another character is unchanged, and the empty string raises. *)
Theorem lower_trailing_s_spec (resource : string) :
  lower_trailing_s resource =
  match Py.last_char resource with
  | None => Raise IndexError
  | Some c =>
      if Ascii.eqb c "S"
      then Ok (Py.map_last (fun _ => "s"%char) resource)
      else Ok resource
  end.
Proof.
  unfold lower_trailing_s. rewrite last_char_lower.
  destruct (Py.last_char resource) as [c|] eqn:Hc; simpl; [|reflexivity].
  rewrite lower_char_is_s.
  destruct (Ascii.eqb c "S") eqn:HS.
  - rewrite orb_true_r. f_equal.
    apply (map_last_ext _ _ _ c Hc).
    apply Ascii.eqb_eq in HS. subst. reflexivity.
  - rewrite orb_false_r. destruct (Ascii.eqb c "s") eqn:Hs; [|reflexivity].
    f_equal. rewrite <- (map_last_id resource) at 2.
    apply (map_last_ext _ _ _ c Hc).
    apply Ascii.eqb_eq in Hs. subst. reflexivity.
Qed.

(** C2, as the spec states it, fails: [VLANS] does not end in a lower-case
    [s], and the step changes it. *)
Lemma lower_trailing_s_changes_upper :
  ~ (forall resource : string,
       Py.last_char resource <> Some "s"%char ->
       lower_trailing_s resource = Ok resource).
Proof.
  intros H. specialize (H "VLANS").
  assert (Hl : Py.last_char "VLANS" <> Some "s"%char) by (simpl; congruence).
  specialize (H Hl). vm_compute in H. discriminate.
Qed.

Lemma yaml_eqb_refl : forall a : yaml, yaml_eqb a a = true.
Proof.
  fix IH 1. intros [| b | z | s | l | l]; simpl.
  - reflexivity.
  - destruct b; reflexivity.
  - apply Z.eqb_refl.
  - apply String.eqb_refl.
  - revert l. fix IHl 1. intros [|x l]; [reflexivity|].
    rewrite (IH x). simpl. apply IHl.
  - revert l. fix IHl 1. intros [|[k x] l]; [reflexivity|].
    rewrite String.eqb_refl, (IH x). simpl. apply IHl.
Qed.

Lemma yaml_eqb_eq : forall a b : yaml, yaml_eqb a b = true -> a = b.
Proof.
  fix IH 1. intros [| x | x | x | l | l] [| y | y | y | m | m] H;
    simpl in H; try discriminate.
  - reflexivity.
  - apply Bool.eqb_prop in H. congruence.
  - apply Z.eqb_eq in H. congruence.
  - apply String.eqb_eq in H. congruence.
  - f_equal. revert l m H. fix IHl 1.
    intros [|x l] [|y m] H; try discriminate; [reflexivity|].
    apply andb_true_iff in H as [H1 H2].
    rewrite (IH x y H1), (IHl l m H2). reflexivity.
  - f_equal. revert l m H. fix IHl 1.
    intros [|[k x] l] [|[j y] m] H; try discriminate; [reflexivity|].
    apply andb_true_iff in H as [H1 H2].
    apply andb_true_iff in H1 as [H0 H1].
    apply String.eqb_eq in H0.
    rewrite H0, (IH x y H1), (IHl l m H2). reflexivity.
Qed.

Lemma get_setitem_eq (k : string) (v : yaml) (d : list (string * yaml)) :
  OD.get k (OD.setitem k v d) = Some v.
Proof.
  induction d as [|[j w] d IH]; simpl.
  - rewrite String.eqb_refl. reflexivity.
  - destruct (String.eqb j k) eqn:E; simpl; rewrite E; [reflexivity|exact IH].
Qed.

Lemma keys_setitem_mem (k k' : string) (v : yaml) (d : list (string * yaml)) :
  k <> k' -> OD.mem k' (OD.setitem k v d) = OD.mem k' d.
Proof.
  intros Hne. unfold OD.mem, OD.keys.
  induction d as [|[j w] d IH]; simpl.
  - apply String.eqb_neq in Hne. rewrite String.eqb_sym, Hne. reflexivity.
  - destruct (String.eqb j k); simpl; [reflexivity|]. rewrite IH. reflexivity.
Qed.

Lemma startswith_app (p s : string) : Py.startswith p (p +:+ s) = true.
Proof.
  induction p as [|a p IH]; simpl; [reflexivity|].
  rewrite Ascii.eqb_refl. exact IH.
Qed.

Lemma startswith_trans (p q s : string) :
  Py.startswith p q = true -> Py.startswith q s = true ->
  Py.startswith p s = true.
Proof.
  revert q s. induction p as [|a p IH]; intros q s H1 H2; [reflexivity|].
  destruct q as [|b q]; [discriminate|]. destruct s as [|c s]; [discriminate|].
  simpl in *. destruct (Ascii.eqb a b) eqn:E1; [|discriminate].
  destruct (Ascii.eqb b c) eqn:E2; [|discriminate].
  apply Ascii.eqb_eq in E1, E2. subst. rewrite Ascii.eqb_refl. eauto.
Qed.

Lemma filter_three {A} (f : A -> bool) (a b c : A) :
  Nat.eqb (length (List.filter f [a; b; c])) (length [a; b; c])
  = f a && f b && f c.
Proof. simpl. destruct (f a), (f b), (f c); reflexivity. Qed.

(** The three keys that make a resource module. *)
Lemma rm_rets_matched (ks : list string) :
  Nat.eqb
    (length (List.filter (fun x => existsb (String.eqb x) ks) rm_rets))
    (length rm_rets)
  = existsb (String.eqb "after") ks && existsb (String.eqb "before") ks
    && existsb (String.eqb "commands") ks.
Proof.
  exact (filter_three (fun x => existsb (String.eqb x) ks)
           "after" "before" "commands").
Qed.

(** C1, as the code has it. For [ios_interfaces], a RETURN document with
    the keys after, before and commands, and a documentation document with
    a short description, the final short description is
    [Interfaces resource module] (the trailing s is lower-cased, not
    dropped), with the prefix [(deprecated) ] when the documentation has a
    deprecated key. *)
Theorem short_description_ios_interfaces
    (ret_items doc_items : list (string * yaml)) (sd : yaml) :
  OD.mem "after" ret_items = true ->
  OD.mem "before" ret_items = true ->
  OD.mem "commands" ret_items = true ->
  OD.get "short_description" doc_items = Some sd ->
  short_description_of (YMap ret_items) (YMap doc_items) "ios_interfaces"
  = Ok (if OD.mem "deprecated" doc_items
        then (YStr "(deprecated) Interfaces resource module",
              [(INFO, "Found a resource module");
               (INFO, "Found to be deprecated")])
        else (YStr "Interfaces resource module",
              [(INFO, "Found a resource module")])).
Proof.
  intros Ha Hb Hc Hsd. unfold short_description_of, detected_description.
  cbn [yaml_getitem yaml_keys]. rewrite Hsd. cbn [bind].
  rewrite rm_rets_matched.
  unfold OD.mem in Ha, Hb, Hc. rewrite Ha, Hb, Hc. cbn [andb].
  replace (resource_description "ios_interfaces")
    with (@Ok string "Interfaces resource module") by reflexivity.
  cbn [bind fst snd]. unfold deprecated_step.
  destruct (OD.mem "deprecated" doc_items); reflexivity.
Qed.

(** C1, as the spec states it, fails: the description derived for
    [ios_interfaces] is not [Interface resource module]. *)
Lemma short_description_ios_interfaces_not_singular :
  ~ (exists msgs,
       short_description_of (YMap sample_return) (YMap sample_documentation)
         "ios_interfaces"
       = Ok (YStr "Interface resource module", msgs)).
Proof.
  intros [msgs H]. vm_compute in H. discriminate.
Qed.

Lemma short_description_ios_interfaces_witness :
  short_description_of (YMap sample_return) (YMap sample_documentation)
    "ios_interfaces"
  = Ok (YStr "Interfaces resource module", [(INFO, "Found a resource module")]).
Proof.
  apply (short_description_ios_interfaces sample_return sample_documentation
           (YStr "Manages interface attributes")); reflexivity.
Defined.

(** C5, as the code has it. The prefix [(deprecated) ] is put before the
    current short description exactly when the documentation has a
    deprecated key and the description does not start with [(deprecated)]
    (the test has no trailing space); the deriver run on a documentation
    that holds its own output gives that output again. *)
Theorem deprecated_prefix_rule (ret_section : yaml)
    (doc_items : list (string * yaml)) (module_name cur : string)
    (msgs : list (level * string)) :
  detected_description ret_section (YMap doc_items) module_name
    = Ok (YStr cur, msgs) ->
  short_description_of ret_section (YMap doc_items) module_name
    = Ok (if OD.mem "deprecated" doc_items
             && negb (Py.startswith "(deprecated)" cur)
          then (YStr ("(deprecated) " +:+ cur),
                msgs ++ [(INFO, "Found to be deprecated")])
          else (YStr cur, msgs))
  /\ forall final msgs1,
       short_description_of ret_section (YMap doc_items) module_name
         = Ok (final, msgs1) ->
       exists msgs2,
         short_description_of ret_section
           (YMap (OD.setitem "short_description" final doc_items)) module_name
         = Ok (final, msgs2).
Proof.
  intros H.
  assert (Hfirst :
    short_description_of ret_section (YMap doc_items) module_name
    = Ok (if OD.mem "deprecated" doc_items
             && negb (Py.startswith "(deprecated)" cur)
          then (YStr ("(deprecated) " +:+ cur),
                msgs ++ [(INFO, "Found to be deprecated")])
          else (YStr cur, msgs))).
  { unfold short_description_of. rewrite H. cbn [bind fst snd].
    unfold deprecated_step.
    destruct (OD.mem "deprecated" doc_items); [|reflexivity].
    destruct (Py.startswith "(deprecated)" cur); reflexivity. }
  split; [exact Hfirst|].
  intros final msgs1 Hfinal. rewrite Hfirst in Hfinal.
  assert (Hdep : OD.mem "deprecated"
                   (OD.setitem "short_description" final doc_items)
                 = OD.mem "deprecated" doc_items)
    by (apply keys_setitem_mem; discriminate).
  unfold short_description_of, detected_description in *.
  cbn [yaml_getitem] in *. rewrite get_setitem_eq.
  destruct (OD.get "short_description" doc_items) as [orig|]; [|discriminate].
  cbn [bind] in *.
  destruct (yaml_keys ret_section) as [ks|]; [|discriminate].
  cbn [bind] in *.
  destruct (Nat.eqb _ _).
  - destruct (resource_description module_name) as [d|]; [|discriminate].
    cbn [bind fst snd] in *. injection H as -> ->.
    unfold deprecated_step. rewrite Hdep.
    destruct (OD.mem "deprecated" doc_items); cbn [andb] in Hfinal.
    + destruct (Py.startswith "(deprecated)" cur); cbn [negb] in Hfinal;
        injection Hfinal as <- <-; eexists; reflexivity.
    + injection Hfinal as <- <-. eexists; reflexivity.
  - cbn [bind fst snd] in *. injection H as -> ->.
    unfold deprecated_step. rewrite Hdep.
    destruct (OD.mem "deprecated" doc_items); cbn [andb] in Hfinal.
    + destruct (Py.startswith "(deprecated)" cur) eqn:Hs;
        cbn [negb] in Hfinal; injection Hfinal as <- <-.
      * rewrite Hs. eexists; reflexivity.
      * rewrite (startswith_trans "(deprecated)" "(deprecated) "
                   ("(deprecated) " +:+ cur) eq_refl (startswith_app _ _)).
        eexists; reflexivity.
    + injection Hfinal as <- <-. eexists; reflexivity.
Qed.

(** C5, as the spec states it, fails: [(deprecated)foo] does not start
    with [(deprecated) ] and is not prefixed. *)
Lemma deprecated_prefix_without_space :
  ~ (forall (doc_items : list (string * yaml)) (s : string),
       OD.mem "deprecated" doc_items = true ->
       Py.startswith "(deprecated) " s = false ->
       deprecated_step doc_items (YStr s)
       = Ok (YStr ("(deprecated) " +:+ s), true)).
Proof.
  intros H.
  specialize (H sample_deprecated "(deprecated)foo" eq_refl eq_refl).
  vm_compute in H. discriminate.
Qed.

Lemma deprecated_prefix_rule_witness :
  short_description_of (YMap []) (YMap sample_foo) "foo"
    = Ok (YStr "(deprecated) Foo module", [(INFO, "Found to be deprecated")])
  /\ exists msgs2,
       short_description_of (YMap [])
         (YMap (OD.setitem "short_description"
                  (YStr "(deprecated) Foo module") sample_foo)) "foo"
       = Ok (YStr "(deprecated) Foo module", msgs2).
Proof.
  destruct (deprecated_prefix_rule (YMap []) sample_foo "foo" "Foo module" []
              eq_refl) as [H1 H2].
  split; [exact H1|]. exact (H2 _ _ H1).
Defined.

(** ** Ordered mappings *)

Lemma existsb_eqb_In (k : string) (l : list string) :
  existsb (String.eqb k) l = true <-> In k l.
Proof.
  rewrite existsb_exists. split.
  - intros (x & Hx & E). apply String.eqb_eq in E. subst. exact Hx.
  - intros H. exists k. split; [exact H | apply String.eqb_refl].
Qed.


Lemma setitem_fresh (k : string) (v : yaml) (d : list (string * yaml)) :
  ~ In k (OD.keys d) -> OD.setitem k v d = d ++ [(k, v)].
Proof.
  induction d as [|[j w] d IH]; simpl; intros H; [reflexivity|].
  destruct (String.eqb j k) eqn:E.
  - apply String.eqb_eq in E. tauto.
  - f_equal. apply IH. tauto.
Qed.

Lemma keys_setitem_present (k : string) (v : yaml) (d : list (string * yaml)) :
  In k (OD.keys d) -> OD.keys (OD.setitem k v d) = OD.keys d.
Proof.
  induction d as [|[j w] d IH]; simpl; intros H; [tauto|].
  destruct (String.eqb j k) eqn:E; simpl; [reflexivity|].
  f_equal. apply IH. destruct H as [H|H]; [|exact H].
  apply String.eqb_neq in E. tauto.
Qed.

Lemma fold_setitem_nodup (l : list (string * yaml)) :
  forall acc, NoDup (OD.keys (acc ++ l)) ->
  fold_left (fun d e => OD.setitem (fst e) (snd e) d) l acc = acc ++ l.
Proof.
  induction l as [|[k v] l IH]; intros acc H; simpl.
  - rewrite app_nil_r. reflexivity.
  - assert (Hk : ~ In k (OD.keys acc)).
    { unfold OD.keys in *. rewrite map_app in H. simpl in H.
      apply NoDup_app in H as (_ & H & _). intros Hin.
      apply (H k); [apply list_elem_of_In; exact Hin | left]. }
    rewrite (setitem_fresh _ _ _ Hk), IH; rewrite <- app_assoc; [reflexivity|].
    exact H.
Qed.

(** A list of pairs with distinct keys is its own ordered mapping. *)
Lemma of_pairs_nodup (l : list (string * yaml)) :
  NoDup (OD.keys l) -> OD.of_pairs l = l.
Proof. intros H. apply (fold_setitem_nodup l []). exact H. Qed.

Lemma fold_setitem_keys (l : list (string * yaml)) :
  forall acc, NoDup (OD.keys acc) ->
  NoDup (OD.keys (fold_left (fun d e => OD.setitem (fst e) (snd e) d) l acc))
  /\ forall k,
       In k (OD.keys (fold_left (fun d e => OD.setitem (fst e) (snd e) d)
                        l acc)) ->
       In k (OD.keys acc) \/ In k (OD.keys l).
Proof.
  induction l as [|[k v] l IH]; intros acc H; simpl; [tauto|].
  destruct (in_dec String.string_dec k (OD.keys acc)) as [Hin|Hin].
  - destruct (IH (OD.setitem k v acc)) as [H1 H2].
    { rewrite keys_setitem_present; assumption. }
    split; [exact H1|]. intros k' Hk'. apply H2 in Hk'.
    rewrite keys_setitem_present in Hk' by assumption. tauto.
  - destruct (IH (OD.setitem k v acc)) as [H1 H2].
    { rewrite setitem_fresh by assumption. unfold OD.keys.
      rewrite map_app. simpl. apply NoDup_app. split; [exact H|]. split.
      - intros x Hx Hx'. apply elem_of_cons in Hx' as [->|Hx'].
        + apply list_elem_of_In in Hx. tauto.
        + apply elem_of_nil in Hx'. exact Hx'.
      - apply NoDup_cons. split; [|constructor].
        intros Hx. apply elem_of_nil in Hx. exact Hx. }
    split; [exact H1|]. intros k' Hk'. apply H2 in Hk'.
    rewrite setitem_fresh in Hk' by assumption. unfold OD.keys in Hk'.
    rewrite map_app, in_app_iff in Hk'. simpl in Hk'. tauto.
Qed.

Lemma of_pairs_keys_nodup (l : list (string * yaml)) :
  NoDup (OD.keys (OD.of_pairs l)).
Proof. apply (fold_setitem_keys l []). constructor. Qed.

Lemma of_pairs_keys_incl (l : list (string * yaml)) (k : string) :
  In k (OD.keys (OD.of_pairs l)) -> In k (OD.keys l).
Proof.
  intros H. destruct (fold_setitem_keys l [] (NoDup_nil_2 (A:=string))) as [_ H2].
  apply H2 in H. simpl in H. tauto.
Qed.

(** ** The examples pass: the renaming *)

Lemma keys_fqcn_pairs (mn full : string) (items : list (string * yaml)) :
  OD.keys (fqcn_pairs mn full items) = map (fqcn_key mn full) (OD.keys items).
Proof.
  unfold OD.keys, fqcn_pairs, fqcn_key. rewrite !map_map.
  apply map_ext. intros [k v]. simpl. destruct (String.eqb k mn); reflexivity.
Qed.


Lemma fqcn_pairs_id (mn full : string) (items : list (string * yaml)) :
  ~ In mn (OD.keys items) -> fqcn_pairs mn full items = items.
Proof.
  induction items as [|[k v] items IH]; simpl; intros H; [reflexivity|].
  destruct (String.eqb k mn) eqn:E.
  - apply String.eqb_eq in E. tauto.
  - f_equal. apply IH. tauto.
Qed.

Lemma fqcn_key_not_bare (mn full : string) (ks : list string) :
  mn <> full -> ~ In mn (map (fqcn_key mn full) ks).
Proof.
  intros Hne H. apply in_map_iff in H as (k & Hk & _).
  unfold fqcn_key in Hk. destruct (String.eqb k mn) eqn:E.
  - congruence.
  - apply String.eqb_neq in E. congruence.
Qed.







(** ** The documentation pass *)

Lemma keys_pop_not (k : string) (d : list (string * yaml)) :
  ~ In k (OD.keys (OD.pop k d)).
Proof.
  unfold OD.keys, OD.pop. intros H.
  apply in_map_iff in H as ([j v] & Hj & Hin). simpl in Hj. subst j.
  apply filter_In in Hin as [_ Hin]. simpl in Hin.
  rewrite String.eqb_refl in Hin. discriminate.
Qed.

Lemma keys_pop_other (k k' : string) (d : list (string * yaml)) :
  k <> k' -> In k' (OD.keys d) -> In k' (OD.keys (OD.pop k d)).
Proof.
  unfold OD.keys, OD.pop. intros Hne H.
  apply in_map_iff in H as ([j v] & Hj & Hin). simpl in Hj. subst j.
  apply in_map_iff. exists (k', v). split; [reflexivity|].
  apply filter_In. split; [exact Hin|]. simpl.
  apply negb_true_iff, String.eqb_neq. congruence.
Qed.

(** The first entry under a key splits the mapping. *)
Lemma first_entry (k : string) (d : list (string * yaml)) :
  In k (OD.keys d) ->
  exists pre v post, d = pre ++ (k, v) :: post /\ ~ In k (OD.keys pre).
Proof.
  induction d as [|[j w] d IH]; simpl; intros H; [tauto|].
  destruct (String.eqb j k) eqn:E.
  - apply String.eqb_eq in E. subst j. exists [], w, d. simpl. tauto.
  - apply String.eqb_neq in E. destruct H as [H|H]; [congruence|].
    destruct (IH H) as (pre & v & post & -> & Hpre).
    exists ((j, w) :: pre), v, post. simpl. split; [reflexivity|].
    intros [H'|H']; [congruence | tauto].
Qed.

Lemma desc_idx_first (pre post : list string) :
  ~ In "description" pre ->
  forall i, exists rest,
    desc_idx_from i (pre ++ "description" :: post) = (i + length pre) :: rest.
Proof.
  induction pre as [|x pre IH]; intros H i.
  - cbn [app desc_idx_from length]. rewrite String.eqb_refl.
    rewrite Nat.add_0_r. eauto.
  - cbn [app desc_idx_from length].
    destruct (String.eqb x "description") eqn:E.
    + apply String.eqb_eq in E. subst. simpl in H. tauto.
    + destruct (IH (fun Hin => H (or_intror Hin)) (S i)) as [rest Hrest].
      rewrite Hrest. exists rest. f_equal. lia.
Qed.

Lemma insert_after (pre post : list (string * yaml)) (e : string * yaml)
    (k : string) (v : yaml) :
  OD.insert (length pre + 1) k v (pre ++ e :: post)
  = pre ++ e :: (k, v) :: post.
Proof.
  unfold OD.insert.
  replace (pre ++ e :: post) with ((pre ++ [e]) ++ post)
    by (rewrite <- app_assoc; reflexivity).
  replace (length pre + 1) with (length (pre ++ [e]))
    by (rewrite length_app; reflexivity).
  rewrite firstn_app, skipn_app, Nat.sub_diag, firstn_all, skipn_all.
  simpl. rewrite app_nil_r, <- app_assoc. reflexivity.
Qed.

(** The edit of the document: the old version_added is gone and the new
    one follows the description. *)
Lemma documentation_edit_run (items : list (string * yaml)) :
  OD.mem "description" items = true ->
  exists pre v post,
    OD.pop "version_added" items = pre ++ ("description", v) :: post /\
    ~ In "description" (OD.keys pre) /\
    ~ In "version_added" (OD.keys pre ++ OD.keys post) /\
    documentation_edit (YMap items)
    = Ok (YMap (pre ++ ("description", v)
                    :: ("version_added", YStr "1.0.0") :: post)).
Proof.
  intros H. unfold OD.mem in H. apply existsb_eqb_In in H.
  apply (keys_pop_other "version_added") in H; [|discriminate].
  destruct (first_entry _ _ H) as (pre & v & post & Hsplit & Hpre).
  exists pre, v, post. split; [exact Hsplit|]. split; [exact Hpre|]. split.
  - pose proof (keys_pop_not "version_added" items) as Hno.
    rewrite Hsplit in Hno. unfold OD.keys in *.
    rewrite map_app in Hno. simpl in Hno.
    rewrite in_app_iff in *. simpl in Hno. tauto.
  - unfold documentation_edit. rewrite Hsplit.
    unfold OD.keys. rewrite map_app. cbn [map fst].
    destruct (desc_idx_first (map fst pre) (map fst post) Hpre 0)
      as [rest Hrest].
    rewrite Hrest. cbn [getitem lookup list_lookup bind].
    rewrite length_map, Nat.add_0_l, insert_after. reflexivity.
Qed.

Lemma append_nil_r (s : string) : s +:+ "" = s.
Proof.
  induction s as [|c s IH]; [reflexivity|].
  change (String c (s +:+ "") = String c s). f_equal. exact IH.
Qed.

Lemma rev_app_rev_app (x cur acc : string) :
  String.rev_app (String.rev_app x cur) acc = String.rev_app cur (x +:+ acc).
Proof.
  revert cur acc. induction x as [|a x IH]; intros cur acc; [reflexivity|].
  cbn [String.rev_app]. rewrite IH. reflexivity.
Qed.

Lemma rev_rev_app (x : string) : String.rev (String.rev_app x "") = x.
Proof.
  unfold String.rev. rewrite rev_app_rev_app.
  cbn [String.rev_app]. apply append_nil_r.
Qed.

Lemma no_linebreak_rev_app (s1 s2 : string) :
  no_linebreak s1 = true -> no_linebreak s2 = true ->
  no_linebreak (String.rev_app s1 s2) = true.
Proof.
  revert s2. induction s1 as [|c s1 IH]; intros s2 H1 H2; [exact H2|].
  cbn [no_linebreak] in H1. apply andb_true_iff in H1 as [Hc H1].
  cbn [String.rev_app]. apply IH; [exact H1|].
  cbn [no_linebreak]. rewrite Hc, H2. reflexivity.
Qed.

Lemma no_linebreak_append (s1 s2 : string) :
  no_linebreak s1 = true -> no_linebreak s2 = true ->
  no_linebreak (s1 +:+ s2) = true.
Proof.
  induction s1 as [|c s1 IH]; intros H1 H2; [exact H2|].
  cbn [no_linebreak] in H1. apply andb_true_iff in H1 as [Hc H1].
  change (negb (Py.is_linebreak c) && no_linebreak (s1 +:+ s2) = true).
  rewrite Hc, (IH H1 H2). reflexivity.
Qed.

(** The lines given by [splitlines] hold no line boundary. *)
Lemma splitlines_aux_no_linebreak (s : string) :
  forall (after_cr : bool) (cur : string),
  no_linebreak cur = true ->
  Forall (fun l => no_linebreak l = true) (Py.splitlines_aux after_cr cur s).
Proof.
  induction s as [|c s IH]; intros after_cr cur Hcur; cbn [Py.splitlines_aux].
  - destruct cur; constructor; [|constructor].
    apply no_linebreak_rev_app; [exact Hcur | reflexivity].
  - destruct (after_cr && Py.is_lf c); [apply IH; reflexivity|].
    destruct (Py.is_linebreak c) eqn:E.
    + constructor; [|apply IH; reflexivity].
      apply no_linebreak_rev_app; [exact Hcur | reflexivity].
    + apply IH. cbn [no_linebreak]. rewrite E, Hcur. reflexivity.
Qed.

Lemma no_linebreak_app_inv (s1 s2 : string) :
  no_linebreak (s1 +:+ s2) = true ->
  no_linebreak s1 = true /\ no_linebreak s2 = true.
Proof.
  induction s1 as [|c s1 IH]; intros H; [split; [reflexivity | exact H]|].
  change (negb (Py.is_linebreak c) && no_linebreak (s1 +:+ s2) = true) in H.
  apply andb_true_iff in H as [Hc H]. destruct (IH H) as [H1 H2].
  split; [|exact H2]. cbn [no_linebreak]. rewrite Hc, H1. reflexivity.
Qed.

Lemma splitlines_no_linebreak (repl l : string) :
  In l (Py.splitlines repl) -> no_linebreak l = true.
Proof.
  intros Hin.
  pose proof (splitlines_aux_no_linebreak repl false EmptyString eq_refl)
    as Hall.
  rewrite List.Forall_forall in Hall. exact (Hall l Hin).
Qed.

(** *** The pattern, on a line *)

Lemma skip_spaces_split (s : string) :
  exists indent, all_space indent = true /\ s = indent +:+ skip_spaces s.
Proof.
  induction s as [|c s IH]; [exists ""; split; reflexivity|].
  cbn [skip_spaces]. destruct (Py.is_space c) eqn:E.
  - destruct IH as (ind & Hind & Hs). exists (String c ind). split.
    + cbn [all_space]. rewrite E, Hind. reflexivity.
    + change (String c s = String c (ind +:+ skip_spaces s)).
      f_equal. exact Hs.
  - exists "". split; reflexivity.
Qed.

Lemma skip_spaces_app (indent s : string) :
  all_space indent = true -> skip_spaces (indent +:+ s) = skip_spaces s.
Proof.
  induction indent as [|c indent IH]; intros H; [reflexivity|].
  cbn [all_space] in H. apply andb_true_iff in H as [Hc H].
  change (skip_spaces (String c (indent +:+ s)) = skip_spaces s).
  cbn [skip_spaces]. rewrite Hc. exact (IH H).
Qed.

Lemma strip_prefix_app (p s : string) : strip_prefix p (p +:+ s) = Some s.
Proof.
  induction p as [|a p IH]; [reflexivity|].
  change (strip_prefix (String a p) (String a (p +:+ s)) = Some s).
  cbn [strip_prefix]. rewrite Ascii.eqb_refl. exact IH.
Qed.

Lemma strip_prefix_Some (p s r : string) :
  strip_prefix p s = Some r -> s = p +:+ r.
Proof.
  revert s. induction p as [|a p IH]; intros s H.
  - injection H as ->. reflexivity.
  - destruct s as [|b s]; [discriminate|]. cbn [strip_prefix] in H.
    destruct (Ascii.eqb a b) eqn:E; [|discriminate].
    apply Ascii.eqb_eq in E. subst b.
    change (String a s = String a (p +:+ r)). f_equal. exact (IH s H).
Qed.

Lemma dot_star_end_no_linebreak (s : string) :
  no_linebreak s = true -> dot_star_end s = true.
Proof.
  induction s as [|c s IH]; [reflexivity|]. cbn [no_linebreak]. intros H.
  apply andb_true_iff in H as [Hc H]. cbn [dot_star_end].
  assert (Hlf : Py.is_lf c = false).
  { unfold Py.is_linebreak in Hc. cbv zeta in Hc. unfold Py.is_lf.
    destruct (Nat.eqb (Py.code c) 10); [discriminate Hc | reflexivity]. }
  rewrite Hlf. exact (IH H).
Qed.

(** On a line, the expression of the pass matches the lines of the
    pattern, and no other. *)
Lemma version_added_re_spec (l : string) :
  no_linebreak l = true ->
  version_added_re l = true <-> nested_version_added l.
Proof.
  intros Hl. split.
  - destruct l as [|c l']; [discriminate|]. cbn [version_added_re].
    intros H. apply andb_true_iff in H as [Hc H].
    destruct (strip_prefix "version_added:" (skip_spaces l'))
      as [[|w rest]|] eqn:E; try discriminate.
    apply andb_true_iff in H as [Hw _]. apply strip_prefix_Some in E.
    destruct (skip_spaces_split l') as (ind & Hind & Hsplit).
    exists (String c ind), w, rest. split; [discriminate|].
    split; [cbn [all_space]; rewrite Hc, Hind; reflexivity|].
    split; [exact Hw|].
    rewrite Hsplit at 1. rewrite E. reflexivity.
  - intros (indent & w & rest & Hne & Hsp & Hw & E). subst l.
    destruct indent as [|c ind]; [congruence|].
    cbn [all_space] in Hsp. apply andb_true_iff in Hsp as [Hc Hind].
    apply no_linebreak_app_inv in Hl as [_ Hl].
    apply no_linebreak_app_inv in Hl as [_ Hl].
    cbn [no_linebreak] in Hl. apply andb_true_iff in Hl as [_ Hrest].
    change (version_added_re
              (String c (ind +:+ "version_added:" +:+ String w rest)) = true).
    cbn [version_added_re]. rewrite Hc, (skip_spaces_app _ _ Hind).
    change (skip_spaces ("version_added:" +:+ String w rest))
      with ("version_added:" +:+ String w rest).
    rewrite strip_prefix_app, Hw.
    exact (dot_star_end_no_linebreak rest Hrest).
Qed.

Lemma filter_lines_without (P : string -> Prop) (f : string -> bool)
    (lines : list string) :
  (forall l, In l lines -> f l = true <-> P l) ->
  lines_without P lines (List.filter (fun l => negb (f l)) lines).
Proof.
  induction lines as [|l lines IH]; intros H; [constructor|].
  cbn [List.filter].
  assert (IH' : lines_without P lines
                  (List.filter (fun l0 => negb (f l0)) lines))
    by (apply IH; intros l0 H0; apply H; now right).
  destruct (f l) eqn:E; cbn [negb].
  - apply lines_without_drop; [|exact IH']. apply H; [now left | exact E].
  - apply lines_without_keep; [|exact IH']. intros HP.
    apply H in HP; [|now left]. congruence.
Qed.

Lemma lines_without_In (P : string -> Prop) (lines kept : list string) :
  lines_without P lines kept ->
  forall l, In l kept -> In l lines /\ ~ P l.
Proof.
  induction 1 as [|l0 lines kept HP _ IH|l0 lines kept HP _ IH]; intros l Hin.
  - destruct Hin.
  - destruct (IH l Hin) as [H1 H2]. split; [now right | exact H2].
  - destruct Hin as [<-|Hin]; [split; [now left | exact HP]|].
    destruct (IH l Hin) as [H1 H2]. split; [now right | exact H2].
Qed.

(** The lines kept by the text edit are the lines of the dump, in their
    order, without the lines of the pattern. *)
Lemma drop_version_added_without (repl : string) :
  lines_without nested_version_added (Py.splitlines repl)
    (List.filter (fun l => negb (version_added_re l)) (Py.splitlines repl)).
Proof.
  apply filter_lines_without. intros l Hin.
  apply version_added_re_spec. exact (splitlines_no_linebreak repl l Hin).
Qed.

Lemma drop_version_added_lines (repl : string) :
  exists kept,
    drop_version_added repl = Py.join (String (ascii_of_nat 10) "") kept /\
    forall l, In l kept <->
              In l (Py.splitlines repl) /\ version_added_re l = false.
Proof.
  exists (List.filter (fun l => negb (version_added_re l))
            (Py.splitlines repl)).
  split; [reflexivity|]. intros l. rewrite filter_In, negb_true_iff.
  reflexivity.
Qed.

Example version_added_re_nested :
  version_added_re "    version_added: '2.9'" = true.
Proof. reflexivity. Qed.

Example version_added_re_top_level :
  version_added_re "version_added: 1.0.0" = false.
Proof. reflexivity. Qed.

Example drop_version_added_sample :
  drop_version_added sample_documentation_edited_text =
"module: ios_interfaces
short_description: Manages interface attributes
description: This module manages the interface attributes.
version_added: 1.0.0
options:
  config:
    type: list".
Proof. reflexivity. Qed.

Example lines_without_sample :
  lines_without nested_version_added
    ["module: ios_interfaces";
     "short_description: Manages interface attributes";
     "description: This module manages the interface attributes.";
     "version_added: 1.0.0";
     "options:";
     "  config:";
     "    type: list";
     "    version_added: '2.9'"]
    ["module: ios_interfaces";
     "short_description: Manages interface attributes";
     "description: This module manages the interface attributes.";
     "version_added: 1.0.0";
     "options:";
     "  config:";
     "    type: list"].
Proof. exact (drop_version_added_without sample_documentation_edited_text). Qed.

(** C4. For a file with exactly one DOCUMENTATION assignment whose
    document has a description key, the pass writes the dump of the
    document in which any top-level version_added is removed and
    version_added: 1.0.0 comes right after description, without the lines
    of the pattern: the text written is the lines of the dump, in their
    order and joined by a line feed, less every line made of one or more
    whitespace characters, then version_added:, then a whitespace
    character, then anything. No line of one or more whitespace
    characters, then version_added:, then a space, is left. On the lines
    of the dump the expression of the pass matches these lines and no
    other. *)
Theorem update_documentation_edit
    (yaml_load : string -> option yaml) (yaml_dump : yaml -> string)
    (st : state) (i : nat) (ts : option (list expr)) (text : string)
    (items : list (string * yaml)) :
  find_assigment_in_ast "DOCUMENTATION" (body st) = Ok [i] ->
  body st !! i = Some (Stmt ts (Some (Constant (CStr text)))) ->
  yaml_load text = Some (YMap items) ->
  OD.mem "description" items = true ->
  exists pre v post repl kept,
    OD.pop "version_added" items = pre ++ ("description", v) :: post /\
    ~ In "description" (OD.keys pre) /\
    ~ In "version_added" (OD.keys pre ++ OD.keys post) /\
    repl = yaml_dump (YMap (pre ++ ("description", v)
                                :: ("version_added", YStr "1.0.0") :: post)) /\
    (bodypart <- locate "DOCUMENTATION" ;;
     update_documentation yaml_load yaml_dump bodypart) st
    = Ok (tt, State (<[i := Stmt ts (Some (Constant (CStr
                             (Py.join (String (ascii_of_nat 10) "") kept))))]>
                       (body st))
                    (log st)) /\
    drop_version_added repl = Py.join (String (ascii_of_nat 10) "") kept /\
    lines_without nested_version_added (Py.splitlines repl) kept /\
    (forall indent rest,
       indent <> "" -> all_space indent = true ->
       ~ In (indent +:+ "version_added: " +:+ rest) kept) /\
    (forall l, In l kept <->
               In l (Py.splitlines repl) /\ version_added_re l = false) /\
    (forall l, In l (Py.splitlines repl) ->
               version_added_re l = true <-> nested_version_added l).
Proof.
  intros Hfind Hnode Hload Hdesc.
  destruct (documentation_edit_run items Hdesc)
    as (pre & v & post & Hsplit & Hpre & Hno & Hedit).
  set (repl := yaml_dump (YMap (pre ++ ("description", v)
                                 :: ("version_added", YStr "1.0.0") :: post))).
  pose proof (drop_version_added_without repl) as Hwithout.
  exists pre, v, post, repl,
    (List.filter (fun l => negb (version_added_re l)) (Py.splitlines repl)).
  split; [exact Hsplit|]. split; [exact Hpre|]. split; [exact Hno|].
  split; [reflexivity|]. split; [|split; [reflexivity|]].
  - unfold bindM at 1. rewrite (locate_run _ _ _ Hfind).
    unfold update_documentation. cbn [length Nat.eqb negb].
    unfold bindM, lift at 1. cbn [getitem lookup list_lookup].
    unfold load_node, bindM. rewrite (node_value_value_run _ _ _ _ Hnode).
    unfold load, lift. rewrite Hload, Hedit.
    rewrite (set_node_value_value_run _ _ _ _ _ Hnode). reflexivity.
  - split; [exact Hwithout|]. split; [|split].
    + intros indent rest Hne Hsp Hin.
      destruct (lines_without_In _ _ _ Hwithout _ Hin) as [_ Hnot].
      apply Hnot. exists indent, " "%char, rest.
      split; [exact Hne|]. split; [exact Hsp|]. split; reflexivity.
    + intros l. rewrite filter_In, negb_true_iff. reflexivity.
    + intros l Hin. apply version_added_re_spec.
      exact (splitlines_no_linebreak repl l Hin).
Qed.

(** ** The examples pass: running it again *)

Lemma length_append (s t : string) :
  String.length (s +:+ t) = String.length s + String.length t.
Proof. induction s as [|c s IH]; simpl; [reflexivity | rewrite IH; reflexivity]. Qed.

(** The fully-qualified name is never the bare name. *)
Lemma full_name_ne (collection module_name : string) :
  module_name <> full_name collection module_name.
Proof.
  intros H. apply (f_equal String.length) in H. unfold full_name in H.
  rewrite !length_append in H. simpl in H. lia.
Qed.

Lemma fqcn_task_fixed (mn full : string) (task task' : yaml) :
  mn <> full ->
  fqcn_task mn full task = Ok task' ->
  fqcn_task mn full task' = Ok task' /\
  exists items', task' = YMap items' /\ ~ In mn (OD.keys items').
Proof.
  intros Hne H. destruct task as [| | | | |items]; try discriminate.
  simpl in H. injection H as <-.
  assert (Hbare : ~ In mn (OD.keys (OD.of_pairs (fqcn_pairs mn full items)))).
  { intros Hin. apply of_pairs_keys_incl in Hin.
    rewrite keys_fqcn_pairs in Hin.
    exact (fqcn_key_not_bare mn full _ Hne Hin). }
  split; [|eauto]. simpl. do 2 f_equal.
  rewrite (fqcn_pairs_id _ _ _ Hbare).
  apply of_pairs_nodup, of_pairs_keys_nodup.
Qed.

Lemma fqcn_tasks_fixed (mn full : string) (tasks : list yaml) :
  mn <> full ->
  forall tasks', fqcn_tasks mn full tasks = Ok tasks' ->
  fqcn_tasks mn full tasks' = Ok tasks' /\
  forall items', In (YMap items') tasks' -> ~ In mn (OD.keys items').
Proof.
  intros Hne. induction tasks as [|task tasks IH]; intros tasks' H.
  - injection H as <-. split; [reflexivity | intros ? []].
  - cbn [fqcn_tasks] in H.
    destruct (fqcn_task mn full task) as [t|] eqn:Ht; [|discriminate].
    destruct (fqcn_tasks mn full tasks) as [r|] eqn:Hr; [|discriminate].
    cbn [bind] in H. injection H as <-.
    destruct (fqcn_task_fixed _ _ _ _ Hne Ht) as (Hfix & items & -> & Hbare).
    destruct (IH r eq_refl) as [Hfixs Hbares].
    split.
    + cbn [fqcn_tasks]. rewrite Hfix, Hfixs. reflexivity.
    + intros items' [Hin|Hin]; [congruence | eauto].
Qed.

(** The renaming changes nothing in a document that it produced, and no
    task of such a document has the bare name as a key. *)
Lemma fqcn_example_fixed (mn full : string) (example example' : yaml) :
  mn <> full ->
  fqcn_example mn full example = Ok example' ->
  fqcn_example mn full example' = Ok example' /\
  forall tasks' items',
    example' = YSeq tasks' -> In (YMap items') tasks' ->
    ~ In mn (OD.keys items').
Proof.
  intros Hne H.
  destruct example as [| | |[|c s]|tasks|[|e items]]; try discriminate.
  - injection H as <-. split; [reflexivity | discriminate].
  - cbn [fqcn_example] in H.
    destruct (fqcn_tasks mn full tasks) as [r|] eqn:Hr; [|discriminate].
    cbn [bind] in H. injection H as <-.
    destruct (fqcn_tasks_fixed _ _ _ Hne r Hr) as [Hfix Hbare].
    split.
    + cbn [fqcn_example]. rewrite Hfix. reflexivity.
    + intros tasks' items' E. injection E as <-. apply Hbare.
  - injection H as <-. split; [reflexivity | discriminate].
Qed.

Lemma contains_startswith (p s : string) :
  Py.startswith p s = true -> Py.contains p s = true.
Proof. intros H. destruct s; simpl; rewrite H; reflexivity. Qed.

Lemma replace_aux_contains (old new : string) (s : string) :
  old <> "" ->
  Py.contains old s = true ->
  Py.contains new (Py.replace_aux old new 0 s) = true.
Proof.
  intros Hold. induction s as [|c s IH]; intros H.
  - destruct old; [congruence | discriminate].
  - cbn [Py.replace_aux].
    destruct (Py.startswith old (String c s)) eqn:E.
    + apply contains_startswith, startswith_app.
    + cbn [Py.contains] in H. rewrite E in H. simpl in H.
      cbn [Py.contains]. rewrite (IH H). apply orb_true_r.
Qed.

(** A substituted comment line holds the fully-qualified name. *)
Lemma replace_contains (old new s : string) :
  old <> "" ->
  Py.contains old s = true ->
  Py.contains new (Py.replace old new s) = true.
Proof.
  intros Hold H. unfold Py.replace. destruct old as [|a old]; [congruence|].
  apply replace_aux_contains; assumption.
Qed.

Lemma fqcn_comment_qualified (mn full line : string) :
  Py.contains full line = true -> fqcn_comment mn full line = line.
Proof.
  intros H. unfold fqcn_comment. rewrite H. simpl.
  rewrite !andb_false_r. reflexivity.
Qed.

Lemma fqcn_comment_idem (mn full line : string) :
  fqcn_comment mn full (fqcn_comment mn full line)
  = fqcn_comment mn full line.
Proof.
  destruct (Py.startswith "#" line && Py.contains mn line
            && negb (String.eqb mn "") && negb (Py.contains full line))
    eqn:E.
  - assert (Hr : fqcn_comment mn full line = Py.replace mn full line)
      by (unfold fqcn_comment; rewrite E; reflexivity).
    rewrite Hr. apply fqcn_comment_qualified.
    apply andb_true_iff in E as [E _]. apply andb_true_iff in E as [E Hmn].
    apply andb_true_iff in E as [_ Hin].
    apply replace_contains; [|exact Hin].
    apply negb_true_iff, String.eqb_neq in Hmn. exact Hmn.
  - assert (Hr : fqcn_comment mn full line = line)
      by (unfold fqcn_comment; rewrite E; reflexivity).
    rewrite Hr. exact Hr.
Qed.

(** ** The short-description pass and the tree *)

Lemma lift_inv {A} (r : result A) (st st' : state) (a : A) :
  lift r st = Ok (a, st') -> r = Ok a /\ st' = st.
Proof.
  unfold lift. destruct r; intros H; [|discriminate].
  injection H as -> ->. split; reflexivity.
Qed.

Lemma logging_body (lv : level) (msg : string) (st st' : state) (u : unit) :
  logging lv msg st = Ok (u, st') -> body st' = body st.
Proof. unfold logging. intros H. injection H as _ <-. reflexivity. Qed.

Lemma logging_all_body (msgs : list (level * string)) :
  forall (st st' : state) (u : unit),
  logging_all msgs st = Ok (u, st') -> body st' = body st.
Proof.
  induction msgs as [|[lv msg] msgs IH]; intros st st' u H.
  - injection H as _ <-. reflexivity.
  - cbn [logging_all] in H. unfold bindM in H. cbn [logging] in H.
    unfold logging in H. apply IH in H. exact H.
Qed.

Lemma node_inv (i : nat) (st st' : state) (b : stmt) :
  node i st = Ok (b, st') -> body st !! i = Some b /\ st' = st.
Proof.
  unfold node. intros H. apply lift_inv in H as [H ->].
  unfold getitem in H. destruct (body st !! i); [|discriminate].
  injection H as ->. split; reflexivity.
Qed.

Lemma node_value_value_inv (i : nat) (st st' : state) (o : pyobj) :
  node_value_value i st = Ok (o, st') -> st' = st.
Proof.
  unfold node_value_value, bindM. intros H.
  destruct (node i st) as [[b st0]|] eqn:E; [|discriminate].
  apply node_inv in E as [_ ->].
  destruct (lift (stmt_value b) st) as [[e st1]|] eqn:E1; [|discriminate].
  apply lift_inv in E1 as [_ ->].
  apply lift_inv in H as [_ ->]. reflexivity.
Qed.

Lemma load_node_inv (yaml_load : string -> option yaml) (i : nat)
    (st st' : state) (d : yaml) :
  load_node yaml_load i st = Ok (d, st') -> st' = st.
Proof.
  unfold load_node, bindM. intros H.
  destruct (node_value_value i st) as [[o st0]|] eqn:E; [|discriminate].
  apply node_value_value_inv in E as ->.
  apply lift_inv in H as [_ ->]. reflexivity.
Qed.

Lemma set_node_value_value_inv (i : nat) (text : string) (st st' : state)
    (u : unit) :
  set_node_value_value i text st = Ok (u, st') ->
  exists ts c,
    body st !! i = Some (Stmt ts (Some (Constant c))) /\
    body st' = <[i := Stmt ts (Some (Constant (CStr text)))]> (body st).
Proof.
  unfold set_node_value_value, bindM. intros H.
  destruct (node i st) as [[b st0]|] eqn:E; [|discriminate].
  apply node_inv in E as [Hb ->].
  destruct (lift (stmt_value b) st) as [[e st1]|] eqn:E1; [|discriminate].
  apply lift_inv in E1 as [He ->].
  destruct b as [ts v]. unfold stmt_value in He. cbn [value] in He.
  destruct v as [e'|]; [|discriminate]. injection He as ->.
  destruct e; try (apply lift_inv in H as [H _]; discriminate).
  unfold set_node in H. injection H as _ <-. cbn [targets body]. eauto.
Qed.

Lemma length_one {A} (l : list A) :
  negb (Nat.eqb (length l) 1) = false -> exists a, l = [a].
Proof.
  destruct l as [|a [|b l]]; simpl; try discriminate. eauto.
Qed.

(** What a run of the pass does to the tree: nothing, or one write into
    the located documentation node, made when the derived description
    differs from the loaded one. *)
Lemma update_short_description_inv
    (yaml_load : string -> option yaml) (yaml_dump : yaml -> string)
    (retrn documentation : list nat) (module_name : string)
    (st st' : state) :
  update_short_description yaml_load yaml_dump retrn documentation
    module_name st = Ok (tt, st') ->
  body st' = body st \/
  exists r0 d0 ret_section doc_section sd msgs orig doc' ts c,
    retrn = [r0] /\ documentation = [d0] /\
    load_node yaml_load r0 st = Ok (ret_section, st) /\
    load_node yaml_load d0 st = Ok (doc_section, st) /\
    short_description_of ret_section doc_section module_name = Ok (sd, msgs) /\
    yaml_getitem doc_section "short_description" = Ok orig /\
    yaml_eqb sd orig = false /\
    yaml_setitem doc_section "short_description" sd = Ok doc' /\
    body st !! d0 = Some (Stmt ts (Some (Constant c))) /\
    body st' = <[d0 := Stmt ts (Some (Constant (CStr (yaml_dump doc'))))]>
                 (body st).
Proof.
  unfold update_short_description. intros H.
  destruct (negb (Nat.eqb (length retrn) 1)) eqn:Lr.
  { left. eapply logging_body; eauto. }
  apply length_one in Lr as [r0 ->].
  unfold bindM at 1 in H. cbn [getitem lookup list_lookup lift] in H.
  unfold bindM at 1 in H.
  destruct (load_node yaml_load r0 st) as [[ret_section st0]|] eqn:Er;
    [|discriminate].
  pose proof (load_node_inv _ _ _ _ _ Er) as ->.
  destruct (negb (Nat.eqb (length documentation) 1)) eqn:Ld.
  { left. eapply logging_body; eauto. }
  apply length_one in Ld as [d0 ->].
  unfold bindM at 1 in H. cbn [getitem lookup list_lookup lift] in H.
  unfold bindM at 1 in H.
  destruct (load_node yaml_load d0 st) as [[doc_section st0]|] eqn:Ed;
    [|discriminate].
  pose proof (load_node_inv _ _ _ _ _ Ed) as ->.
  unfold bindM at 1 in H.
  destruct (lift (short_description_of ret_section doc_section module_name) st)
    as [[[sd msgs] st0]|] eqn:Es; [|discriminate].
  apply lift_inv in Es as [Es ->].
  unfold bindM at 1 in H. cbn [fst snd] in H.
  destruct (logging_all msgs st) as [[u st1]|] eqn:El; [|discriminate].
  pose proof (logging_all_body _ _ _ _ El) as Hb1.
  unfold bindM at 1 in H.
  destruct (lift (yaml_getitem doc_section "short_description") st1)
    as [[orig st2]|] eqn:Eo; [|discriminate].
  apply lift_inv in Eo as [Eo ->].
  destruct (yaml_eqb sd orig) eqn:Eq; cbn [negb] in H.
  { left. injection H as <-. exact Hb1. }
  right. unfold bindM at 1 in H. unfold logging at 1 in H.
  unfold bindM at 1 in H.
  match type of H with
  | match lift ?r ?s with _ => _ end = _ =>
      destruct (lift r s) as [[doc' st3]|] eqn:Et; [|discriminate]
  end.
  apply lift_inv in Et as [Et ->].
  apply set_node_value_value_inv in H as (ts & c & Hnode & Hbody).
  cbn [body] in Hnode, Hbody. rewrite Hb1 in Hnode, Hbody.
  exists r0, d0, ret_section, doc_section, sd, msgs, orig, doc', ts, c.
  repeat split; assumption.
Qed.

(** C8. A run of the short-description pass on the located RETURN and
    DOCUMENTATION assignments never changes a RETURN assignment; it changes
    no statement other than the DOCUMENTATION assignment; and it changes
    that one only when the derived short description differs from the
    loaded one: when they are equal the whole tree is as before. *)
Theorem update_short_description_frame
    (yaml_load : string -> option yaml) (yaml_dump : yaml -> string)
    (retrn documentation : list nat) (module_name : string)
    (st st' : state) :
  find_assigment_in_ast "RETURN" (body st) = Ok retrn ->
  find_assigment_in_ast "DOCUMENTATION" (body st) = Ok documentation ->
  update_short_description yaml_load yaml_dump retrn documentation
    module_name st = Ok (tt, st') ->
  (forall j, In j retrn -> body st' !! j = body st !! j) /\
  (forall j, ~ In j documentation -> body st' !! j = body st !! j) /\
  (forall r0 d0 ret_section doc_section sd msgs orig,
     retrn = [r0] -> documentation = [d0] ->
     load_node yaml_load r0 st = Ok (ret_section, st) ->
     load_node yaml_load d0 st = Ok (doc_section, st) ->
     short_description_of ret_section doc_section module_name
       = Ok (sd, msgs) ->
     yaml_getitem doc_section "short_description" = Ok orig ->
     (sd = orig -> body st' = body st) /\
     (body st' <> body st -> sd <> orig)).
Proof.
  intros Hr Hd Hrun.
  destruct (update_short_description_inv _ _ _ _ _ _ _ Hrun)
    as [Hsame | (r0 & d0 & ret_section & doc_section & sd & msgs & orig
                 & doc' & ts & c & -> & -> & Lr & Ld & Hsd & Horig & Hneq
                 & Hset & Hnode & Hbody)].
  - rewrite Hsame. split; [reflexivity|]. split; [reflexivity|].
    intros. split; [reflexivity | congruence].
  - assert (Hdiff : r0 <> d0).
    { intros ->.
      apply (find_assigment_in_ast_disjoint "RETURN" "DOCUMENTATION"
               (body st) [d0] [d0] d0); [discriminate | assumption..
                                         | now left | now left]. }
    rewrite Hbody. split; [|split].
    + intros j [<-|[]]. apply list_lookup_insert_ne. congruence.
    + intros j Hj. apply list_lookup_insert_ne. intros <-. apply Hj. now left.
    + intros r0' d0' ret' doc1 sd' msgs' orig' E1 E2 Lr' Ld' Hsd' Horig'.
      injection E1 as <-. injection E2 as <-.
      rewrite Lr in Lr'. injection Lr' as <-.
      rewrite Ld in Ld'. injection Ld' as <-.
      rewrite Hsd in Hsd'. injection Hsd' as <- <-.
      rewrite Horig in Horig'. injection Horig' as <-.
      assert (Hne : sd <> orig).
      { intros ->. rewrite yaml_eqb_refl in Hneq. discriminate. }
      split; [intros E; contradiction | intros _; exact Hne].
Qed.

(** ** One file: assignments that are missing or repeated *)

Lemma negb_length_one {A} (l : list A) :
  length l <> 1 -> negb (Nat.eqb (length l) 1) = true.
Proof. intros H. apply negb_true_iff, Nat.eqb_neq. exact H. Qed.

(** C3, as the code has it. Zero or several ANSIBLE_METADATA, RETURN or
    EXAMPLES assignments turn the pass concerned into a warning that
    leaves the tree as it is, and the file goes on through the following
    passes. Zero or several DOCUMENTATION assignments give no module name:
    the file is skipped with a warning, no pass runs and the tree is as it
    was loaded. *)
Theorem missing_assignment_recovery
    (yaml_load : string -> option yaml) (yaml_dump : yaml -> string)
    (collection filename module_name : string) (st : state)
    (name : string) (l : list nat) :
  find_assigment_in_ast name (body st) = Ok l ->
  length l <> 1 ->
  (name = "ANSIBLE_METADATA" ->
   from_metadata yaml_load yaml_dump collection filename module_name st
   = from_documentation yaml_load yaml_dump collection filename module_name
       (State (body st)
          (log st ++ [(WARNING, "Failed to find ANSIBLE_METADATA assignment");
                      (INFO, "Updated metadata in " +:+ filename)]))) /\
  (name = "RETURN" ->
   from_short_description yaml_load yaml_dump collection filename
     module_name st
   = from_examples yaml_load yaml_dump collection filename module_name
       (State (body st)
          (log st ++ [(WARNING, "Failed to find RETURN assignment")]))) /\
  (name = "EXAMPLES" ->
   from_examples yaml_load yaml_dump collection filename module_name st
   = Ok (Written,
         State (body st)
           (log st ++ [(WARNING, "Failed to find EXAMPLES assignment");
                       (INFO, "Updated examples in " +:+ filename);
                       (INFO, "Wrote " +:+ filename);
                       (INFO, "Running black against " +:+ filename)]))) /\
  (name = "DOCUMENTATION" ->
   process_file yaml_load yaml_dump collection filename st
   = Ok (Skipped,
         State (body st)
           (log st ++ [(INFO, "-------------------Processing " +:+ filename);
                       (WARNING, "Failed to find DOCUMENTATION assignment");
                       (WARNING, "Skipped " +:+ filename
                                 +:+ ": No module name found")]))).
Proof.
  intros Hfind Hlen. pose proof (negb_length_one l Hlen) as Hneg.
  repeat split; intros ->.
  - unfold from_metadata, bindM at 1. rewrite (locate_run _ _ _ Hfind).
    unfold update_metdata. rewrite Hneg.
    unfold bindM, logging. cbn [body log]. rewrite <- app_assoc. reflexivity.
  - destruct (find_assigment_in_ast_ok_any _ "DOCUMENTATION" _ _ Hfind)
      as [d Hd].
    unfold from_short_description, bindM at 1.
    rewrite (locate_run _ _ _ Hfind).
    unfold bindM at 1. rewrite (locate_run _ _ _ Hd).
    unfold update_short_description. rewrite Hneg.
    unfold bindM, logging. reflexivity.
  - unfold from_examples, bindM at 1. rewrite (locate_run _ _ _ Hfind).
    unfold update_examples. rewrite Hneg.
    unfold write_out, bindM, logging, ret. cbn [body log].
    rewrite <- !app_assoc. reflexivity.
  - unfold process_file, bindM at 1. unfold logging at 1.
    unfold bindM at 1, locate at 1. cbn [body log].
    rewrite Hfind. cbn [lift].
    unfold bindM at 1, retrieve_module_name. rewrite Hneg.
    unfold skip_file, bindM, logging, ret. cbn [body log].
    rewrite <- !app_assoc. reflexivity.
Qed.

(** C3, as the spec states it, fails: a file without a DOCUMENTATION
    assignment is skipped, so its ANSIBLE_METADATA assignment is not
    normalized. *)
Lemma process_file_skips_undocumented :
  ~ (forall (st : state) (l : list nat),
       find_assigment_in_ast "DOCUMENTATION" (body st) = Ok l ->
       length l <> 1 ->
       exists st',
         process_file sample_load sample_dump "cisco.ios"
           "plugins/modules/ios_interfaces.py" st = Ok (Written, st')).
Proof.
  intros H.
  destruct (H (State sample_body_undocumented []) [] eq_refl)
    as [st' Hrun]; [discriminate|].
  vm_compute in Hrun. discriminate.
Qed.

Lemma missing_assignment_recovery_witness :
  from_metadata sample_load sample_dump "cisco.ios" "f.py" "ios_interfaces"
    (State sample_body_bare [])
  = from_documentation sample_load sample_dump "cisco.ios" "f.py"
      "ios_interfaces"
      (State sample_body_bare
         [(WARNING, "Failed to find ANSIBLE_METADATA assignment");
          (INFO, "Updated metadata in f.py")]).
Proof.
  refine (proj1 (missing_assignment_recovery sample_load sample_dump
                   "cisco.ios" "f.py" "ios_interfaces"
                   (State sample_body_bare []) "ANSIBLE_METADATA" []
                   eq_refl _) eq_refl).
  simpl. lia.
Defined.

(** ** Runs on the sample file *)

Example process_file_sample :
  exists lg,
    process_file sample_load sample_dump "cisco.ios"
      "plugins/modules/ios_interfaces.py" (State sample_body [])
    = Ok (Written,
          State
            [Expr (Constant (CStr "Module docstring"));
             Assign [Name "ANSIBLE_METADATA"] meta;
             Assign [Name "DOCUMENTATION"]
               (Constant (CStr sample_documentation_final_text));
             Assign [Name "EXAMPLES"]
               (Constant (CStr (fqcn_comments "ios_interfaces"
                                  "cisco.ios.ios_interfaces"
                                  sample_examples_qualified_text)));
             Assign [Name "RETURN"] (Constant (CStr sample_return_text));
             Pass]
            lg).
Proof. eexists. vm_compute. reflexivity. Qed.

Lemma update_metdata_normalizes_witness :
  exists b st',
    sample_body !! 1 = Some b /\
    (bodypart <- locate "ANSIBLE_METADATA" ;; update_metdata bodypart)
      (State sample_body []) = Ok (tt, st') /\
    body st' = <[1 := Stmt (targets b) (Some meta)]> sample_body /\
    value <$> body st' !! 1 = Some (Some meta) /\
    meta = Dict [Constant (CStr "metadata_version");
                 Constant (CStr "supported_by")]
                [Constant (CStr "1.1"); Constant (CStr "Ansible")] /\
    log st' = [] /\
    find_assigment_in_ast "ANSIBLE_METADATA" (body st') = Ok [1].
Proof.
  apply (update_metdata_normalizes (State sample_body []) 1). reflexivity.
Defined.

Lemma update_documentation_edit_witness :
  exists pre v post repl kept,
    OD.pop "version_added" sample_documentation
      = pre ++ ("description", v) :: post /\
    ~ In "description" (OD.keys pre) /\
    ~ In "version_added" (OD.keys pre ++ OD.keys post) /\
    repl = sample_dump
             (YMap (pre ++ ("description", v)
                        :: ("version_added", YStr "1.0.0") :: post)) /\
    (bodypart <- locate "DOCUMENTATION" ;;
     update_documentation sample_load sample_dump bodypart)
      (State sample_body [])
    = Ok (tt, State (<[2 := Stmt (Some [Name "DOCUMENTATION"])
                              (Some (Constant (CStr
                                 (Py.join (String (ascii_of_nat 10) "")
                                    kept))))]> sample_body)
                    []) /\
    drop_version_added repl = Py.join (String (ascii_of_nat 10) "") kept /\
    lines_without nested_version_added (Py.splitlines repl) kept /\
    (forall indent rest,
       indent <> "" -> all_space indent = true ->
       ~ In (indent +:+ "version_added: " +:+ rest) kept) /\
    (forall l, In l kept <->
               In l (Py.splitlines repl) /\ version_added_re l = false) /\
    (forall l, In l (Py.splitlines repl) ->
               version_added_re l = true <-> nested_version_added l).
Proof.
  apply (update_documentation_edit sample_load sample_dump
           (State sample_body []) 2 (Some [Name "DOCUMENTATION"])
           sample_documentation_text sample_documentation);
    reflexivity.
Defined.

Lemma update_short_description_frame_witness :
  (forall j, In j [4] -> sample_body_described !! j
                         = sample_body_documented !! j) /\
  (forall j, ~ In j [2] -> sample_body_described !! j
                           = sample_body_documented !! j).
Proof.
  destruct (update_short_description_frame sample_load sample_dump
              [4] [2] "ios_interfaces"
              (State sample_body_documented [])
              (State sample_body_described
                 [(INFO, "Found a resource module");
                  (INFO, "Setting short desciption to "
                         +:+ "'Interfaces resource module'")])
              eq_refl eq_refl eq_refl) as (Hret & Hother & _).
  split; [exact Hret | exact Hother].
Defined.

(** * Further properties *)

(** ** What a pass may write *)

Lemma bindM_inv {A B} (m : M A) (k : A -> M B) (st st' : state) (b : B) :
  bindM m k st = Ok (b, st') ->
  exists a st1, m st = Ok (a, st1) /\ k a st1 = Ok (b, st').
Proof.
  unfold bindM. destruct (m st) as [[a st1]|]; [|discriminate]. eauto.
Qed.

Lemma locate_inv (name : string) (st st' : state) (r : list nat) :
  locate name st = Ok (r, st') ->
  find_assigment_in_ast name (body st) = Ok r /\ st' = st.
Proof. unfold locate. intros H. apply lift_inv in H. exact H. Qed.

Lemma logging_inv (lv : level) (msg : string) (st st' : state) (u : unit) :
  logging lv msg st = Ok (u, st') ->
  st' = State (body st) (log st ++ [(lv, msg)]).
Proof. unfold logging. intros H. injection H as _ <-. reflexivity. Qed.

Lemma set_node_value_inv (i : nat) (e : expr) (st st' : state) (u : unit) :
  set_node_value i e st = Ok (u, st') ->
  exists b,
    body st !! i = Some b /\
    st' = State (<[i := Stmt (targets b) (Some e)]> (body st)) (log st).
Proof.
  unfold set_node_value. intros H.
  apply bindM_inv in H as (b & st1 & Hn & H).
  apply node_inv in Hn as [Hb ->]. unfold set_node in H.
  injection H as _ <-. eauto.
Qed.

Lemma only_writes_same (names : list string) (st st' : state) :
  body st' = body st -> only_writes names st st'.
Proof. intros H. unfold only_writes. rewrite H. split; reflexivity. Qed.

Lemma only_writes_trans (names : list string) (st st1 st2 : state) :
  only_writes names st st1 -> only_writes names st1 st2 ->
  only_writes names st st2.
Proof.
  intros [T1 F1] [T2 F2]. split; [congruence|].
  intros j Hj. rewrite <- (F1 j Hj). apply F2.
  intros n r Hn Hr. apply (Hj n r Hn).
  rewrite <- Hr. unfold find_assigment_in_ast.
  apply find_from_targets. symmetry. exact T1.
Qed.

Lemma only_writes_incl (names names' : list string) (st st' : state) :
  (forall n, In n names -> In n names') ->
  only_writes names st st' -> only_writes names' st st'.
Proof.
  intros Hincl [T F]. split; [exact T|].
  intros j Hj. apply F. intros n r Hn. apply Hj. auto.
Qed.

(** One write into the value of a node located under [name]. *)
Lemma only_writes_insert (name : string) (st st' : state) (i : nat)
    (b : stmt) (v : option expr) (r : list nat) :
  find_assigment_in_ast name (body st) = Ok r -> In i r ->
  body st !! i = Some b ->
  body st' = <[i := Stmt (targets b) v]> (body st) ->
  only_writes [name] st st'.
Proof.
  intros Hfind Hin Hb Hbody. split.
  - rewrite Hbody. apply targets_insert_value. exact Hb.
  - intros j Hj. rewrite Hbody. apply list_lookup_insert_ne.
    intros <-. apply (Hj name r); [now left | exact Hfind | exact Hin].
Qed.

Lemma update_metdata_inv (bodypart : list nat) (st st' : state) (u : unit) :
  update_metdata bodypart st = Ok (u, st') ->
  body st' = body st \/
  exists i b, bodypart = [i] /\ body st !! i = Some b /\
              body st' = <[i := Stmt (targets b) (Some meta)]> (body st).
Proof.
  unfold update_metdata. intros H.
  destruct (negb (Nat.eqb (length bodypart) 1)) eqn:L.
  { left. eapply logging_body; eauto. }
  apply length_one in L as [i ->]. right.
  apply bindM_inv in H as (i' & st1 & Hi & H).
  apply lift_inv in Hi as [Hi ->]. injection Hi as <-.
  apply set_node_value_inv in H as (b & Hb & ->). eauto.
Qed.

Lemma update_documentation_inv
    (yaml_load : string -> option yaml) (yaml_dump : yaml -> string)
    (bodypart : list nat) (st st' : state) (u : unit) :
  update_documentation yaml_load yaml_dump bodypart st = Ok (u, st') ->
  body st' = body st \/
  exists i ts c text,
    bodypart = [i] /\
    body st !! i = Some (Stmt ts (Some (Constant c))) /\
    body st' = <[i := Stmt ts (Some (Constant (CStr text)))]> (body st).
Proof.
  unfold update_documentation. intros H.
  destruct (negb (Nat.eqb (length bodypart) 1)) eqn:L.
  { left. eapply logging_body; eauto. }
  apply length_one in L as [i ->]. right.
  apply bindM_inv in H as (i' & st1 & Hi & H).
  apply lift_inv in Hi as [Hi ->]. injection Hi as <-.
  apply bindM_inv in H as (d & st1 & Hd & H).
  apply load_node_inv in Hd as ->.
  apply bindM_inv in H as (d' & st1 & Hd & H).
  apply lift_inv in Hd as [_ ->].
  apply set_node_value_value_inv in H as (ts & c & Hb & Hbody).
  exists i, ts, c. eauto.
Qed.

Lemma update_examples_inv
    (yaml_load : string -> option yaml) (yaml_dump : yaml -> string)
    (bodypart : list nat) (module_name collection : string)
    (st st' : state) (u : unit) :
  update_examples yaml_load yaml_dump bodypart module_name collection st
    = Ok (u, st') ->
  body st' = body st \/
  exists i ts c text,
    bodypart = [i] /\
    body st !! i = Some (Stmt ts (Some (Constant c))) /\
    body st' = <[i := Stmt ts (Some (Constant (CStr text)))]> (body st).
Proof.
  unfold update_examples. intros H.
  destruct (negb (Nat.eqb (length bodypart) 1)) eqn:L.
  { left. eapply logging_body; eauto. }
  apply length_one in L as [i ->]. right.
  apply bindM_inv in H as (i' & st1 & Hi & H).
  apply lift_inv in Hi as [Hi ->]. injection Hi as <-.
  apply bindM_inv in H as (d & st1 & Hd & H).
  apply load_node_inv in Hd as ->.
  apply bindM_inv in H as (d' & st1 & Hd & H).
  apply lift_inv in Hd as [_ ->].
  apply set_node_value_value_inv in H as (ts & c & Hb & Hbody).
  exists i, ts, c. eauto.
Qed.

(** ** The passes of one file, together *)

Lemma write_out_inv (filename : string) (st st' : state) (o : outcome) :
  write_out filename st = Ok (o, st') -> o = Written /\ body st' = body st.
Proof.
  unfold write_out, bindM, logging, ret. intros H.
  injection H as <- <-. split; reflexivity.
Qed.

(** The passes that take a [str] are the passes left open, at that name. *)
Lemma update_short_description_as_with
    (yaml_load : string -> option yaml) (yaml_dump : yaml -> string)
    (retrn documentation : list nat) (module_name : string) :
  update_short_description yaml_load yaml_dump retrn documentation module_name
  = update_short_description_with yaml_load yaml_dump
      (resource_description module_name) retrn documentation.
Proof. reflexivity. Qed.

Lemma from_metadata_as_with
    (yaml_load : string -> option yaml) (yaml_dump : yaml -> string)
    (collection filename module_name : string) :
  from_metadata yaml_load yaml_dump collection filename module_name
  = from_metadata_with yaml_load yaml_dump
      (fun retrn documentation =>
         update_short_description yaml_load yaml_dump retrn documentation
           module_name)
      (fun bodypart =>
         update_examples yaml_load yaml_dump bodypart module_name collection)
      filename.
Proof. reflexivity. Qed.

Lemma update_short_description_with_inv
    (yaml_load : string -> option yaml) (yaml_dump : yaml -> string)
    (description : result string) (retrn documentation : list nat)
    (st st' : state) (u : unit) :
  update_short_description_with yaml_load yaml_dump description retrn
    documentation st = Ok (u, st') ->
  body st' = body st \/
  exists i ts c text,
    documentation = [i] /\
    body st !! i = Some (Stmt ts (Some (Constant c))) /\
    body st' = <[i := Stmt ts (Some (Constant (CStr text)))]> (body st).
Proof.
  unfold update_short_description_with. intros H.
  destruct (negb (Nat.eqb (length retrn) 1)) eqn:Lr.
  { left. eapply logging_body; eauto. }
  apply length_one in Lr as [r0 ->].
  unfold bindM at 1 in H. cbn [getitem lookup list_lookup lift] in H.
  unfold bindM at 1 in H.
  destruct (load_node yaml_load r0 st) as [[ret_section st0]|] eqn:Er;
    [|discriminate].
  pose proof (load_node_inv _ _ _ _ _ Er) as ->.
  destruct (negb (Nat.eqb (length documentation) 1)) eqn:Ld.
  { left. eapply logging_body; eauto. }
  apply length_one in Ld as [d0 ->].
  unfold bindM at 1 in H. cbn [getitem lookup list_lookup lift] in H.
  unfold bindM at 1 in H.
  destruct (load_node yaml_load d0 st) as [[doc_section st0]|] eqn:Ed;
    [|discriminate].
  pose proof (load_node_inv _ _ _ _ _ Ed) as ->.
  unfold bindM at 1 in H.
  destruct (lift (short_description_of_with description ret_section
                    doc_section) st)
    as [[[sd msgs] st0]|] eqn:Es; [|discriminate].
  apply lift_inv in Es as [Es ->].
  unfold bindM at 1 in H. cbn [fst snd] in H.
  destruct (logging_all msgs st) as [[u1 st1]|] eqn:El; [|discriminate].
  pose proof (logging_all_body _ _ _ _ El) as Hb1.
  unfold bindM at 1 in H.
  destruct (lift (yaml_getitem doc_section "short_description") st1)
    as [[orig st2]|] eqn:Eo; [|discriminate].
  apply lift_inv in Eo as [Eo ->].
  destruct (yaml_eqb sd orig) eqn:Eq; cbn [negb] in H.
  { left. unfold ret in H. injection H as _ <-. exact Hb1. }
  right. unfold bindM at 1 in H. unfold logging at 1 in H.
  unfold bindM at 1 in H.
  match type of H with
  | match lift ?r ?s with _ => _ end = _ =>
      destruct (lift r s) as [[doc' st3]|] eqn:Et; [|discriminate]
  end.
  apply lift_inv in Et as [Et ->].
  apply set_node_value_value_inv in H as (ts & c & Hnode & Hbody).
  cbn [body] in Hnode, Hbody. rewrite Hb1 in Hnode, Hbody.
  exists d0, ts, c. eauto.
Qed.
Lemma retrieve_module_name_body
    (yaml_load : string -> option yaml) (bodypart : list nat)
    (st st' : state) (r : option yaml) :
  retrieve_module_name yaml_load bodypart st = Ok (r, st') ->
  body st' = body st.
Proof.
  unfold retrieve_module_name. intros H.
  destruct (negb (Nat.eqb (length bodypart) 1)).
  - apply bindM_inv in H as (u & st1 & Hlog & H).
    apply logging_body in Hlog. unfold ret in H. injection H as _ <-.
    exact Hlog.
  - apply bindM_inv in H as (i & st1 & Hi & H).
    apply lift_inv in Hi as [_ ->].
    apply bindM_inv in H as (d & st1 & Hd & H).
    apply load_node_inv in Hd as ->.
    apply bindM_inv in H as (n & st1 & Hn & H).
    apply lift_inv in Hn as [_ ->]. unfold ret in H.
    injection H as _ <-. reflexivity.
Qed.

Lemma skip_file_inv (filename : string) (st st' : state) (o : outcome) :
  skip_file filename st = Ok (o, st') -> o = Skipped /\ body st' = body st.
Proof.
  unfold skip_file, bindM, logging, ret. intros H.
  injection H as <- <-. split; reflexivity.
Qed.

Lemma update_examples_obj_inv
    (yaml_load : string -> option yaml) (yaml_dump : yaml -> string)
    (bodypart : list nat) (st st' : state) (u : unit) :
  update_examples_obj yaml_load yaml_dump bodypart st = Ok (u, st') ->
  body st' = body st \/
  exists i ts c text,
    bodypart = [i] /\
    body st !! i = Some (Stmt ts (Some (Constant c))) /\
    body st' = <[i := Stmt ts (Some (Constant (CStr text)))]> (body st).
Proof.
  unfold update_examples_obj. intros H.
  destruct (negb (Nat.eqb (length bodypart) 1)) eqn:L.
  { left. eapply logging_body; eauto. }
  apply length_one in L as [i ->]. right.
  apply bindM_inv in H as (i' & st1 & Hi & H).
  apply lift_inv in Hi as [Hi ->]. injection Hi as <-.
  apply bindM_inv in H as (d & st1 & Hd & H).
  apply load_node_inv in Hd as ->.
  apply bindM_inv in H as (d' & st1 & Hd & H).
  apply lift_inv in Hd as [_ ->].
  apply bindM_inv in H as (text & st1 & Ht & H).
  apply lift_inv in Ht as [_ ->].
  apply set_node_value_value_inv in H as (ts & c & Hb & Hbody).
  exists i, ts, c. eauto.
Qed.

Lemma writes_documentation_with
    (yaml_load : string -> option yaml) (yaml_dump : yaml -> string)
    (description : result string) :
  writes_documentation
    (update_short_description_with yaml_load yaml_dump description).
Proof.
  intros retrn documentation st st' u Hfind H.
  destruct (update_short_description_with_inv _ _ _ _ _ _ _ _ H)
    as [Hsame | (i & ts & c & text & -> & Hnode & Hbody)].
  - apply only_writes_same. exact Hsame.
  - apply (only_writes_insert "DOCUMENTATION" st st' i
             (Stmt ts (Some (Constant c)))
             (Some (Constant (CStr text))) [i] Hfind);
      [now left | exact Hnode | exact Hbody].
Qed.

Lemma writes_examples_str
    (yaml_load : string -> option yaml) (yaml_dump : yaml -> string)
    (module_name collection : string) :
  writes_examples
    (fun bodypart =>
       update_examples yaml_load yaml_dump bodypart module_name collection).
Proof.
  intros bodypart st st' u Hfind H.
  destruct (update_examples_inv _ _ _ _ _ _ _ _ H)
    as [Hsame | (i & ts & c & text & -> & Hnode & Hbody)].
  - apply only_writes_same. exact Hsame.
  - apply (only_writes_insert "EXAMPLES" st st' i
             (Stmt ts (Some (Constant c)))
             (Some (Constant (CStr text))) [i] Hfind);
      [now left | exact Hnode | exact Hbody].
Qed.

Lemma writes_examples_obj
    (yaml_load : string -> option yaml) (yaml_dump : yaml -> string) :
  writes_examples (update_examples_obj yaml_load yaml_dump).
Proof.
  intros bodypart st st' u Hfind H.
  destruct (update_examples_obj_inv _ _ _ _ _ _ H)
    as [Hsame | (i & ts & c & text & -> & Hnode & Hbody)].
  - apply only_writes_same. exact Hsame.
  - apply (only_writes_insert "EXAMPLES" st st' i
             (Stmt ts (Some (Constant c)))
             (Some (Constant (CStr text))) [i] Hfind);
      [now left | exact Hnode | exact Hbody].
Qed.

Section Pipeline.

Variable yaml_load : string -> option yaml.
Variable yaml_dump : yaml -> string.
Variable description_pass : list nat -> list nat -> M unit.
Variable examples_pass : list nat -> M unit.
Hypothesis Hdescription : writes_documentation description_pass.
Hypothesis Hexamples : writes_examples examples_pass.

Lemma from_examples_with_inv (filename : string) (st st' : state)
    (o : outcome) :
  from_examples_with examples_pass filename st = Ok (o, st') ->
  o = Written /\ only_writes ["EXAMPLES"] st st'.
Proof.
  unfold from_examples_with. intros H.
  apply bindM_inv in H as (bp & st1 & Hl & H).
  apply locate_inv in Hl as [Hfind ->].
  apply bindM_inv in H as (u & st1 & Hp & H).
  apply bindM_inv in H as (u' & st2 & Hlog & H).
  apply logging_inv in Hlog as ->.
  apply write_out_inv in H as [-> Hb]. cbn [body] in Hb.
  split; [reflexivity|].
  apply (only_writes_trans _ st st1 st');
    [exact (Hexamples _ _ _ _ Hfind Hp) | apply only_writes_same; exact Hb].
Qed.

Lemma from_short_description_with_inv (filename : string) (st st' : state)
    (o : outcome) :
  from_short_description_with description_pass examples_pass filename st
    = Ok (o, st') ->
  o = Written /\ only_writes ["DOCUMENTATION"; "EXAMPLES"] st st'.
Proof.
  unfold from_short_description_with. intros H.
  apply bindM_inv in H as (retrn & st1 & Hl & H).
  apply locate_inv in Hl as [Hret ->].
  apply bindM_inv in H as (documentation & st1 & Hl & H).
  apply locate_inv in Hl as [Hdoc ->].
  apply bindM_inv in H as (u & st1 & Hp & H).
  apply from_examples_with_inv in H as [-> Hex].
  split; [reflexivity|].
  apply (only_writes_trans _ st st1 st').
  - apply (only_writes_incl ["DOCUMENTATION"]);
      [intros n [<-|[]]; now left|].
    exact (Hdescription _ _ _ _ _ Hdoc Hp).
  - apply (only_writes_incl ["EXAMPLES"]);
      [intros n [<-|[]]; right; now left | exact Hex].
Qed.

Lemma from_documentation_with_inv (filename : string) (st st' : state)
    (o : outcome) :
  from_documentation_with yaml_load yaml_dump description_pass examples_pass
    filename st = Ok (o, st') ->
  o = Written /\ only_writes ["DOCUMENTATION"; "EXAMPLES"] st st'.
Proof.
  unfold from_documentation_with. intros H.
  apply bindM_inv in H as (bp & st1 & Hl & H).
  apply locate_inv in Hl as [Hfind ->].
  apply bindM_inv in H as (u & st1 & Hp & H).
  apply bindM_inv in H as (u' & st2 & Hlog & H).
  apply logging_inv in Hlog as ->.
  apply from_short_description_with_inv in H as [-> Hrest].
  split; [reflexivity|].
  apply (only_writes_trans _ st (State (body st1) (log st1 ++
           [(INFO, "Updated documentation in " +:+ filename)])) st');
    [|exact Hrest].
  apply (only_writes_incl ["DOCUMENTATION"]);
    [intros n [<-|[]]; now left|].
  destruct (update_documentation_inv _ _ _ _ _ _ Hp)
    as [Hsame | (i & ts & c & text & -> & Hnode & Hbody)].
  - apply only_writes_same. exact Hsame.
  - apply (only_writes_insert "DOCUMENTATION" st _ i
             (Stmt ts (Some (Constant c)))
             (Some (Constant (CStr text))) [i] Hfind);
      [now left | exact Hnode | exact Hbody].
Qed.

Lemma from_metadata_with_inv (filename : string) (st st' : state)
    (o : outcome) :
  from_metadata_with yaml_load yaml_dump description_pass examples_pass
    filename st = Ok (o, st') ->
  o = Written /\
  only_writes ["ANSIBLE_METADATA"; "DOCUMENTATION"; "EXAMPLES"] st st' /\
  forall i,
    find_assigment_in_ast "ANSIBLE_METADATA" (body st) = Ok [i] ->
    value <$> body st' !! i = Some (Some meta).
Proof.
  unfold from_metadata_with. intros H.
  apply bindM_inv in H as (bp & st1 & Hl & H).
  apply locate_inv in Hl as [Hfind ->].
  apply bindM_inv in H as (u & st1 & Hp & H).
  apply bindM_inv in H as (u' & st2 & Hlog & H).
  apply logging_inv in Hlog as ->.
  apply from_documentation_with_inv in H as [-> Hrest].
  set (st2 := State (body st1) (log st1 ++
                [(INFO, "Updated metadata in " +:+ filename)])) in *.
  assert (Hmeta : only_writes ["ANSIBLE_METADATA"] st st2).
  { destruct (update_metdata_inv _ _ _ _ Hp)
      as [Hsame | (i & b & -> & Hnode & Hbody)].
    - apply only_writes_same. exact Hsame.
    - apply (only_writes_insert "ANSIBLE_METADATA" st st2 i b (Some meta)
               [i] Hfind); [now left | exact Hnode | exact Hbody]. }
  split; [reflexivity|]. split.
  - apply (only_writes_trans _ st st2 st').
    + apply (only_writes_incl ["ANSIBLE_METADATA"]);
        [intros n [<-|[]]; now left | exact Hmeta].
    + apply (only_writes_incl ["DOCUMENTATION"; "EXAMPLES"]);
        [intros n [<-|[<-|[]]]; simpl; tauto | exact Hrest].
  - intros i Hi. rewrite Hi in Hfind. injection Hfind as <-.
    unfold update_metdata in Hp. cbn [length Nat.eqb negb] in Hp.
    apply bindM_inv in Hp as (i' & st3 & Hi' & Hp).
    apply lift_inv in Hi' as [Hi' ->]. injection Hi' as <-.
    apply set_node_value_inv in Hp as (b & Hb & ->).
    destruct Hrest as [_ Hframe]. rewrite Hframe; subst st2; cbn [body].
    + rewrite list_lookup_insert_eq; [reflexivity|].
      eapply lookup_lt_Some; eauto.
    + intros n r Hn Hr Hin.
      rewrite (find_insert_value _ _ _ _ _ Hb) in Hr.
      apply (find_assigment_in_ast_disjoint "ANSIBLE_METADATA" n
               (body st) [i] r i); [|exact Hi|exact Hr|now left|exact Hin].
      destruct Hn as [<-|[<-|[]]]; discriminate.
Qed.

End Pipeline.

(** A run of [process_file] either skips the file and leaves the tree, or
    goes through the passes and writes the file. *)
Lemma process_file_inv
    (yaml_load : string -> option yaml) (yaml_dump : yaml -> string)
    (collection filename : string) (st st' : state) (o : outcome) :
  process_file yaml_load yaml_dump collection filename st = Ok (o, st') ->
  (o = Skipped /\ body st' = body st) \/
  (o = Written /\
   only_writes ["ANSIBLE_METADATA"; "DOCUMENTATION"; "EXAMPLES"] st st' /\
   forall i,
     find_assigment_in_ast "ANSIBLE_METADATA" (body st) = Ok [i] ->
     value <$> body st' !! i = Some (Some meta)).
Proof.
  unfold process_file. intros H.
  apply bindM_inv in H as (u & st0 & Hlog & H).
  apply logging_body in Hlog.
  apply bindM_inv in H as (bp & st1 & Hl & H).
  apply locate_inv in Hl as [_ ->].
  apply bindM_inv in H as (r & st1 & Hr & H).
  apply retrieve_module_name_body in Hr.
  assert (Hb : body st1 = body st) by congruence.
  assert (Hpass : forall dp ep,
            writes_documentation dp -> writes_examples ep ->
            from_metadata_with yaml_load yaml_dump dp ep filename st1
              = Ok (o, st') ->
            o = Written /\
            only_writes ["ANSIBLE_METADATA"; "DOCUMENTATION"; "EXAMPLES"]
              st st' /\
            forall i,
              find_assigment_in_ast "ANSIBLE_METADATA" (body st) = Ok [i] ->
              value <$> body st' !! i = Some (Some meta)).
  { intros dp ep Hdp Hep Hrun.
    apply (from_metadata_with_inv _ _ dp ep Hdp Hep) in Hrun
      as (-> & Hw & Hm).
    split; [reflexivity|]. split.
    - apply (only_writes_trans _ st st1 st');
        [apply only_writes_same; exact Hb | exact Hw].
    - intros i Hi. apply Hm. rewrite Hb. exact Hi. }
  assert (Hobj : from_metadata_with yaml_load yaml_dump
                   (update_short_description_obj yaml_load yaml_dump)
                   (update_examples_obj yaml_load yaml_dump) filename st1
                 = Ok (o, st') ->
                 o = Written /\
                 only_writes ["ANSIBLE_METADATA"; "DOCUMENTATION"; "EXAMPLES"]
                   st st' /\
                 forall i,
                   find_assigment_in_ast "ANSIBLE_METADATA" (body st)
                   = Ok [i] ->
                   value <$> body st' !! i = Some (Some meta)).
  { apply Hpass; [apply writes_documentation_with | apply writes_examples_obj]. }
  destruct r as [v|].
  - destruct (negb (truthy v)).
    + left. apply skip_file_inv in H as [-> H]. split; congruence.
    + right. destruct v; try exact (Hobj H).
      rewrite from_metadata_as_with in H. revert H. apply Hpass.
      * intros retrn documentation st2 st3 u2 Hfind Hrun.
        rewrite update_short_description_as_with in Hrun.
        exact (writes_documentation_with _ _ _ _ _ _ _ _ Hfind Hrun).
      * apply writes_examples_str.
  - left. apply skip_file_inv in H as [-> H]. split; congruence.
Qed.

(** X1. Whatever [process] does to a file, the statements keep their
    targets and their number, so the locator finds the same nodes, under
    every name, in the tree that is written as in the tree that was
    loaded. *)
Theorem process_file_keeps_targets
    (yaml_load : string -> option yaml) (yaml_dump : yaml -> string)
    (collection filename : string) (st st' : state) (o : outcome) :
  process_file yaml_load yaml_dump collection filename st = Ok (o, st') ->
  map targets (body st') = map targets (body st) /\
  length (body st') = length (body st) /\
  forall name,
    find_assigment_in_ast name (body st')
    = find_assigment_in_ast name (body st).
Proof.
  intros H.
  assert (T : map targets (body st') = map targets (body st)).
  { destruct (process_file_inv _ _ _ _ _ _ _ H)
      as [[_ Hb] | (_ & [T _] & _)].
    - rewrite Hb. reflexivity.
    - exact T. }
  split; [exact T|]. split.
  - rewrite <- (length_map targets (body st')), T. apply length_map.
  - intros name. apply find_from_targets. exact T.
Qed.

(** X2. [process] changes no statement other than the located
    ANSIBLE_METADATA, DOCUMENTATION and EXAMPLES assignments: a RETURN
    assignment in particular is written back as it was loaded. *)
Theorem process_file_frame
    (yaml_load : string -> option yaml) (yaml_dump : yaml -> string)
    (collection filename : string) (st st' : state) (o : outcome) :
  process_file yaml_load yaml_dump collection filename st = Ok (o, st') ->
  (forall j,
     (forall n r,
        In n ["ANSIBLE_METADATA"; "DOCUMENTATION"; "EXAMPLES"] ->
        find_assigment_in_ast n (body st) = Ok r -> ~ In j r) ->
     body st' !! j = body st !! j) /\
  (forall r j,
     find_assigment_in_ast "RETURN" (body st) = Ok r -> In j r ->
     body st' !! j = body st !! j).
Proof.
  intros H.
  assert (F : forall j,
     (forall n r,
        In n ["ANSIBLE_METADATA"; "DOCUMENTATION"; "EXAMPLES"] ->
        find_assigment_in_ast n (body st) = Ok r -> ~ In j r) ->
     body st' !! j = body st !! j).
  { destruct (process_file_inv _ _ _ _ _ _ _ H)
      as [[_ Hb] | (_ & [_ F] & _)].
    - intros j _. rewrite Hb. reflexivity.
    - exact F. }
  split; [exact F|].
  intros r j Hr Hj. apply F. intros n r' Hn Hr' Hj'.
  apply (find_assigment_in_ast_disjoint "RETURN" n (body st) r r' j);
    [|exact Hr|exact Hr'|exact Hj|exact Hj'].
  destruct Hn as [<-|[<-|[<-|[]]]]; discriminate.
Qed.

(** X3. A file that [process] skips is not touched: its tree is the one
    that was loaded. *)
Theorem process_file_skipped_untouched
    (yaml_load : string -> option yaml) (yaml_dump : yaml -> string)
    (collection filename : string) (st st' : state) :
  process_file yaml_load yaml_dump collection filename st
    = Ok (Skipped, st') ->
  body st' = body st.
Proof.
  intros H.
  destruct (process_file_inv _ _ _ _ _ _ _ H)
    as [[_ Hb] | (Ho & _)]; [exact Hb | discriminate].
Qed.

(** X4. In a file that [process] writes, the ANSIBLE_METADATA assignment,
    when there is exactly one, holds the fixed mapping at the end: no later
    pass writes over it. *)
Theorem process_file_written_metadata
    (yaml_load : string -> option yaml) (yaml_dump : yaml -> string)
    (collection filename : string) (st st' : state) (i : nat) :
  process_file yaml_load yaml_dump collection filename st
    = Ok (Written, st') ->
  find_assigment_in_ast "ANSIBLE_METADATA" (body st) = Ok [i] ->
  value <$> body st' !! i = Some (Some meta).
Proof.
  intros H Hi.
  destruct (process_file_inv _ _ _ _ _ _ _ H)
    as [[Ho _] | (_ & _ & Hmeta)]; [discriminate|].
  apply Hmeta. exact Hi.
Qed.

(** X5. A top-level statement whose first target is not a plain name (a
    tuple, attribute or subscript assignment) makes [process] raise on the
    file, with the exception of the locator. *)
Theorem process_file_raises_on_target
    (yaml_load : string -> option yaml) (yaml_dump : yaml -> string)
    (collection filename : string) (st : state) :
  forallb plain_target (body st) = false ->
  exists e,
    find_assigment_in_ast "DOCUMENTATION" (body st) = Raise e /\
    process_file yaml_load yaml_dump collection filename st = Raise e.
Proof.
  intros H.
  pose proof (find_from_ok "DOCUMENTATION" (body st) 0) as Hok.
  rewrite H in Hok.
  destruct (find_assigment_in_ast "DOCUMENTATION" (body st)) as [r|e] eqn:E.
  - unfold find_assigment_in_ast in E. rewrite E in Hok. discriminate.
  - exists e. split; [reflexivity|].
    unfold process_file, bindM, logging, locate, lift. cbn [body].
    rewrite E. reflexivity.
Qed.

(** X6. When the module name read from the single DOCUMENTATION
    assignment is empty, null, zero or false, the file is skipped with one
    warning and its tree is left as loaded. *)
Theorem process_file_empty_module_name
    (yaml_load : string -> option yaml) (yaml_dump : yaml -> string)
    (collection filename : string) (st : state) (i : nat)
    (ts : option (list expr)) (text : string) (documentation v : yaml) :
  find_assigment_in_ast "DOCUMENTATION" (body st) = Ok [i] ->
  body st !! i = Some (Stmt ts (Some (Constant (CStr text)))) ->
  yaml_load text = Some documentation ->
  yaml_getitem documentation "module" = Ok v ->
  truthy v = false ->
  process_file yaml_load yaml_dump collection filename st
  = Ok (Skipped,
        State (body st)
          (log st ++ [(INFO, "-------------------Processing " +:+ filename);
                      (WARNING, "Skipped " +:+ filename
                                +:+ ": No module name found")])).
Proof.
  intros Hfind Hnode Hload Hmod Hfalse.
  unfold process_file, bindM at 1. unfold logging at 1.
  unfold bindM at 1, locate at 1. cbn [body log]. rewrite Hfind. cbn [lift].
  unfold bindM at 1, retrieve_module_name. cbn [length Nat.eqb negb].
  unfold bindM at 1. cbn [getitem lookup list_lookup lift].
  unfold bindM at 1, load_node, bindM at 1.
  rewrite (node_value_value_run
             (State (body st) (log st ++
                [(INFO, "-------------------Processing " +:+ filename)]))
             i ts (CStr text) Hnode).
  unfold load, lift at 1. rewrite Hload.
  unfold bindM at 1, lift at 1. rewrite Hmod. unfold ret.
  rewrite Hfalse. cbn [negb].
  unfold skip_file, bindM, logging, ret. cbn [body log].
  rewrite <- app_assoc. reflexivity.
Qed.

Lemma process_file_keeps_targets_witness :
  map targets (body sample_state_final) = map targets sample_body /\
  length (body sample_state_final) = length sample_body /\
  forall name,
    find_assigment_in_ast name (body sample_state_final)
    = find_assigment_in_ast name sample_body.
Proof.
  apply (process_file_keeps_targets sample_load sample_dump "cisco.ios"
           "plugins/modules/ios_interfaces.py" (State sample_body [])
           sample_state_final Written).
  vm_compute. reflexivity.
Defined.

Lemma process_file_frame_witness :
  body sample_state_final !! 4 = sample_body !! 4.
Proof.
  refine (proj2 (process_file_frame sample_load sample_dump "cisco.ios"
                   "plugins/modules/ios_interfaces.py" (State sample_body [])
                   sample_state_final Written _) [4] 4 eq_refl _).
  - vm_compute. reflexivity.
  - now left.
Defined.

Lemma process_file_skipped_untouched_witness :
  body sample_state_skipped = sample_body_undocumented.
Proof.
  apply (process_file_skipped_untouched sample_load sample_dump "cisco.ios"
           "plugins/modules/ios_interfaces.py"
           (State sample_body_undocumented []) sample_state_skipped).
  vm_compute. reflexivity.
Defined.

Lemma process_file_written_metadata_witness :
  value <$> body sample_state_final !! 1 = Some (Some meta).
Proof.
  apply (process_file_written_metadata sample_load sample_dump "cisco.ios"
           "plugins/modules/ios_interfaces.py" (State sample_body [])
           sample_state_final 1).
  - vm_compute. reflexivity.
  - reflexivity.
Defined.

Lemma process_file_raises_on_target_witness :
  exists e,
    find_assigment_in_ast "DOCUMENTATION"
      (sample_body ++ [Assign [Tuple [Name "a"; Name "b"]] (Name "c")])
    = Raise e /\
    process_file sample_load sample_dump "cisco.ios" "f.py"
      (State (sample_body ++ [Assign [Tuple [Name "a"; Name "b"]] (Name "c")])
         []) = Raise e.
Proof.
  apply (process_file_raises_on_target sample_load sample_dump "cisco.ios"
           "f.py"
           (State (sample_body
                   ++ [Assign [Tuple [Name "a"; Name "b"]] (Name "c")]) [])).
  reflexivity.
Defined.

Lemma process_file_empty_module_name_witness :
  process_file sample_load_unnamed sample_dump "cisco.ios" "f.py"
    (State sample_body_unnamed [])
  = Ok (Skipped,
        State sample_body_unnamed
          [(INFO, "-------------------Processing f.py");
           (WARNING, "Skipped f.py: No module name found")]).
Proof.
  apply (process_file_empty_module_name sample_load_unnamed sample_dump
           "cisco.ios" "f.py" (State sample_body_unnamed []) 1
           (Some [Name "DOCUMENTATION"]) "module: ''"
           (YMap [("module", YStr "")]) (YStr ""));
    reflexivity.
Defined.

(** ** The document edit of the documentation pass *)

Lemma desc_idx_none (ks : list string) :
  ~ In "description" ks -> forall i, desc_idx_from i ks = [].
Proof.
  induction ks as [|k ks IH]; intros H i; [reflexivity|].
  cbn [desc_idx_from]. destruct (String.eqb k "description") eqn:E.
  - apply String.eqb_eq in E. subst. simpl in H. tauto.
  - apply IH. simpl in H. tauto.
Qed.

Lemma keys_pop_incl (k k' : string) (d : list (string * yaml)) :
  In k' (OD.keys (OD.pop k d)) -> In k' (OD.keys d).
Proof.
  unfold OD.keys, OD.pop. intros H.
  apply in_map_iff in H as (e & He & Hin). apply filter_In in Hin as [Hin _].
  apply in_map_iff. eauto.
Qed.

Lemma documentation_edit_undescribed (items : list (string * yaml)) :
  OD.mem "description" items = false ->
  documentation_edit (YMap items) = Raise IndexError.
Proof.
  intros H. unfold documentation_edit.
  rewrite desc_idx_none; [reflexivity|].
  intros Hin. apply keys_pop_incl in Hin.
  apply existsb_eqb_In in Hin. unfold OD.mem in H. congruence.
Qed.

Lemma pop_absent (k : string) (d : list (string * yaml)) :
  ~ In k (OD.keys d) -> OD.pop k d = d.
Proof.
  induction d as [|[j v] d IH]; intros H; [reflexivity|].
  simpl in H. unfold OD.pop in *. cbn [List.filter fst].
  destruct (String.eqb j k) eqn:E.
  - apply String.eqb_eq in E. tauto.
  - cbn [negb]. f_equal. apply IH. tauto.
Qed.

Lemma pop_app (k : string) (d1 d2 : list (string * yaml)) :
  OD.pop k (d1 ++ d2) = OD.pop k d1 ++ OD.pop k d2.
Proof. unfold OD.pop. apply List.filter_app. Qed.

Lemma pop_idem (k : string) (d : list (string * yaml)) :
  OD.pop k (OD.pop k d) = OD.pop k d.
Proof. apply pop_absent, keys_pop_not. Qed.

(** The edited mapping, seen through [pop]. *)
Lemma pop_edited (pre post : list (string * yaml)) (v w : yaml) :
  ~ In "version_added" (OD.keys pre ++ OD.keys post) ->
  OD.pop "version_added"
    (pre ++ ("description", v) :: ("version_added", w) :: post)
  = pre ++ ("description", v) :: post.
Proof.
  intros H. rewrite in_app_iff in H.
  rewrite pop_app. rewrite (pop_absent _ pre) by tauto. f_equal.
  change (("description", v) :: ("version_added", w) :: post)
    with ([("description", v); ("version_added", w)] ++ post).
  rewrite pop_app. rewrite (pop_absent _ post) by tauto. reflexivity.
Qed.

Lemma documentation_edit_mapping (documentation documentation' : yaml) :
  documentation_edit documentation = Ok documentation' ->
  exists items pre v post,
    documentation = YMap items /\
    OD.pop "version_added" items = pre ++ ("description", v) :: post /\
    ~ In "description" (OD.keys pre) /\
    ~ In "version_added" (OD.keys pre ++ OD.keys post) /\
    documentation'
    = YMap (pre ++ ("description", v)
                :: ("version_added", YStr "1.0.0") :: post).
Proof.
  intros H. destruct documentation as [| | | | |items]; try discriminate.
  destruct (OD.mem "description" items) eqn:E.
  - destruct (documentation_edit_run items E)
      as (pre & v & post & Hsplit & Hpre & Hno & Hedit).
    rewrite Hedit in H. injection H as <-.
    exists items, pre, v, post. repeat split; assumption.
  - rewrite (documentation_edit_undescribed items E) in H. discriminate.
Qed.

(** X7. A documentation that is a mapping without a description key makes
    the documentation pass raise [IndexError]: the position of the
    description is taken from an empty list. *)
Theorem update_documentation_undescribed
    (yaml_load : string -> option yaml) (yaml_dump : yaml -> string)
    (st : state) (i : nat) (ts : option (list expr)) (text : string)
    (items : list (string * yaml)) :
  body st !! i = Some (Stmt ts (Some (Constant (CStr text)))) ->
  yaml_load text = Some (YMap items) ->
  OD.mem "description" items = false ->
  update_documentation yaml_load yaml_dump [i] st = Raise IndexError.
Proof.
  intros Hnode Hload Hdesc.
  unfold update_documentation. cbn [length Nat.eqb negb].
  unfold bindM, lift at 1. cbn [getitem lookup list_lookup].
  unfold load_node, bindM. rewrite (node_value_value_run _ _ _ _ Hnode).
  unfold load, lift. rewrite Hload.
  rewrite (documentation_edit_undescribed items Hdesc). reflexivity.
Qed.

Lemma update_documentation_undescribed_witness :
  update_documentation sample_load_undescribed sample_dump [0]
    (State sample_body_undescribed []) = Raise IndexError.
Proof.
  apply (update_documentation_undescribed sample_load_undescribed sample_dump
           (State sample_body_undescribed []) 0
           (Some [Name "DOCUMENTATION"]) "module: foo"
           [("module", YStr "foo")]); reflexivity.
Defined.

(** X8. The document edit is idempotent: applied to a document that it
    produced, it gives that document again. *)
Theorem documentation_edit_idempotent (documentation documentation' : yaml) :
  documentation_edit documentation = Ok documentation' ->
  documentation_edit documentation' = Ok documentation'.
Proof.
  intros H.
  destruct (documentation_edit_mapping _ _ H)
    as (items & pre & v & post & -> & Hsplit & Hpre & Hno & ->).
  unfold documentation_edit. rewrite (pop_edited _ _ _ _ Hno).
  unfold OD.keys. rewrite map_app. cbn [map fst].
  destruct (desc_idx_first (map fst pre) (map fst post) Hpre 0)
    as [rest Hrest].
  rewrite Hrest. cbn [getitem lookup list_lookup bind].
  rewrite length_map, Nat.add_0_l, insert_after. reflexivity.
Qed.

Lemma documentation_edit_idempotent_witness :
  documentation_edit (YMap sample_documentation_edited)
  = Ok (YMap sample_documentation_edited).
Proof.
  apply (documentation_edit_idempotent (YMap sample_documentation)).
  reflexivity.
Defined.

Lemma keys_pop_nodup (k : string) (d : list (string * yaml)) :
  NoDup (OD.keys d) -> NoDup (OD.keys (OD.pop k d)).
Proof.
  induction d as [|[j v] d IH]; intros H; [constructor|].
  cbn [OD.keys map fst] in H. apply NoDup_cons in H as [Hj Hd].
  unfold OD.pop. cbn [List.filter fst].
  destruct (negb (String.eqb j k)).
  - cbn [OD.keys map fst]. apply NoDup_cons. split; [|exact (IH Hd)].
    intros Hin. apply Hj. apply list_elem_of_In in Hin.
    apply list_elem_of_In. exact (keys_pop_incl k j d Hin).
  - exact (IH Hd).
Qed.

Lemma get_app_absent (k : string) (d1 d2 : list (string * yaml)) :
  ~ In k (OD.keys d1) -> OD.get k (d1 ++ d2) = OD.get k d2.
Proof.
  induction d1 as [|[j v] d1 IH]; intros H; [reflexivity|].
  simpl in H. cbn [app OD.get]. destruct (String.eqb j k) eqn:E.
  - apply String.eqb_eq in E. tauto.
  - apply IH. tauto.
Qed.

(** X9. The document edit keeps every entry other than version_added, in
    the order it had; the edited document has version_added: 1.0.0; and
    its keys are distinct when those of the loaded document are. *)
Theorem documentation_edit_entries (items items' : list (string * yaml)) :
  documentation_edit (YMap items) = Ok (YMap items') ->
  OD.pop "version_added" items' = OD.pop "version_added" items /\
  OD.get "version_added" items' = Some (YStr "1.0.0") /\
  length items' = S (length (OD.pop "version_added" items)) /\
  (NoDup (OD.keys items) -> NoDup (OD.keys items')).
Proof.
  intros H.
  destruct (documentation_edit_mapping _ _ H)
    as (items0 & pre & v & post & E & Hsplit & Hpre & Hno & E').
  injection E as <-. injection E' as ->.
  split; [|split; [|split]].
  - rewrite Hsplit. apply pop_edited. exact Hno.
  - rewrite in_app_iff in Hno.
    rewrite get_app_absent by tauto. reflexivity.
  - rewrite Hsplit, !length_app. simpl. lia.
  - intros Hnd. apply (keys_pop_nodup "version_added") in Hnd.
    rewrite Hsplit in Hnd. unfold OD.keys in *.
    rewrite map_app in *. cbn [map fst] in *.
    apply NoDup_app in Hnd as (Hn1 & Hdisj & Hn2).
    apply NoDup_cons in Hn2 as [Hd Hn2].
    apply NoDup_app. split; [exact Hn1|]. split.
    + intros x Hx Hx'. apply elem_of_cons in Hx' as [->|Hx'].
      * apply (Hdisj _ Hx). left.
      * apply elem_of_cons in Hx' as [->|Hx'].
        -- apply Hno. rewrite in_app_iff. left.
           apply list_elem_of_In. exact Hx.
        -- apply (Hdisj _ Hx). right. exact Hx'.
    + apply NoDup_cons. split.
      * intros Hx. apply elem_of_cons in Hx as [Hx|Hx]; [discriminate|].
        exact (Hd Hx).
      * apply NoDup_cons. split; [|exact Hn2].
        intros Hx. apply Hno. rewrite in_app_iff. right.
        apply list_elem_of_In. exact Hx.
Qed.

Lemma documentation_edit_entries_witness :
  OD.pop "version_added" sample_documentation_edited
    = OD.pop "version_added" sample_documentation /\
  OD.get "version_added" sample_documentation_edited = Some (YStr "1.0.0") /\
  length sample_documentation_edited
    = S (length (OD.pop "version_added" sample_documentation)) /\
  (NoDup (OD.keys sample_documentation) ->
   NoDup (OD.keys sample_documentation_edited)).
Proof.
  apply (documentation_edit_entries sample_documentation
           sample_documentation_edited).
  reflexivity.
Defined.

(** ** The renaming of the examples pass *)

Lemma setitem_entries (k : string) (v : yaml) (d : list (string * yaml))
    (e : string * yaml) :
  In e (OD.setitem k v d) -> In e d \/ e = (k, v).
Proof.
  induction d as [|[j w] d IH]; cbn [OD.setitem]; intros H.
  - destruct H as [<-|[]]. now right.
  - destruct (String.eqb j k) eqn:E.
    + apply String.eqb_eq in E. subst j.
      destruct H as [<-|H]; [now right | left; now right].
    + destruct H as [<-|H]; [left; now left|].
      destruct (IH H) as [H'|H']; [left; now right | now right].
Qed.

Lemma setitem_length (k : string) (v : yaml) (d : list (string * yaml)) :
  length (OD.setitem k v d) <= S (length d).
Proof.
  induction d as [|[j w] d IH]; cbn [OD.setitem]; [simpl; lia|].
  destruct (String.eqb j k); simpl in *; lia.
Qed.

Lemma fold_setitem_entries (l : list (string * yaml)) :
  forall acc,
  (forall e,
     In e (fold_left (fun d e => OD.setitem (fst e) (snd e) d) l acc) ->
     In e acc \/ In e l) /\
  length (fold_left (fun d e => OD.setitem (fst e) (snd e) d) l acc)
  <= length acc + length l.
Proof.
  induction l as [|[k v] l IH]; intros acc; cbn [fold_left fst snd].
  - split; [tauto | simpl; lia].
  - destruct (IH (OD.setitem k v acc)) as [H1 H2]. split.
    + intros e He. destruct (H1 e He) as [H|H]; [|right; now right].
      destruct (setitem_entries _ _ _ _ H) as [H'| ->];
        [now left | right; now left].
    + pose proof (setitem_length k v acc). simpl. lia.
Qed.

Lemma fqcn_pairs_entries (mn full : string) (items : list (string * yaml))
    (k : string) (v : yaml) :
  In (k, v) (fqcn_pairs mn full items) ->
  exists k0, In (k0, v) items /\ k = fqcn_key mn full k0.
Proof.
  unfold fqcn_pairs. intros H. apply in_map_iff in H as ([k0 v0] & E & Hin).
  cbn [fst snd] in E. exists k0. unfold fqcn_key.
  destruct (String.eqb k0 mn); injection E as <- <-; split;
    (exact Hin || reflexivity).
Qed.

(** X10. Whatever the task, the mapping that replaces it has distinct
    keys, none of which is the bare module name; each of its entries is an
    entry of the task under its renamed key, so the values are those of
    the task (a nested key is never renamed); and it has no more entries
    than the task. *)
Theorem fqcn_task_wellformed (module_name collection : string)
    (items : list (string * yaml)) :
  exists items',
    fqcn_task module_name (full_name collection module_name) (YMap items)
      = Ok (YMap items') /\
    NoDup (OD.keys items') /\
    ~ In module_name (OD.keys items') /\
    (forall k v,
       In (k, v) items' ->
       exists k0,
         In (k0, v) items /\
         k = fqcn_key module_name (full_name collection module_name) k0) /\
    length items' <= length items.
Proof.
  set (full := full_name collection module_name).
  exists (OD.of_pairs (fqcn_pairs module_name full items)).
  split; [reflexivity|]. split; [apply of_pairs_keys_nodup|]. split.
  - intros Hin. apply of_pairs_keys_incl in Hin.
    rewrite keys_fqcn_pairs in Hin.
    exact (fqcn_key_not_bare module_name full _
             (full_name_ne collection module_name) Hin).
  - destruct (fold_setitem_entries (fqcn_pairs module_name full items) [])
      as [He Hl]. split.
    + intros k v Hin. apply He in Hin as [[]|Hin].
      apply fqcn_pairs_entries. exact Hin.
    + unfold OD.of_pairs. unfold fqcn_pairs in Hl at 2.
      rewrite length_map in Hl. simpl in Hl. exact Hl.
Qed.

Lemma fqcn_tasks_ok (mn full : string) (tasks : list yaml) :
  match fqcn_tasks mn full tasks with
  | Ok tasks' =>
      forallb is_mapping tasks = true /\ length tasks' = length tasks
  | Raise e => forallb is_mapping tasks = false /\ e = AttributeError
  end.
Proof.
  induction tasks as [|task tasks IH]; cbn [fqcn_tasks forallb].
  - split; reflexivity.
  - destruct task as [| | | | |items]; cbn [fqcn_task bind is_mapping andb];
      try (split; reflexivity).
    destruct (fqcn_tasks mn full tasks) as [r|e]; cbn [bind].
    + destruct IH as [H1 H2]. split; [exact H1 | simpl; congruence].
    + exact IH.
Qed.

(** X11. On a sequence the renaming succeeds exactly when every task is a
    mapping, and gives a sequence of the same length; a task that is a
    string, a list or a scalar makes it raise [AttributeError]. A
    non-empty mapping in place of the sequence raises [AttributeError]
    too, and a null document [TypeError]. *)
Theorem fqcn_example_ok (module_name full_module_name : string)
    (tasks : list yaml) :
  match fqcn_example module_name full_module_name (YSeq tasks) with
  | Ok example =>
      forallb is_mapping tasks = true /\
      exists tasks', example = YSeq tasks' /\ length tasks' = length tasks
  | Raise e => forallb is_mapping tasks = false /\ e = AttributeError
  end /\
  (forall e items,
     fqcn_example module_name full_module_name (YMap (e :: items))
     = Raise AttributeError) /\
  fqcn_example module_name full_module_name YNull = Raise TypeError.
Proof.
  split; [|split; reflexivity].
  cbn [fqcn_example].
  pose proof (fqcn_tasks_ok module_name full_module_name tasks) as H.
  destruct (fqcn_tasks module_name full_module_name tasks) as [r|e];
    cbn [bind].
  - destruct H as [H1 H2]. split; [exact H1|]. eauto.
  - exact H.
Qed.

(** ** The short description: errors and no-ops *)

Lemma split_aux_single (sep : ascii) (s : string) :
  Py.contains (String sep EmptyString) s = false ->
  forall cur, exists x, Py.split_aux sep cur s = [x].
Proof.
  induction s as [|c s IH]; intros H cur; cbn [Py.split_aux]; [eauto|].
  cbn [Py.contains Py.startswith] in H.
  apply orb_false_iff in H as [H1 H2].
  rewrite Ascii.eqb_sym. destruct (Ascii.eqb sep c); [discriminate|].
  apply IH. exact H2.
Qed.

(** X12. A resource module whose name has no underscore makes the
    derivation raise [IndexError]: the name has no second component. *)
Theorem short_description_no_underscore
    (ret_items doc_items : list (string * yaml)) (sd : yaml)
    (module_name : string) :
  resource_module ret_items = true ->
  OD.get "short_description" doc_items = Some sd ->
  Py.contains "_" module_name = false ->
  short_description_of (YMap ret_items) (YMap doc_items) module_name
  = Raise IndexError.
Proof.
  intros Hres Hsd Hname.
  unfold short_description_of, detected_description.
  cbn [yaml_getitem yaml_keys]. rewrite Hsd. cbn [bind].
  rewrite rm_rets_matched. unfold resource_module, OD.mem in Hres.
  rewrite Hres. unfold resource_description, resource_token, Py.split.
  destruct (split_aux_single "_" module_name Hname EmptyString) as [x ->].
  reflexivity.
Qed.

Lemma short_description_no_underscore_witness :
  short_description_of (YMap sample_return) (YMap sample_documentation)
    "ping" = Raise IndexError.
Proof.
  apply (short_description_no_underscore sample_return sample_documentation
           (YStr "Manages interface attributes") "ping"); reflexivity.
Defined.

Lemma load_node_run
    (yaml_load : string -> option yaml) (st : state) (i : nat)
    (ts : option (list expr)) (text : string) (d : yaml) :
  body st !! i = Some (Stmt ts (Some (Constant (CStr text)))) ->
  yaml_load text = Some d ->
  load_node yaml_load i st = Ok (d, st).
Proof.
  intros Hnode Hload. unfold load_node, bindM.
  rewrite (node_value_value_run _ _ _ _ Hnode).
  unfold load, lift. rewrite Hload. reflexivity.
Qed.

(** X13. When the RETURN block does not decode to a mapping (a block that
    holds only a comment decodes to null), the short-description pass
    raises [AttributeError] as soon as the documentation has a short
    description: the keys of the RETURN document are asked for. *)
Theorem update_short_description_return_not_mapping
    (yaml_load : string -> option yaml) (yaml_dump : yaml -> string)
    (st : state) (r0 d0 : nat) (tr td : option (list expr))
    (rtext dtext module_name : string) (ret_section doc_section sd : yaml) :
  body st !! r0 = Some (Stmt tr (Some (Constant (CStr rtext)))) ->
  body st !! d0 = Some (Stmt td (Some (Constant (CStr dtext)))) ->
  yaml_load rtext = Some ret_section ->
  yaml_load dtext = Some doc_section ->
  is_mapping ret_section = false ->
  yaml_getitem doc_section "short_description" = Ok sd ->
  update_short_description yaml_load yaml_dump [r0] [d0] module_name st
  = Raise AttributeError.
Proof.
  intros Hr Hd Lr Ld Hmap Hsd.
  unfold update_short_description. cbn [length Nat.eqb negb].
  unfold bindM at 1. cbn [getitem lookup list_lookup lift].
  unfold bindM at 1. rewrite (load_node_run _ _ _ _ _ _ Hr Lr).
  unfold bindM at 1. cbn [getitem lookup list_lookup lift].
  unfold bindM at 1. rewrite (load_node_run _ _ _ _ _ _ Hd Ld).
  unfold bindM at 1.
  assert (E : short_description_of ret_section doc_section module_name
              = Raise AttributeError).
  { unfold short_description_of, detected_description. rewrite Hsd.
    cbn [bind]. destruct ret_section; try reflexivity. discriminate. }
  rewrite E. reflexivity.
Qed.

Lemma update_short_description_return_not_mapping_witness :
  update_short_description sample_load_empty_return sample_dump [1] [0]
    "foo" (State sample_body_empty_return []) = Raise AttributeError.
Proof.
  apply (update_short_description_return_not_mapping
           sample_load_empty_return sample_dump
           (State sample_body_empty_return []) 1 0
           (Some [Name "RETURN"]) (Some [Name "DOCUMENTATION"])
           " # " "short_description: Foo" "foo" YNull
           (YMap [("short_description", YStr "Foo")]) (YStr "Foo"));
    reflexivity.
Defined.

(** X14. A final short description that is not the loaded one is a string:
    the pass never writes a description of another type. *)
Theorem short_description_changed_is_str (ret_section doc_section : yaml)
    (module_name : string) (sd orig : yaml) (msgs : list (level * string)) :
  short_description_of ret_section doc_section module_name = Ok (sd, msgs) ->
  yaml_getitem doc_section "short_description" = Ok orig ->
  sd = orig \/ exists s, sd = YStr s.
Proof.
  unfold short_description_of, detected_description. intros H Horig.
  rewrite Horig in H. cbn [bind] in H.
  destruct (yaml_keys ret_section) as [ks|]; [|discriminate].
  cbn [bind] in H.
  destruct doc_section as [| | | | |doc_items]; try discriminate.
  assert (Hdep : forall cur m,
            (let* p := deprecated_step doc_items cur in
             Ok (fst p, if snd p then m ++ [(INFO, "Found to be deprecated")]
                        else m)) = Ok (sd, msgs) ->
            sd = cur \/ exists s, sd = YStr s).
  { intros cur m Hp. unfold deprecated_step in Hp.
    destruct (OD.mem "deprecated" doc_items).
    - destruct cur; try discriminate.
      destruct (Py.startswith "(deprecated)" s); cbn [bind fst snd] in Hp;
        injection Hp as <- _; eauto.
    - cbn [bind fst snd] in Hp. injection Hp as <- _. now left. }
  destruct (Nat.eqb _ _).
  - destruct (resource_description module_name) as [d|]; [|discriminate].
    cbn [bind fst snd] in H. apply Hdep in H as [->|H]; eauto.
  - cbn [bind fst snd] in H. apply Hdep in H. exact H.
Qed.

Lemma short_description_changed_is_str_witness :
  YStr "Interfaces resource module" = YStr "Manages interface attributes"
  \/ exists s, YStr "Interfaces resource module" = YStr s.
Proof.
  apply (short_description_changed_is_str (YMap sample_return)
           (YMap sample_documentation) "ios_interfaces"
           (YStr "Interfaces resource module")
           (YStr "Manages interface attributes")
           [(INFO, "Found a resource module")]); reflexivity.
Defined.

(** X15. For a module that is not a resource module and is not
    deprecated, the short-description pass does nothing: the tree and the
    log are as before. *)
Theorem update_short_description_ordinary
    (yaml_load : string -> option yaml) (yaml_dump : yaml -> string)
    (st : state) (r0 d0 : nat) (tr td : option (list expr))
    (rtext dtext module_name : string)
    (ret_items doc_items : list (string * yaml)) (sd : yaml) :
  body st !! r0 = Some (Stmt tr (Some (Constant (CStr rtext)))) ->
  body st !! d0 = Some (Stmt td (Some (Constant (CStr dtext)))) ->
  yaml_load rtext = Some (YMap ret_items) ->
  yaml_load dtext = Some (YMap doc_items) ->
  resource_module ret_items = false ->
  OD.get "short_description" doc_items = Some sd ->
  OD.mem "deprecated" doc_items = false ->
  update_short_description yaml_load yaml_dump [r0] [d0] module_name st
  = Ok (tt, st).
Proof.
  intros Hr Hd Lr Ld Hres Hsd Hdep.
  unfold update_short_description. cbn [length Nat.eqb negb].
  unfold bindM at 1. cbn [getitem lookup list_lookup lift].
  unfold bindM at 1. rewrite (load_node_run _ _ _ _ _ _ Hr Lr).
  unfold bindM at 1. cbn [getitem lookup list_lookup lift].
  unfold bindM at 1. rewrite (load_node_run _ _ _ _ _ _ Hd Ld).
  unfold bindM at 1.
  assert (E : short_description_of (YMap ret_items) (YMap doc_items)
                module_name = Ok (sd, [])).
  { unfold short_description_of, detected_description.
    cbn [yaml_getitem yaml_keys]. rewrite Hsd. cbn [bind].
    rewrite rm_rets_matched. unfold resource_module, OD.mem in Hres.
    rewrite Hres. cbn [bind fst snd]. unfold deprecated_step.
    rewrite Hdep. reflexivity. }
  rewrite E. cbn [lift fst snd].
  unfold bindM at 1. cbn [logging_all ret].
  unfold bindM at 1. cbn [yaml_getitem]. rewrite Hsd. cbn [lift].
  rewrite yaml_eqb_refl. reflexivity.
Qed.

Lemma update_short_description_ordinary_witness :
  update_short_description sample_load_ordinary sample_dump [1] [0] "foo"
    (State sample_body_ordinary []) = Ok (tt, State sample_body_ordinary []).
Proof.
  apply (update_short_description_ordinary sample_load_ordinary sample_dump
           (State sample_body_ordinary []) 1 0
           (Some [Name "RETURN"]) (Some [Name "DOCUMENTATION"])
           "changed: {}" "short_description: Foo" "foo"
           [("changed", YMap [])] [("short_description", YStr "Foo")]
           (YStr "Foo")); reflexivity.
Defined.

(** X16. A single DOCUMENTATION assignment whose mapping has no module
    key makes [process] raise [KeyError] on the file: this is not the
    skip made for a missing assignment. *)
Theorem process_file_missing_module_key
    (yaml_load : string -> option yaml) (yaml_dump : yaml -> string)
    (collection filename : string) (st : state) (i : nat)
    (ts : option (list expr)) (text : string)
    (items : list (string * yaml)) :
  find_assigment_in_ast "DOCUMENTATION" (body st) = Ok [i] ->
  body st !! i = Some (Stmt ts (Some (Constant (CStr text)))) ->
  yaml_load text = Some (YMap items) ->
  OD.get "module" items = None ->
  process_file yaml_load yaml_dump collection filename st = Raise KeyError.
Proof.
  intros Hfind Hnode Hload Hmod.
  unfold process_file, bindM at 1. unfold logging at 1.
  unfold bindM at 1, locate at 1. cbn [body log]. rewrite Hfind. cbn [lift].
  unfold bindM at 1, retrieve_module_name. cbn [length Nat.eqb negb].
  unfold bindM at 1. cbn [getitem lookup list_lookup lift].
  unfold bindM at 1.
  rewrite (load_node_run yaml_load
             (State (body st) (log st ++
                [(INFO, "-------------------Processing " +:+ filename)]))
             i ts text (YMap items) Hnode Hload).
  unfold bindM at 1. cbn [yaml_getitem]. rewrite Hmod. reflexivity.
Qed.

Lemma process_file_missing_module_key_witness :
  process_file sample_load_unmoduled sample_dump "cisco.ios" "f.py"
    (State sample_body_ordinary []) = Raise KeyError.
Proof.
  apply (process_file_missing_module_key sample_load_unmoduled sample_dump
           "cisco.ios" "f.py" (State sample_body_ordinary []) 0
           (Some [Name "DOCUMENTATION"]) "short_description: Foo"
           [("short_description", YStr "Foo")]); reflexivity.
Defined.

(** ** The metadata pass, run again *)

(** X17. With exactly one ANSIBLE_METADATA assignment the metadata pass
    is idempotent: it succeeds, and a second run leaves the state of the
    first. *)
Theorem update_metdata_idempotent (st : state) (i : nat) :
  find_assigment_in_ast "ANSIBLE_METADATA" (body st) = Ok [i] ->
  exists st1,
    (bodypart <- locate "ANSIBLE_METADATA" ;; update_metdata bodypart) st
      = Ok (tt, st1) /\
    (bodypart <- locate "ANSIBLE_METADATA" ;; update_metdata bodypart) st1
      = Ok (tt, st1).
Proof.
  intros H.
  destruct (find_assigment_in_ast_lookup _ _ _ i H) as [b Hb]; [now left|].
  set (b1 := Stmt (targets b) (Some meta)).
  assert (Hlt : i < length (body st)) by (eapply lookup_lt_Some; eauto).
  assert (Hb1 : <[i := b1]> (body st) !! i = Some b1)
    by (apply list_lookup_insert_eq; exact Hlt).
  exists (State (<[i := b1]> (body st)) (log st)). split.
  - unfold bindM. rewrite (locate_run _ _ _ H).
    unfold update_metdata, bindM. cbn [length Nat.eqb negb lift getitem
                                        lookup list_lookup].
    rewrite (set_node_value_run _ _ _ _ Hb). reflexivity.
  - assert (H1 : find_assigment_in_ast "ANSIBLE_METADATA"
                   (body (State (<[i := b1]> (body st)) (log st))) = Ok [i]).
    { cbn [body]. unfold b1. rewrite (find_insert_value _ _ _ _ _ Hb).
      exact H. }
    unfold bindM. rewrite (locate_run _ _ _ H1).
    unfold update_metdata, bindM. cbn [length Nat.eqb negb lift getitem
                                        lookup list_lookup].
    rewrite (set_node_value_run
               (State (<[i := b1]> (body st)) (log st)) i b1 meta Hb1).
    cbn [body log targets b1]. unfold b1. cbn [targets].
    rewrite list_insert_insert_eq. reflexivity.
Qed.

Lemma update_metdata_idempotent_witness :
  exists st1,
    (bodypart <- locate "ANSIBLE_METADATA" ;; update_metdata bodypart)
      (State sample_body []) = Ok (tt, st1) /\
    (bodypart <- locate "ANSIBLE_METADATA" ;; update_metdata bodypart) st1
      = Ok (tt, st1).
Proof.
  apply (update_metdata_idempotent (State sample_body []) 1). reflexivity.
Defined.

(** ** The locator: what it returns *)

Lemma find_from_sorted (name : string) (l : list stmt) :
  forall i r, find_from i name l = Ok r ->
  StronglySorted lt r /\ Forall (fun j => i <= j) r.
Proof.
  induction l as [|b l IH]; intros i r H; cbn [find_from] in H.
  - injection H as <-. split; constructor.
  - destruct (is_assignment_of name b) as [m|]; [|discriminate].
    destruct (find_from (S i) name l) as [r'|] eqn:E; [|discriminate].
    cbn [bind] in H. injection H as <-.
    destruct (IH (S i) r' E) as [Hs Hge].
    assert (Hge' : Forall (fun j => i <= j) r').
    { eapply List.Forall_impl; [|exact Hge]. intros j Hj. simpl in Hj. lia. }
    destruct m.
    + split.
      * constructor; [exact Hs|].
        eapply List.Forall_impl; [|exact Hge]. intros j Hj. simpl in Hj. lia.
      * constructor; [lia | exact Hge'].
    + split; [exact Hs | exact Hge'].
Qed.

(** X18. When the locator returns, its result lists, in increasing order
    and without repetition, exactly the positions of the statements whose
    first target is the searched name; every position is in the body. *)
Theorem find_assigment_in_ast_result (name : string) (ast_file : list stmt)
    (r : list nat) :
  find_assigment_in_ast name ast_file = Ok r ->
  StronglySorted lt r /\
  (forall j, In j r <->
     exists b rest, ast_file !! j = Some b /\
                    targets b = Some (Name name :: rest)) /\
  Forall (fun j => j < length ast_file) r.
Proof.
  intros H. split; [|split].
  - exact (proj1 (find_from_sorted _ _ _ _ H)).
  - intros j. exact (find_assigment_in_ast_elem _ _ _ j H).
  - apply List.Forall_forall. intros j Hj.
    apply (find_assigment_in_ast_elem _ _ _ j H) in Hj
      as (b & rest & Hb & _).
    eapply lookup_lt_Some; eauto.
Qed.

Lemma find_assigment_in_ast_result_witness :
  StronglySorted lt [2] /\
  (forall j, In j [2] <->
     exists b rest, sample_body !! j = Some b /\
                    targets b = Some (Name "DOCUMENTATION" :: rest)) /\
  Forall (fun j => j < length sample_body) [2].
Proof.
  apply (find_assigment_in_ast_result "DOCUMENTATION" sample_body [2]).
  reflexivity.
Defined.

(** ** The text that is written, line by line *)

Lemma splitlines_aux_line (line : string) :
  no_linebreak line = true ->
  forall cur rest,
  Py.splitlines_aux false cur (line +:+ rest)
  = Py.splitlines_aux false (String.rev_app line cur) rest.
Proof.
  induction line as [|c line IH]; intros H cur rest; [reflexivity|].
  cbn [no_linebreak] in H. apply andb_true_iff in H as [Hc H].
  apply negb_true_iff in Hc.
  change (String c line +:+ rest) with (String c (line +:+ rest)).
  cbn [Py.splitlines_aux andb]. rewrite Hc.
  rewrite (IH H). reflexivity.
Qed.

(** Splitting the joined lines gives the lines back, but for an empty
    last line. *)
Lemma splitlines_join (l : list string) :
  Forall (fun x => no_linebreak x = true) l ->
  Py.splitlines (Py.join (String (ascii_of_nat 10) "") l) = drop_last_empty l.
Proof.
  induction l as [|x l IH]; intros H; [reflexivity|].
  apply Forall_cons in H as [Hx Hl]. unfold Py.splitlines in *.
  destruct l as [|y l].
  - cbn [Py.join drop_last_empty].
    rewrite <- (append_nil_r x) at 1.
    rewrite (splitlines_aux_line x Hx). cbn [Py.splitlines_aux].
    destruct x as [|a x]; [reflexivity|].
    destruct (String.rev_app (String a x) "") eqn:E.
    + apply (f_equal String.rev) in E. rewrite rev_rev_app in E.
      discriminate.
    + rewrite <- E, rev_rev_app. reflexivity.
  - change (Py.join (String (ascii_of_nat 10) "") (x :: y :: l))
      with (x +:+ String (ascii_of_nat 10)
                    (Py.join (String (ascii_of_nat 10) "") (y :: l))).
    rewrite (splitlines_aux_line x Hx).
    cbn [Py.splitlines_aux andb].
    change (Py.is_linebreak (ascii_of_nat 10)) with true. cbn iota.
    change (Py.is_cr (ascii_of_nat 10)) with false.
    rewrite rev_rev_app, (IH Hl). reflexivity.
Qed.

Lemma drop_last_empty_incl (l : list string) (x : string) :
  In x (drop_last_empty l) -> In x l.
Proof.
  induction l as [|y l IH]; [intros []|].
  destruct l as [|z l].
  - cbn [drop_last_empty]. destruct y; [intros [] | exact (fun H => H)].
  - change (drop_last_empty (y :: z :: l))
      with (y :: drop_last_empty (z :: l)).
    intros [<-|H]; [now left | right; exact (IH H)].
Qed.

(** X19. The lines of the documentation text that is written are the
    lines of the dump that do not match the pattern, less a last line that
    is empty: read line by line again, the written text has no line that
    matches. *)
Theorem drop_version_added_lines_written (repl : string) :
  Py.splitlines (drop_version_added repl)
  = drop_last_empty
      (List.filter (fun l => negb (version_added_re l))
         (Py.splitlines repl)) /\
  Forall (fun l => version_added_re l = false)
    (Py.splitlines (drop_version_added repl)).
Proof.
  assert (E : Py.splitlines (drop_version_added repl)
              = drop_last_empty
                  (List.filter (fun l => negb (version_added_re l))
                     (Py.splitlines repl))).
  { unfold drop_version_added. apply splitlines_join.
    apply List.Forall_forall. intros x Hx. apply filter_In in Hx as [Hx _].
    pose proof (splitlines_aux_no_linebreak repl false EmptyString eq_refl)
      as Hall.
    rewrite List.Forall_forall in Hall. exact (Hall x Hx). }
  split; [exact E|]. rewrite E.
  apply List.Forall_forall. intros x Hx. apply drop_last_empty_incl in Hx.
  apply filter_In in Hx as [_ Hx]. apply negb_true_iff in Hx. exact Hx.
Qed.

Lemma startswith_no_linebreak (p s : string) :
  Py.startswith p s = true -> no_linebreak s = true -> no_linebreak p = true.
Proof.
  revert s. induction p as [|a p IH]; intros s H Hs; [reflexivity|].
  destruct s as [|b s]; [discriminate|].
  cbn [Py.startswith] in H. destruct (Ascii.eqb a b) eqn:E; [|discriminate].
  apply Ascii.eqb_eq in E. subst b.
  cbn [no_linebreak] in *. apply andb_true_iff in Hs as [Ha Hs].
  rewrite Ha, (IH s H Hs). reflexivity.
Qed.

Lemma contains_no_linebreak (p s : string) :
  Py.contains p s = true -> no_linebreak s = true -> no_linebreak p = true.
Proof.
  induction s as [|c s IH]; intros H Hs.
  - cbn [Py.contains] in H. rewrite orb_false_r in H.
    exact (startswith_no_linebreak _ _ H Hs).
  - cbn [Py.contains] in H. apply orb_true_iff in H as [H|H].
    + exact (startswith_no_linebreak _ _ H Hs).
    + cbn [no_linebreak] in Hs. apply andb_true_iff in Hs as [_ Hs].
      exact (IH H Hs).
Qed.

Lemma replace_aux_no_linebreak (old new : string) (s : string) :
  no_linebreak new = true -> no_linebreak s = true ->
  forall skip, no_linebreak (Py.replace_aux old new skip s) = true.
Proof.
  intros Hnew. induction s as [|c s IH]; intros Hs skip; [reflexivity|].
  cbn [no_linebreak] in Hs. apply andb_true_iff in Hs as [Hc Hs].
  cbn [Py.replace_aux]. destruct skip as [|k]; [|exact (IH Hs k)].
  destruct (Py.startswith old (String c s)).
  - apply no_linebreak_append; [exact Hnew | exact (IH Hs _)].
  - cbn [no_linebreak]. rewrite Hc, (IH Hs 0). reflexivity.
Qed.

Lemma fqcn_comment_no_linebreak (mn collection line : string) :
  no_linebreak collection = true -> no_linebreak line = true ->
  no_linebreak (fqcn_comment mn (full_name collection mn) line) = true.
Proof.
  intros Hc Hl. unfold fqcn_comment.
  destruct (Py.startswith "#" line && Py.contains mn line
            && negb (String.eqb mn "")
            && negb (Py.contains (full_name collection mn) line)) eqn:E;
    [|exact Hl].
  apply andb_true_iff in E as [E _]. apply andb_true_iff in E as [E Hmn].
  apply andb_true_iff in E as [_ Hin].
  pose proof (contains_no_linebreak _ _ Hin Hl) as Hclean.
  unfold Py.replace. destruct mn as [|a mn]; [discriminate|].
  apply replace_aux_no_linebreak; [|exact Hl].
  unfold full_name. apply no_linebreak_append; [exact Hc|].
  apply no_linebreak_append; [reflexivity | exact Hclean].
Qed.

Lemma fqcn_comment_post (mn full line : string) :
  Py.startswith "#" (fqcn_comment mn full line) = true ->
  Py.contains mn (fqcn_comment mn full line) = true ->
  mn <> "" ->
  Py.contains full (fqcn_comment mn full line) = true.
Proof.
  intros Hs Hin Hmn. unfold fqcn_comment in *.
  destruct (Py.startswith "#" line && Py.contains mn line
            && negb (String.eqb mn "")
            && negb (Py.contains full line)) eqn:E.
  - apply andb_true_iff in E as [E _]. apply andb_true_iff in E as [E _].
    apply andb_true_iff in E as [_ Hl].
    apply replace_contains; assumption.
  - rewrite Hs, Hin in E. apply String.eqb_neq in Hmn. rewrite Hmn in E.
    cbn [andb negb] in E. apply negb_false_iff in E. exact E.
Qed.

(** X20. When the collection name holds no line boundary, every comment
    line of the examples text that is written which names the module names
    it fully qualified. *)
Theorem fqcn_comments_qualified (module_name collection repl line : string) :
  no_linebreak collection = true ->
  module_name <> "" ->
  In line (Py.splitlines
             (fqcn_comments module_name (full_name collection module_name)
                repl)) ->
  Py.startswith "#" line = true ->
  Py.contains module_name line = true ->
  Py.contains (full_name collection module_name) line = true.
Proof.
  intros Hc Hmn Hin Hs Hm. unfold fqcn_comments in Hin.
  rewrite splitlines_join in Hin.
  - apply drop_last_empty_incl in Hin.
    apply in_map_iff in Hin as (l & <- & _).
    apply fqcn_comment_post; assumption.
  - apply List.Forall_forall. intros x Hx.
    apply in_map_iff in Hx as (l & <- & Hl).
    apply fqcn_comment_no_linebreak; [exact Hc|].
    pose proof (splitlines_aux_no_linebreak repl false EmptyString eq_refl)
      as Hall.
    rewrite List.Forall_forall in Hall. exact (Hall l Hl).
Qed.

Lemma fqcn_comments_qualified_witness :
  Py.contains (full_name "cisco.ios" "ios_interfaces")
    "# Using merged with cisco.ios.ios_interfaces" = true.
Proof.
  apply (fqcn_comments_qualified "ios_interfaces" "cisco.ios"
           sample_examples_qualified_text
           "# Using merged with cisco.ios.ios_interfaces").
  - reflexivity.
  - discriminate.
  - vm_compute. now left.
  - reflexivity.
  - reflexivity.
Defined.

(** ** The examples pass, run on what it produced *)

(** X25. The renaming of the examples pass is idempotent: run on a
    document that it produced it gives that document back, and no task of
    such a document has the bare module name as a key. *)
Theorem fqcn_example_idempotent (module_name collection : string)
    (example example' : yaml) :
  fqcn_example module_name (full_name collection module_name) example
    = Ok example' ->
  fqcn_example module_name (full_name collection module_name) example'
    = Ok example' /\
  forall tasks' items',
    example' = YSeq tasks' -> In (YMap items') tasks' ->
    ~ In module_name (OD.keys items').
Proof.
  intros H.
  exact (fqcn_example_fixed _ _ _ _ (full_name_ne collection module_name) H).
Qed.

Lemma fqcn_example_idempotent_witness :
  fqcn_example "ios_interfaces" (full_name "cisco.ios" "ios_interfaces")
    (YSeq sample_tasks_qualified) = Ok (YSeq sample_tasks_qualified) /\
  forall tasks' items',
    YSeq sample_tasks_qualified = YSeq tasks' -> In (YMap items') tasks' ->
    ~ In "ios_interfaces" (OD.keys items').
Proof.
  apply (fqcn_example_idempotent "ios_interfaces" "cisco.ios"
           (YSeq sample_tasks) (YSeq sample_tasks_qualified)).
  reflexivity.
Defined.

(** X26. The substitution on a line of the dumped examples is not
    repeated: a line that holds the fully-qualified name is left as it
    is, and the line that the substitution gives is left as it is by a
    second one. *)
Theorem fqcn_comment_idempotent (module_name full_module_name line : string) :
  (Py.contains full_module_name line = true ->
   fqcn_comment module_name full_module_name line = line) /\
  fqcn_comment module_name full_module_name
    (fqcn_comment module_name full_module_name line)
  = fqcn_comment module_name full_module_name line.
Proof.
  split; [apply fqcn_comment_qualified | apply fqcn_comment_idem].
Qed.

Lemma map_fixed {A} (f : A -> A) (l : list A) :
  Forall (fun x => f x = x) l -> map f l = l.
Proof.
  induction 1 as [|x l Hx _ IH]; [reflexivity|].
  cbn [map]. rewrite Hx, IH. reflexivity.
Qed.

Lemma fqcn_comment_nonempty (mn full line : string) :
  full <> "" -> fqcn_comment mn full line = "" -> line = "".
Proof.
  intros Hfull H. unfold fqcn_comment in H.
  destruct (Py.startswith "#" line && Py.contains mn line
            && negb (String.eqb mn "") && negb (Py.contains full line))
    eqn:E; [|exact H].
  exfalso.
  apply andb_true_iff in E as [E _]. apply andb_true_iff in E as [E Hmn].
  apply andb_true_iff in E as [_ Hin].
  apply negb_true_iff, String.eqb_neq in Hmn.
  pose proof (replace_contains mn full line Hmn Hin) as Hc.
  rewrite H in Hc. destruct full; [congruence | discriminate Hc].
Qed.

Lemma drop_last_empty_map (f : string -> string) (l : list string) :
  (forall x, f x = "" -> x = "") ->
  drop_last_empty l = l -> drop_last_empty (map f l) = map f l.
Proof.
  intros Hf. induction l as [|x l IH]; intros H; [reflexivity|].
  destruct l as [|y l].
  - cbn [drop_last_empty] in H. cbn [map drop_last_empty].
    destruct (f x) eqn:E; [|reflexivity].
    apply Hf in E. subst x. discriminate H.
  - change (drop_last_empty (x :: y :: l))
      with (x :: drop_last_empty (y :: l)) in H.
    injection H as H.
    change (drop_last_empty (map f (x :: y :: l)))
      with (f x :: drop_last_empty (map f (y :: l))).
    rewrite (IH H). reflexivity.
Qed.

(** X27. The text edit of the examples pass, run on the text that it
    wrote, changes no line: when the collection name holds no line
    boundary, it gives the lines of the first run less a last line that is
    empty. When the last line of the dump is not empty, the second run
    gives the text of the first. *)
Theorem fqcn_comments_twice (module_name collection repl : string) :
  no_linebreak collection = true ->
  fqcn_comments module_name (full_name collection module_name)
    (fqcn_comments module_name (full_name collection module_name) repl)
  = Py.join (String (ascii_of_nat 10) "")
      (drop_last_empty
         (map (fqcn_comment module_name (full_name collection module_name))
            (Py.splitlines repl))) /\
  (drop_last_empty (Py.splitlines repl) = Py.splitlines repl ->
   fqcn_comments module_name (full_name collection module_name)
     (fqcn_comments module_name (full_name collection module_name) repl)
   = fqcn_comments module_name (full_name collection module_name) repl).
Proof.
  intros Hc.
  set (full := full_name collection module_name).
  assert (E : fqcn_comments module_name full
                (fqcn_comments module_name full repl)
              = Py.join (String (ascii_of_nat 10) "")
                  (drop_last_empty
                     (map (fqcn_comment module_name full)
                        (Py.splitlines repl)))).
  { unfold fqcn_comments at 1. unfold fqcn_comments at 1.
    rewrite splitlines_join.
    - rewrite map_fixed; [reflexivity|].
      apply List.Forall_forall. intros y Hy.
      apply drop_last_empty_incl in Hy.
      apply in_map_iff in Hy as (x & <- & _). apply fqcn_comment_idem.
    - apply List.Forall_forall. intros y Hy.
      apply in_map_iff in Hy as (x & <- & Hx).
      apply fqcn_comment_no_linebreak; [exact Hc|].
      exact (splitlines_no_linebreak repl x Hx). }
  split; [exact E|]. intros Hlast. rewrite E.
  rewrite drop_last_empty_map; [reflexivity| |exact Hlast].
  intros x. apply fqcn_comment_nonempty.
  unfold full, full_name. intros H.
  apply (f_equal String.length) in H. rewrite !length_append in H.
  simpl in H. lia.
Qed.

Lemma fqcn_comments_twice_witness :
  fqcn_comments "ios_interfaces" (full_name "cisco.ios" "ios_interfaces")
    (fqcn_comments "ios_interfaces" (full_name "cisco.ios" "ios_interfaces")
       sample_examples_text)
  = Py.join (String (ascii_of_nat 10) "")
      (drop_last_empty
         (map (fqcn_comment "ios_interfaces"
                 (full_name "cisco.ios" "ios_interfaces"))
            (Py.splitlines sample_examples_text))) /\
  (drop_last_empty (Py.splitlines sample_examples_text)
   = Py.splitlines sample_examples_text ->
   fqcn_comments "ios_interfaces" (full_name "cisco.ios" "ios_interfaces")
     (fqcn_comments "ios_interfaces" (full_name "cisco.ios" "ios_interfaces")
        sample_examples_text)
   = fqcn_comments "ios_interfaces" (full_name "cisco.ios" "ios_interfaces")
       sample_examples_text).
Proof.
  apply (fqcn_comments_twice "ios_interfaces" "cisco.ios"
           sample_examples_text).
  reflexivity.
Defined.

Example fqcn_comments_sample :
  fqcn_comments "ios_interfaces" "cisco.ios.ios_interfaces"
    sample_examples_text
  =
"# Using merged with cisco.ios.ios_interfaces
- name: Merge provided configuration
  ios_interfaces:
    state: merged
- name: Gather facts
  ios_facts:
    gather_subset: all".
Proof. reflexivity. Qed.

(** A text that ends with an empty line loses it at each run. *)
Example fqcn_comments_blank_last_line :
  fqcn_comments "m" "c.m" (String "a" (String (ascii_of_nat 10)
                             (String (ascii_of_nat 10) "")))
    = String "a" (String (ascii_of_nat 10) "") /\
  fqcn_comments "m" "c.m" (String "a" (String (ascii_of_nat 10) "")) = "a".
Proof. split; reflexivity. Qed.

(** ** A module name that is not a string *)

(** A documentation whose module is the number 5, without RETURN block
    and without comment in the examples: the file is written. *)
Example process_file_numeric_module :
  exists lg,
    process_file sample_load_numeric sample_dump_numeric "cisco.ios" "five.py"
      (State sample_body_numeric [])
    = Ok (Written,
          State
            [Assign [Name "ANSIBLE_METADATA"] meta;
             Assign [Name "DOCUMENTATION"]
               (Constant (CStr (drop_version_added
                                  sample_numeric_edited_text)));
             Assign [Name "EXAMPLES"]
               (Constant (CStr
"- name: Run the fifth module
  ping: {}"));
             Pass]
            lg).
Proof. eexists. vm_compute. reflexivity. Qed.

(** With a comment in the examples, [module_name in line] raises. *)
Example process_file_numeric_module_comment :
  process_file sample_load_numeric_commented sample_dump_numeric_commented
    "cisco.ios" "five.py" (State sample_body_numeric_commented [])
  = Raise TypeError.
Proof. vm_compute. reflexivity. Qed.

(** ** The batch *)

Lemma process_file_locator_raise
    (yaml_load : string -> option yaml) (yaml_dump : yaml -> string)
    (collection filename : string) (st : state) (e : exn) :
  find_assigment_in_ast "DOCUMENTATION" (body st) = Raise e ->
  process_file yaml_load yaml_dump collection filename st = Raise e.
Proof.
  intros E. unfold process_file, bindM, logging, locate, lift. cbn [body].
  rewrite E. reflexivity.
Qed.

Section BatchProperties.

Variable yaml_load : string -> option yaml.
Variable yaml_dump : yaml -> string.
Variable listdir : string -> option (list string).
Variable load_py_as_ast : string -> option (list stmt).
Variable black : string -> bool.

Lemma process_file_written_tree (collection filename : string)
    (st st' : state) :
  process_file yaml_load yaml_dump collection filename st
    = Ok (Written, st') ->
  map targets (body st') = map targets (body st) /\
  forall i,
    find_assigment_in_ast "ANSIBLE_METADATA" (body st) = Ok [i] ->
    value <$> body st' !! i = Some (Some meta).
Proof.
  intros H.
  destruct (process_file_inv _ _ _ _ _ _ _ H)
    as [[Ho _] | (_ & [T _] & Hmeta)]; [discriminate|].
  split; assumption.
Qed.

Lemma written_from_cons (dirpath name : string) (names : list string)
    (f : string) (t : list stmt) :
  written_from load_py_as_ast dirpath names f t ->
  written_from load_py_as_ast dirpath (name :: names) f t.
Proof.
  intros (n & a & Hin & H). exists n, a. split; [now right | exact H].
Qed.

Lemma process_files_more (collection dirpath : string) (names : list string) :
  forall b,
  exists more,
    files_of (process_files yaml_load yaml_dump load_py_as_ast black
                collection dirpath names b)
    = written b ++ more /\
    forall f t,
      In (f, t) more -> written_from load_py_as_ast dirpath names f t.
Proof.
  induction names as [|name names IH]; intros b; cbn [process_files].
  - exists []. rewrite app_nil_r. split; [reflexivity | intros ? ? []].
  - destruct (endswith ".py" name) eqn:Epy.
    + destruct (load_py_as_ast (dirpath +:+ "/" +:+ name)) as [ast|] eqn:El.
      * destruct (process_file yaml_load yaml_dump collection
                    (dirpath +:+ "/" +:+ name) (State ast (batch_log b)))
          as [[[|] st]|e] eqn:Ep.
        -- destruct (IH (Batch (written b) (log st))) as (more & Hw & Hm).
           exists more. split; [exact Hw|].
           intros f t Hin. apply written_from_cons. eauto.
        -- apply process_file_written_tree in Ep as [T Hmeta].
           cbn [body] in T, Hmeta.
           assert (Hthis : written_from load_py_as_ast dirpath
                             (name :: names)
                             (dirpath +:+ "/" +:+ name) (body st)).
           { exists name, ast. repeat split; auto. now left. }
           destruct (black (dirpath +:+ "/" +:+ name)).
           ++ destruct (IH (Batch (written b ++
                                     [(dirpath +:+ "/" +:+ name, body st)])
                                  (log st))) as (more & Hw & Hm).
              exists ((dirpath +:+ "/" +:+ name, body st) :: more).
              cbn [written] in Hw. rewrite Hw, <- app_assoc.
              split; [reflexivity|].
              intros f t [E|Hin].
              ** injection E as <- <-. exact Hthis.
              ** apply written_from_cons. eauto.
           ++ exists [(dirpath +:+ "/" +:+ name, body st)].
              split; [reflexivity|].
              intros f t [E|[]]. injection E as <- <-. exact Hthis.
        -- exists []. cbn [files_of]. rewrite app_nil_r.
           split; [reflexivity | intros ? ? []].
      * exists []. cbn [files_of]. rewrite app_nil_r.
        split; [reflexivity | intros ? ? []].
    + destruct (IH b) as (more & Hw & Hm). exists more.
      split; [exact Hw|]. intros f t Hin. apply written_from_cons. eauto.
Qed.

(** X21. The batch only adds to the files written, whether it goes to its
    end or stops; every file that it writes from a directory is a name of
    the listing that ends in [.py], under the path of the directory; the
    tree written has the targets of the tree that was parsed, statement
    by statement, and its single ANSIBLE_METADATA assignment, if any,
    holds the fixed mapping. *)
Theorem process_files_written (collection dirpath : string)
    (names : list string) (b : batch) :
  exists more,
    files_of (process_files yaml_load yaml_dump load_py_as_ast black
                collection dirpath names b)
    = written b ++ more /\
    forall f t,
      In (f, t) more ->
      exists name ast_obj,
        In name names /\ endswith ".py" name = true /\
        f = dirpath +:+ "/" +:+ name /\
        load_py_as_ast f = Some ast_obj /\
        map targets t = map targets ast_obj /\
        forall i,
          find_assigment_in_ast "ANSIBLE_METADATA" ast_obj = Ok [i] ->
          value <$> t !! i = Some (Some meta).
Proof. apply process_files_more. Qed.

Lemma process_files_app (collection dirpath : string)
    (pre post : list string) :
  forall b,
  process_files yaml_load yaml_dump load_py_as_ast black collection dirpath
    (pre ++ post) b
  = match process_files yaml_load yaml_dump load_py_as_ast black collection
            dirpath pre b with
    | Completed b1 =>
        process_files yaml_load yaml_dump load_py_as_ast black collection
          dirpath post b1
    | Halted files h => Halted files h
    end.
Proof.
  induction pre as [|name pre IH]; intros b; [reflexivity|].
  cbn [app process_files].
  destruct (endswith ".py" name); [|apply IH].
  destruct (load_py_as_ast (dirpath +:+ "/" +:+ name)); [|reflexivity].
  destruct (process_file _ _ _ _ _) as [[[|] st]|e]; [apply IH| |reflexivity].
  destruct (black _); [apply IH | reflexivity].
Qed.

(** X22. A Python file with a top-level statement whose first target is
    not a plain name stops the batch with the exception of the locator:
    whatever is listed after it is not processed, and the files written
    are those written from the names listed before it. *)
Theorem process_files_halts (collection dirpath name : string)
    (pre post : list string) (b b1 : batch) (ast_obj : list stmt) :
  process_files yaml_load yaml_dump load_py_as_ast black collection dirpath
    pre b = Completed b1 ->
  endswith ".py" name = true ->
  load_py_as_ast (dirpath +:+ "/" +:+ name) = Some ast_obj ->
  forallb plain_target ast_obj = false ->
  exists e,
    find_assigment_in_ast "DOCUMENTATION" ast_obj = Raise e /\
    process_files yaml_load yaml_dump load_py_as_ast black collection dirpath
      (pre ++ name :: post) b = Halted (written b1) (Raised e).
Proof.
  intros Hpre Hpy Hload Hplain.
  pose proof (find_from_ok "DOCUMENTATION" ast_obj 0) as Hok.
  rewrite Hplain in Hok.
  destruct (find_assigment_in_ast "DOCUMENTATION" ast_obj) as [r|e] eqn:E.
  { unfold find_assigment_in_ast in E. rewrite E in Hok. discriminate. }
  exists e. split; [reflexivity|].
  rewrite process_files_app, Hpre. cbn [process_files].
  rewrite Hpy, Hload.
  rewrite (process_file_locator_raise yaml_load yaml_dump collection
             (dirpath +:+ "/" +:+ name) (State ast_obj (batch_log b1)) e E).
  reflexivity.
Qed.

(** X23. The names that do not end in [.py] play no part: the batch over
    a listing is the batch over its Python files. *)
Theorem process_files_python_only (collection dirpath : string)
    (names : list string) (b : batch) :
  process_files yaml_load yaml_dump load_py_as_ast black collection dirpath
    names b
  = process_files yaml_load yaml_dump load_py_as_ast black collection dirpath
      (List.filter (endswith ".py") names) b.
Proof.
  revert b. induction names as [|name names IH]; intros b; [reflexivity|].
  cbn [process_files List.filter].
  destruct (endswith ".py" name) eqn:Epy; [|apply IH].
  cbn [process_files]. rewrite Epy.
  destruct (load_py_as_ast (dirpath +:+ "/" +:+ name)); [|reflexivity].
  destruct (process_file _ _ _ _ _) as [[[|] st]|e]; [apply IH| |reflexivity].
  destruct (black _); [apply IH | reflexivity].
Qed.

Lemma process_subdirs_more (collection path : string)
    (subdirs : list string) :
  forall b,
  (forall s, In s subdirs -> In s SUBDIRS) ->
  forall f t,
    In (f, t) (files_of (process_subdirs yaml_load yaml_dump listdir
                           load_py_as_ast black collection path subdirs b)) ->
    In (f, t) (written b) \/
    exists subdir names,
      In subdir SUBDIRS /\
      listdir (path +:+ collection +:+ "/plugins/" +:+ subdir)
        = Some names /\
      written_from load_py_as_ast
        (path +:+ collection +:+ "/plugins/" +:+ subdir) names f t.
Proof.
  induction subdirs as [|subdir subdirs IH]; intros b Hsub f t Hin;
    cbn [process_subdirs] in Hin; [now left|].
  destruct (listdir (path +:+ collection +:+ "/plugins/" +:+ subdir))
    as [names|] eqn:El; [|now left].
  destruct (process_files_more collection
              (path +:+ collection +:+ "/plugins/" +:+ subdir) names b)
    as (more & Hw & Hm).
  assert (Hhere : forall f0 t0,
            In (f0, t0) (written b ++ more) ->
            In (f0, t0) (written b) \/
            exists subdir0 names0,
              In subdir0 SUBDIRS /\
              listdir (path +:+ collection +:+ "/plugins/" +:+ subdir0)
                = Some names0 /\
              written_from load_py_as_ast
                (path +:+ collection +:+ "/plugins/" +:+ subdir0)
                names0 f0 t0).
  { intros f0 t0 H0. apply in_app_iff in H0 as [H0|H0]; [now left|].
    right. exists subdir, names. split; [apply Hsub; now left|].
    split; [exact El | exact (Hm f0 t0 H0)]. }
  destruct (process_files _ _ _ _ _ _ names b) as [b'|files h];
    cbn [files_of] in Hw.
  - destruct (IH b' (fun s Hs => Hsub s (or_intror Hs)) f t Hin)
      as [H'|H']; [|now right].
    rewrite Hw in H'. exact (Hhere f t H').
  - cbn [files_of] in Hin. rewrite Hw in Hin. exact (Hhere f t Hin).
Qed.

(** X24. Every file written by [process], whether the batch goes to its
    end or stops, is a Python file listed in [plugins/modules] or
    [plugins/action] of the collection, written under the path of that
    directory, with a tree that has the targets of the parsed one and the
    fixed metadata. *)
Theorem process_written (collection path f : string) (t : list stmt) :
  In (f, t) (files_of (process yaml_load yaml_dump listdir load_py_as_ast
                         black collection path)) ->
  exists subdir names name ast_obj,
    In subdir SUBDIRS /\
    listdir (path +:+ collection +:+ "/plugins/" +:+ subdir) = Some names /\
    In name names /\ endswith ".py" name = true /\
    f = (path +:+ collection +:+ "/plugins/" +:+ subdir) +:+ "/" +:+ name /\
    load_py_as_ast f = Some ast_obj /\
    map targets t = map targets ast_obj /\
    forall i,
      find_assigment_in_ast "ANSIBLE_METADATA" ast_obj = Ok [i] ->
      value <$> t !! i = Some (Some meta).
Proof.
  intros Hin. unfold process in Hin.
  destruct (process_subdirs_more collection path SUBDIRS (Batch [] [])
              (fun s Hs => Hs) f t Hin)
    as [[] | (subdir & names & Hs & Hl & name & ast & H)].
  exists subdir, names, name, ast. split; [exact Hs|]. split; [exact Hl|].
  exact H.
Qed.

End BatchProperties.

Example process_sample :
  exists lg,
    process sample_load sample_dump sample_listdir sample_load_py_as_ast
      (fun _ => true) "cisco.ios" "collections/"
    = Completed
        (Batch [("collections/cisco.ios/plugins/modules/ios_interfaces.py",
                 body sample_state_final)] lg).
Proof. eexists. vm_compute. reflexivity. Qed.

Example process_sample_broken :
  process sample_load sample_dump sample_listdir_broken
    sample_load_py_as_ast_broken (fun _ => true) "cisco.ios" "collections/"
  = Halted [] (Raised AttributeError).
Proof. vm_compute. reflexivity. Qed.

Lemma process_files_halts_witness :
  exists e,
    find_assigment_in_ast "DOCUMENTATION"
      [Assign [Tuple [Name "a"; Name "b"]] (Name "c")] = Raise e /\
    process_files sample_load sample_dump sample_load_py_as_ast_broken
      (fun _ => true) "cisco.ios" "collections/cisco.ios/plugins/modules"
      (["__init__.py"] ++ "broken.py" :: ["ios_interfaces.py"]) (Batch [] [])
    = Halted [] (Raised e).
Proof.
  apply (process_files_halts sample_load sample_dump
           sample_load_py_as_ast_broken (fun _ => true) "cisco.ios"
           "collections/cisco.ios/plugins/modules" "broken.py"
           ["__init__.py"] ["ios_interfaces.py"] (Batch [] [])
           (Batch []
              [(INFO, "-------------------Processing "
                      +:+ "collections/cisco.ios/plugins/modules/__init__.py");
               (WARNING, "Failed to find DOCUMENTATION assignment");
               (WARNING,
                "Skipped collections/cisco.ios/plugins/modules/__init__.py"
                +:+ ": No module name found")])
           [Assign [Tuple [Name "a"; Name "b"]] (Name "c")]);
    reflexivity.
Defined.

Lemma process_written_witness :
  exists subdir names name ast_obj,
    In subdir SUBDIRS /\
    sample_listdir ("collections/" +:+ "cisco.ios" +:+ "/plugins/" +:+ subdir)
      = Some names /\
    In name names /\ endswith ".py" name = true /\
    "collections/cisco.ios/plugins/modules/ios_interfaces.py"
      = ("collections/" +:+ "cisco.ios" +:+ "/plugins/" +:+ subdir)
        +:+ "/" +:+ name /\
    sample_load_py_as_ast
      "collections/cisco.ios/plugins/modules/ios_interfaces.py"
      = Some ast_obj /\
    map targets (body sample_state_final) = map targets ast_obj /\
    forall i,
      find_assigment_in_ast "ANSIBLE_METADATA" ast_obj = Ok [i] ->
      value <$> body sample_state_final !! i = Some (Some meta).
Proof.
  apply (process_written sample_load sample_dump sample_listdir
           sample_load_py_as_ast (fun _ => true) "cisco.ios" "collections/"
           "collections/cisco.ios/plugins/modules/ios_interfaces.py"
           (body sample_state_final)).
  vm_compute. left. reflexivity.
Defined.
